(** * Session orchestration of the embeddable chat widget (src/App.tsx, src/types.ts)

    A shallow embedding of the [App] component: its React state, the
    handlers it defines ([handleError], [clearError], [handleMessage],
    [getFileFromPayload], [handleInitChat], [handleResetChat],
    [handleSendMessage], [handleUnload]) and the effects they perform
    (calls to [geminiService], [fetch], [atob], [postMessage], [console]).

    - A handler is a computation in a small monad [M] that threads the
      component, collects the effects in program order and propagates
      thrown values; [try_catch], [try_finally] and [try_assign_catch]
      are the [try] statements of the source.
    - The outcome of every external call is read from a [World], one per
      processed input, so that every theorem quantifies over all
      behaviours of the backend and of the network.
    - Asynchronous handlers are run to completion: an input is processed
      until its promise settles before the next one is dispatched.
      Interleavings of several handlers in flight are outside this model.
    - The ['message'] listener is registered by an effect that depends on
      [status] only, so the handlers it calls are closures of the render
      in which [status] last changed; the component records that render
      ([listener]) next to the current hook state ([live]). *)

From Stdlib Require Import String Ascii List Bool Arith NArith ZArith Lia.
From Stdlib.Strings Require Import Byte.
From Stdlib Require Import DecimalString.
Import ListNotations.

Local Open Scope list_scope.
Local Open Scope string_scope.

(** ** JavaScript values used by the component *)

Module JS.

(** Truthiness of a string: only the empty string is falsy. *)
Definition truthy (s : string) : bool := negb (s =? EmptyString).

(** Truthiness of an optional string ([undefined] / [null] are falsy). *)
Definition truthy_opt (o : option string) : bool :=
  match o with
  | Some s => truthy s
  | None => false
  end.

(** [a || b] on strings. *)
Definition or_else (a b : string) : string :=
  if truthy a then a else b.

(** [a || b] where [a] may be [undefined]. *)
Definition opt_or_else (a : option string) (b : string) : string :=
  match a with
  | Some s => or_else s b
  | None => b
  end.

(** Decimal rendering of a non-negative integer inside a template string. *)
Definition string_of_nat (n : nat) : string :=
  NilZero.string_of_uint (Nat.to_uint n).

Definition string_of_N (n : N) : string :=
  NilZero.string_of_uint (N.to_uint n).

(** ASCII lowercase: the letters A to Z are replaced by a to z and every
    other character is kept.  This is the conversion the [File] constructor
    applies to a type; [String.prototype.toLowerCase] follows the Unicode
    case mappings and is supplied by the environment (see [World]). *)
Definition lower_ascii (c : ascii) : ascii :=
  let n := nat_of_ascii c in
  if (65 <=? n)%nat && (n <=? 90)%nat then ascii_of_nat (n + 32) else c.

Fixpoint asciiLowerCase (s : string) : string :=
  match s with
  | EmptyString => EmptyString
  | String c r => String (lower_ascii c) (asciiLowerCase r)
  end.

(** [String.prototype.includes]. *)
Fixpoint includes (s needle : string) : bool :=
  if String.prefix needle s then true
  else match s with
       | EmptyString => false
       | String _ r => includes r needle
       end.

(** A value caught by a [catch] clause: an [Error] object with its
    [message], or any other value with its truthiness and its [String(v)]. *)
Inductive Thrown : Type :=
| ErrorObject (message : string)
| OtherValue (isTruthy : bool) (asString : string).

(** [err instanceof Error ? err.message : String(err)] *)
Definition describe (err : Thrown) : string :=
  match err with
  | ErrorObject m => m
  | OtherValue _ s => s
  end.

Definition thrown_truthy (err : Thrown) : bool :=
  match err with
  | ErrorObject _ => true
  | OtherValue t _ => t
  end.

End JS.

(** ** types.ts *)

Module AppStatus.
Inductive t : Type :=
| Initializing
| Welcome
| Uploading
| Chatting
| Error.

Definition eqb (a b : t) : bool :=
  match a, b with
  | Initializing, Initializing
  | Welcome, Welcome
  | Uploading, Uploading
  | Chatting, Chatting
  | Error, Error => true
  | _, _ => false
  end.

End AppStatus.

Module GroundingChunk.
Record retrieved := { text : option string }.
Record t := { retrievedContext : option retrieved }.
End GroundingChunk.

Module QueryResult.
Record t := { text : string; groundingChunks : list GroundingChunk.t }.
End QueryResult.

Inductive Role : Type := user | model.

Module ChatMessage.
Record t := {
  role : Role;
  parts : list string;
  groundingChunks : option (list GroundingChunk.t)
}.
End ChatMessage.

Module InitChatPayloadFile.
Record t := {
  fileName : string;
  mimeType : option string;
  url : option string;
  base64Data : option string
}.
End InitChatPayloadFile.

Module InitChatPayload.
Record t := {
  files : list InitChatPayloadFile.t;
  chatDisplayName : option string;
  apiKey : option string
}.
End InitChatPayload.

(** [ParentMessage]: the [type] tag together with what the handler reads
    from the payload.  The interface does not tie the payload to the tag:
    [initChatNoFiles] is a message tagged ['initChat'] whose payload has no
    [files] member (the payload [{}], or a [SendMessagePayload]), so that
    [initChatPayload.files] is [undefined]; [chatDisplayName] is then the
    [chatDisplayName] member of that payload, if any.  [sendMessage message]
    is a message tagged ['sendMessage'] whose payload has the string
    [message]; the payload of ['resetChat'] is never read.  [otherType]
    stands for any tag that is none of the three. *)
Inductive ParentMessage : Type :=
| initChat (payload : InitChatPayload.t)
| initChatNoFiles (chatDisplayName : option string)
| sendMessage (message : string)
| resetChat
| otherType (type : string).

(** [ChildMessage]: the [type] tag with its payload. *)
Inductive ChildMessage : Type :=
| chatReady (documentName : string)
| chatResponse (text : string) (groundingChunks : list GroundingChunk.t)
| chatError (message : string)
| chatEnded (message : string).

(** ** Platform objects *)

Module File.
Record t := { name : string; type : string; bytes : list byte }.

(** A character in the range U+0020 to U+007E. *)
Definition printable (c : ascii) : bool :=
  (32 <=? nat_of_ascii c)%nat && (nat_of_ascii c <=? 126)%nat.

(** The type a file gets from the [type] member of the constructor's
    options: the empty string if the member has a character outside
    U+0020 to U+007E, and the member in ASCII lowercase otherwise. *)
Definition normalizeType (t : string) : string :=
  if forallb printable (list_ascii_of_string t) then JS.asciiLowerCase t
  else EmptyString.

(** [new File([bits], n, { type: t })] *)
Definition construct (bits : list byte) (n t : string) : File.t :=
  {| name := n; type := normalizeType t; bytes := bits |}.
End File.

Module Blob.
Record t := { type : string; bytes : list byte }.
End Blob.

Module Response.
Record t := { ok : bool; statusText : string; blob : JS.Thrown + Blob.t }.
End Response.

Module UploadProgress.
(** [total] is [None] only for an object spread from a null [prev]. *)
Record t := {
  current : nat;
  total : option nat;
  message : option string;
  fileName : option string
}.
End UploadProgress.

(** ** Base64 *)

Module Base64.

(** The base64 alphabet of RFC 4648, table 1. *)
Definition alphabet : string :=
  "ABCDEFGHIJKLMNOPQRSTUVWXYZabcdefghijklmnopqrstuvwxyz0123456789+/".

Definition char_of_sextet (n : N) : ascii :=
  match String.get (N.to_nat n) alphabet with
  | Some c => c
  | None => "="%char
  end.

Fixpoint index_from (i : N) (c : ascii) (s : string) : option N :=
  match s with
  | EmptyString => None
  | String d r => if Ascii.eqb c d then Some i else index_from (N.succ i) c r
  end.

Definition sextet_of_char (c : ascii) : option N := index_from 0 c alphabet.

(** Modelled from the spec: the host-side encoding of a file's bytes as
    inline base64 ("encoding a file's bytes as inline base64", spec section
    8); the encoder runs in the host page and is not part of src/.  It is the
    padded encoding of RFC 4648 section 4, three bytes to four characters. *)
Fixpoint encode_N (bs : list N) : string :=
  match bs with
  | [] => EmptyString
  | [a] =>
      String (char_of_sextet (a / 4))
        (String (char_of_sextet ((a mod 4) * 16)) "==")
  | [a; b] =>
      String (char_of_sextet (a / 4))
        (String (char_of_sextet ((a mod 4) * 16 + b / 16))
           (String (char_of_sextet ((b mod 16) * 4)) "="))
  | a :: b :: c :: r =>
      String (char_of_sextet (a / 4))
        (String (char_of_sextet ((a mod 4) * 16 + b / 16))
           (String (char_of_sextet ((b mod 16) * 4 + c / 64))
              (String (char_of_sextet (c mod 64)) (encode_N r))))
  end%N.

Definition encode (bs : list byte) : string := encode_N (map Byte.to_N bs).

(** The sextets of the encoding, and the number of "=" that follow them. *)
Fixpoint sextets_of_bytes (bs : list N) : list N :=
  match bs with
  | [] => []
  | [a] => [a / 4; (a mod 4) * 16]
  | [a; b] => [a / 4; (a mod 4) * 16 + b / 16; (b mod 16) * 4]
  | a :: b :: c :: r =>
      a / 4 :: (a mod 4) * 16 + b / 16 :: (b mod 16) * 4 + c / 64 :: c mod 64
        :: sextets_of_bytes r
  end%N.

Fixpoint padding (bs : list N) : list ascii :=
  match bs with
  | [] => []
  | [_] => ["="%char; "="%char]
  | [_; _] => ["="%char]
  | _ :: _ :: _ :: r => padding r
  end.

(** ASCII whitespace: TAB, LF, FF, CR, SPACE. *)
Definition is_ascii_whitespace (c : ascii) : bool :=
  let n := N_of_ascii c in
  ((n =? 9) || (n =? 10) || (n =? 12) || (n =? 13) || (n =? 32))%N.

(** Removal of at most two trailing "=" from a reversed character list. *)
Definition strip_padding_rev (r : list ascii) : list ascii :=
  match r with
  | c1 :: r1 =>
      if Ascii.eqb c1 "=" then
        match r1 with
        | c2 :: r2 => if Ascii.eqb c2 "=" then r2 else r1
        | [] => r1
        end
      else r
  | [] => r
  end.

Fixpoint sextets (cs : list ascii) : option (list N) :=
  match cs with
  | [] => Some []
  | c :: r =>
      match sextet_of_char c, sextets r with
      | Some n, Some ns => Some (n :: ns)
      | _, _ => None
      end
  end.

(** Four sextets give three bytes; a tail of three gives two bytes (the
    last two bits are discarded), a tail of two gives one byte (the last
    four bits are discarded). *)
Fixpoint bytes_of_sextets (ns : list N) : list N :=
  match ns with
  | s0 :: s1 :: s2 :: s3 :: r =>
      (s0 * 4 + s1 / 16) :: ((s1 mod 16) * 16 + s2 / 4)
        :: ((s2 mod 4) * 64 + s3) :: bytes_of_sextets r
  | [s0; s1; s2] => [s0 * 4 + s1 / 16; (s1 mod 16) * 16 + s2 / 4]
  | [s0; s1] => [s0 * 4 + s1 / 16]
  | _ => []
  end%N.

(** The browser built-in [atob] that [getFileFromPayload] calls (the
    forgiving-base64 decode of the HTML standard): ASCII whitespace is
    removed; if the length is then a multiple of four, up to two trailing
    "=" are removed; a length of 1 modulo 4 or a character outside the
    alphabet is an error ([None], an [InvalidCharacterError]); otherwise the
    result is the binary string of the decoded bytes. *)
Definition atob (data : string) : option string :=
  let cs := filter (fun c => negb (is_ascii_whitespace c)) (list_ascii_of_string data) in
  let cs := if (length cs mod 4 =? 0)%nat then rev (strip_padding_rev (rev cs)) else cs in
  if (length cs mod 4 =? 1)%nat then None
  else match sextets cs with
       | None => None
       | Some ns => Some (string_of_list_ascii (map ascii_of_N (bytes_of_sextets ns)))
       end.

(** [String.prototype.charCodeAt] over a binary string. *)
Definition charCodes (s : string) : list N := map N_of_ascii (list_ascii_of_string s).

(** [new Uint8Array(numbers)]: every element is taken modulo 256. *)
Definition Uint8Array (ns : list N) : list byte :=
  map (fun n => byte_of_ascii (ascii_of_N (n mod 256))) ns.

End Base64.

(** ** Effects and the environment *)

(** What a handler does to the outside world, in program order. *)
Inductive Effect : Type :=
| post (m : ChildMessage)                       (* window.parent.postMessage *)
| console_error (message : string) (err : option JS.Thrown)
| console_warn (message : string)
| call_initialize
| call_createRagStore (displayName : string)
| call_uploadToRagStore (ragStoreName : string) (file : File.t)
| call_generateExampleQuestions (ragStoreName : string)
| call_fileSearch (ragStoreName : string) (query : string)
| call_deleteRagStore (ragStoreName : string)
| call_fetch (url : string)
| call_atob (data : string)
| set_timeout (ms : nat).

(** The outcome of every external call made while one command is
    processed.  [inl err] / [Some err] is a rejection (or a synchronous
    throw) with the value [err].  The calls made once per file take the
    index of the file.  [toLowerCase] is [String.prototype.toLowerCase],
    which follows the Unicode case mappings of the platform. *)
Record World := {
  toLowerCase : string -> string;
  initialize : option JS.Thrown;
  Date_now : N;
  createRagStore : string -> JS.Thrown + string;
  fetch : nat -> string -> JS.Thrown + Response.t;
  uploadToRagStore : nat -> string -> File.t -> option JS.Thrown;
  generateExampleQuestions : string -> JS.Thrown + list string;
  fileSearch : string -> string -> JS.Thrown + QueryResult.t;
  deleteRagStore : string -> option JS.Thrown
}.

(** ** Component state *)

(** The values held by the [useState] hooks of [App]. *)
Record AppState := {
  status : AppStatus.t;
  error : option string;
  uploadProgress : option UploadProgress.t;
  activeRagStoreName : option string;
  chatHistory : list ChatMessage.t;
  isQueryLoading : bool;
  exampleQuestions : list string;
  documentName : string
}.

(** The mounted component.  [live] is the current hook state.  [listener]
    is the render whose handlers the registered ['message'] listener calls:
    the effect that registers [handleMessage] has the dependency list
    [[status, postMessageToParent]], so it is re-registered only by a render
    in which [status] differs, and [handleMessage], [handleInitChat],
    [handleSendMessage] and [handleResetChat] read [status] and
    [activeRagStoreName] of that render.  [ragStoreNameRef] is the ref kept
    for the unload handler. *)
Record Component := {
  live : AppState;
  listener : AppState;
  ragStoreNameRef : option string
}.

Definition initialState : AppState := {|
  status := AppStatus.Initializing;
  error := None;
  uploadProgress := None;
  activeRagStoreName := None;
  chatHistory := [];
  isQueryLoading := false;
  exampleQuestions := [];
  documentName := EmptyString
|}.

Definition mount : Component := {|
  live := initialState;
  listener := initialState;
  ragStoreNameRef := None
|}.

(** ** A monad for handlers: state, effect trace and exceptions *)

Inductive Completion (A : Type) : Type :=
| Normal (a : A)
| Throws (e : JS.Thrown).
Arguments Normal {A} a.
Arguments Throws {A} e.

Definition M (A : Type) : Type := Component -> Completion A * Component * list Effect.

Definition ret {A} (a : A) : M A := fun c => (Normal a, c, []).

Definition throw {A} (e : JS.Thrown) : M A := fun c => (Throws e, c, []).

Definition bind {A B} (m : M A) (k : A -> M B) : M B :=
  fun c =>
    match m c with
    | (Normal a, c1, t1) =>
        let '(r, c2, t2) := k a c1 in (r, c2, (t1 ++ t2)%list)
    | (Throws e, c1, t1) => (Throws e, c1, t1)
    end.

Declare Scope js_scope.
Delimit Scope js_scope with js.
Notation "x <- m ;; k" := (bind m (fun x => k))
  (at level 61, m at next level, right associativity) : js_scope.
Notation "m ;; k" := (bind m (fun _ => k))
  (at level 61, right associativity) : js_scope.
Local Open Scope js_scope.

(** [try { body } catch (err) { handler err }] *)
Definition try_catch {A} (body : M A) (handler : JS.Thrown -> M A) : M A :=
  fun c =>
    match body c with
    | (Normal a, c1, t1) => (Normal a, c1, t1)
    | (Throws e, c1, t1) =>
        let '(r, c2, t2) := handler e c1 in (r, c2, (t1 ++ t2)%list)
    end.

(** [try { body } finally { fin }] *)
Definition try_finally {A} (body : M A) (fin : M unit) : M A :=
  fun c =>
    let '(r, c1, t1) := body c in
    match fin c1 with
    | (Normal _, c2, t2) => (r, c2, (t1 ++ t2)%list)
    | (Throws e, c2, t2) => (Throws e, c2, (t1 ++ t2)%list)
    end.

Definition emit (e : Effect) : M unit := fun c => (Normal tt, c, [e]).

Definition modify (f : AppState -> AppState) : M unit :=
  fun c => (Normal tt,
            {| live := f (live c); listener := listener c;
               ragStoreNameRef := ragStoreNameRef c |}, []).

(** A render of the component with its effects: the ref follows
    [activeRagStoreName], and the message listener is replaced by the one of
    this render when [status] is not the one it was registered with. *)
Definition render : M unit :=
  fun c => (Normal tt,
            {| live := live c;
               listener := if AppStatus.eqb (status (live c)) (status (listener c))
                           then listener c else live c;
               ragStoreNameRef := activeRagStoreName (live c) |}, []).

(** [await p]: the handler is suspended, pending state updates are
    rendered, and the handler resumes with the settlement of [p]. *)
Definition await {A} (p : JS.Thrown + A) : M A :=
  render ;; match p with
            | inl e => throw e
            | inr a => ret a
            end.

Definition await_void (p : option JS.Thrown) : M unit :=
  render ;; match p with
            | Some e => throw e
            | None => ret tt
            end.

(** The state setters. *)
Definition setStatus (v : AppStatus.t) : M unit :=
  modify (fun s => {| status := v; error := error s; uploadProgress := uploadProgress s;
                      activeRagStoreName := activeRagStoreName s; chatHistory := chatHistory s;
                      isQueryLoading := isQueryLoading s; exampleQuestions := exampleQuestions s;
                      documentName := documentName s |}).

Definition setError (v : option string) : M unit :=
  modify (fun s => {| status := status s; error := v; uploadProgress := uploadProgress s;
                      activeRagStoreName := activeRagStoreName s; chatHistory := chatHistory s;
                      isQueryLoading := isQueryLoading s; exampleQuestions := exampleQuestions s;
                      documentName := documentName s |}).

Definition setUploadProgress (f : option UploadProgress.t -> option UploadProgress.t) : M unit :=
  modify (fun s => {| status := status s; error := error s; uploadProgress := f (uploadProgress s);
                      activeRagStoreName := activeRagStoreName s; chatHistory := chatHistory s;
                      isQueryLoading := isQueryLoading s; exampleQuestions := exampleQuestions s;
                      documentName := documentName s |}).

Definition setActiveRagStoreName (v : option string) : M unit :=
  modify (fun s => {| status := status s; error := error s; uploadProgress := uploadProgress s;
                      activeRagStoreName := v; chatHistory := chatHistory s;
                      isQueryLoading := isQueryLoading s; exampleQuestions := exampleQuestions s;
                      documentName := documentName s |}).

Definition setChatHistory (f : list ChatMessage.t -> list ChatMessage.t) : M unit :=
  modify (fun s => {| status := status s; error := error s; uploadProgress := uploadProgress s;
                      activeRagStoreName := activeRagStoreName s; chatHistory := f (chatHistory s);
                      isQueryLoading := isQueryLoading s; exampleQuestions := exampleQuestions s;
                      documentName := documentName s |}).

Definition setIsQueryLoading (v : bool) : M unit :=
  modify (fun s => {| status := status s; error := error s; uploadProgress := uploadProgress s;
                      activeRagStoreName := activeRagStoreName s; chatHistory := chatHistory s;
                      isQueryLoading := v; exampleQuestions := exampleQuestions s;
                      documentName := documentName s |}).

Definition setExampleQuestions (v : list string) : M unit :=
  modify (fun s => {| status := status s; error := error s; uploadProgress := uploadProgress s;
                      activeRagStoreName := activeRagStoreName s; chatHistory := chatHistory s;
                      isQueryLoading := isQueryLoading s; exampleQuestions := v;
                      documentName := documentName s |}).

Definition setDocumentName (v : string) : M unit :=
  modify (fun s => {| status := status s; error := error s; uploadProgress := uploadProgress s;
                      activeRagStoreName := activeRagStoreName s; chatHistory := chatHistory s;
                      isQueryLoading := isQueryLoading s; exampleQuestions := exampleQuestions s;
                      documentName := v |}).

(** [try { x = await p; rest } catch (err) { handler }] for a variable
    [let x = null] declared before the [try]: the handler sees [None] when
    the assignment did not complete and [Some] of the value afterwards. *)
Definition try_assign_catch {A B}
    (assign : M A) (rest : A -> M B) (handler : option A -> JS.Thrown -> M B) : M B :=
  fun c =>
    match assign c with
    | (Throws e, c1, t1) =>
        let '(r, c2, t2) := handler None e c1 in (r, c2, (t1 ++ t2)%list)
    | (Normal a, c1, t1) =>
        let '(r, c2, t2) := try_catch (rest a) (handler (Some a)) c1 in (r, c2, (t1 ++ t2)%list)
    end.

(** The string of an optional string that has been tested truthy. *)
Definition the (o : option string) : string :=
  match o with
  | Some s => s
  | None => EmptyString
  end.

(** ** App.tsx *)

(** [window.parent] is always an object, so the message is always posted. *)
Definition postMessageToParent (m : ChildMessage) : M unit := emit (post m).

Definition handleError (message : string) (err : option JS.Thrown) : M unit :=
  emit (console_error message err) ;;
  let errorMessage :=
    message ++ match err with
               | Some e => if JS.thrown_truthy e then ": " ++ JS.describe e else EmptyString
               | None => EmptyString
               end in
  setError (Some errorMessage) ;;
  setStatus AppStatus.Error ;;
  postMessageToParent (chatError errorMessage).

Definition clearError : M unit :=
  setError None ;;
  setStatus AppStatus.Initializing.

(** The error [atob] throws on a malformed string (a [DOMException], which
    is an [Error]; the message text is the browser's). *)
Definition InvalidCharacterError : JS.Thrown :=
  JS.ErrorObject "The string to be decoded is not correctly encoded.".

Definition getFileFromPayload (W : World) (i : nat) (filePayload : InitChatPayloadFile.t)
  : M File.t :=
  if JS.truthy_opt (InitChatPayloadFile.url filePayload) then
    let url := the (InitChatPayloadFile.url filePayload) in
    emit (call_fetch url) ;;
    response <- await (fetch W i url) ;;
    if negb (Response.ok response) then
      throw (JS.ErrorObject ("Failed to fetch file from URL: " ++ url ++ " - "
                               ++ Response.statusText response))
    else
      blob <- await (Response.blob response) ;;
      ret (File.construct (Blob.bytes blob)
             (JS.or_else (InitChatPayloadFile.fileName filePayload) "unknown_file")
             (JS.opt_or_else (InitChatPayloadFile.mimeType filePayload) (Blob.type blob)))
  else if JS.truthy_opt (InitChatPayloadFile.base64Data filePayload)
          && JS.truthy_opt (InitChatPayloadFile.mimeType filePayload) then
    let base64Data := the (InitChatPayloadFile.base64Data filePayload) in
    emit (call_atob base64Data) ;;
    match Base64.atob base64Data with
    | None => throw InvalidCharacterError
    | Some byteCharacters =>
        let byteNumbers := Base64.charCodes byteCharacters in
        let byteArray := Base64.Uint8Array byteNumbers in
        ret (File.construct byteArray
               (JS.or_else (InitChatPayloadFile.fileName filePayload) "unknown_file")
               (the (InitChatPayloadFile.mimeType filePayload)))
    end
  else
    throw (JS.ErrorObject "Invalid file payload: must provide url or base64Data with mimeType.").

(** [{ ...prev, current, message }] and [{ ...prev, current, message, fileName }] *)
Definition spread (prev : option UploadProgress.t) (current : nat) (message : string)
    (fileName : option string) : option UploadProgress.t :=
  Some {| UploadProgress.current := current;
          UploadProgress.total :=
            match prev with Some p => UploadProgress.total p | None => None end;
          UploadProgress.message := Some message;
          UploadProgress.fileName :=
            match fileName with
            | Some f => Some f
            | None => match prev with Some p => UploadProgress.fileName p | None => None end
            end |}.

(** The [for] loop of [handleInitChat] from index [i] on, over the payloads
    not yet processed; [total] is [filePayloads.length]. *)
Fixpoint uploadLoop (W : World) (ragStoreName : string) (total i : nat)
    (rest : list InitChatPayloadFile.t) (filesToUpload : list File.t) : M (list File.t) :=
  match rest with
  | [] => ret filesToUpload
  | filePayload :: rest' =>
      setUploadProgress (fun prev =>
        spread prev (i + 1) "Fetching/Processing files..."
          (Some ("(" ++ JS.string_of_nat (i + 1) ++ "/" ++ JS.string_of_nat total ++ ") "
                   ++ JS.or_else (InitChatPayloadFile.fileName filePayload) "file"))) ;;
      file <- getFileFromPayload W i filePayload ;;
      let filesToUpload := (filesToUpload ++ [file])%list in
      emit (call_uploadToRagStore ragStoreName file) ;;
      await_void (uploadToRagStore W i ragStoreName file) ;;
      uploadLoop W ragStoreName total (S i) rest' filesToUpload
  end.

(** The document label computed at the end of a successful initialization. *)
Definition docNameOf (chatDisplayName : option string) (filesToUpload : list File.t) : string :=
  if JS.truthy_opt chatDisplayName then the chatDisplayName
  else match filesToUpload with
       | [f0] => File.name f0
       | [f0; f1] => File.name f0 ++ " & " ++ File.name f1
       | _ => JS.string_of_nat (length filesToUpload) ++ " documents"
       end.

(** The [catch] clause of [handleInitChat]; [ragStoreName] is the local
    variable of that name.  The deletion is not awaited: its rejection is
    only logged. *)
Definition initChatCatch (W : World) (ragStoreName : option string) (err : JS.Thrown) : M unit :=
  let errorMessage := toLowerCase W (JS.describe err) in
  (if JS.includes errorMessage "api key not valid"
      || JS.includes errorMessage "requested entity was not found"
   then handleError
          "The API key is invalid or not found. Please ensure a valid API Key is configured."
          (Some err)
   else handleError "Failed to start chat session" (Some err)) ;;
  if JS.truthy_opt ragStoreName then
    emit (call_deleteRagStore (the ragStoreName)) ;;
    match deleteRagStore W (the ragStoreName) with
    | Some deleteErr =>
        emit (console_error "Error cleaning up RAG store after init error:" (Some deleteErr))
    | None => ret tt
    end
  else ret tt.

(** The [try] block of [handleInitChat] after [ragStoreName] is assigned. *)
Definition initChatTry (W : World) (filePayloads : list InitChatPayloadFile.t)
    (chatDisplayName : option string) (totalSteps : nat) (ragStoreName : string) : M unit :=
  setActiveRagStoreName (Some ragStoreName) ;;
  setUploadProgress (fun prev => spread prev 1 "Generating embeddings..." None) ;;
  filesToUpload <- uploadLoop W ragStoreName (length filePayloads) 0 filePayloads [] ;;
  setUploadProgress (fun prev =>
    spread prev (length filePayloads + 1) "Generating suggestions..." (Some EmptyString)) ;;
  emit (call_generateExampleQuestions ragStoreName) ;;
  questions <- await (generateExampleQuestions W ragStoreName) ;;
  setExampleQuestions questions ;;
  setUploadProgress (fun _ =>
    Some {| UploadProgress.current := totalSteps; UploadProgress.total := Some totalSteps;
            UploadProgress.message := Some "All set!"; UploadProgress.fileName := Some EmptyString |}) ;;
  emit (set_timeout 500) ;;
  await_void None ;;
  let docName := docNameOf chatDisplayName filesToUpload in
  setDocumentName docName ;;
  setChatHistory (fun _ => []) ;;
  setStatus AppStatus.Chatting ;;
  postMessageToParent (chatReady docName).

Definition handleInitChat (W : World) (filePayloads : list InitChatPayloadFile.t)
    (chatDisplayName : option string) : M unit :=
  if (length filePayloads =? 0)%nat then
    handleError "No files provided for chat initialization." None
  else
    emit call_initialize ;;
    match initialize W with
    | Some err => handleError "Initialization failed." (Some err)
    | None =>
        setStatus AppStatus.Uploading ;;
        setError None ;;
        let totalSteps := length filePayloads + 2 in
        setUploadProgress (fun _ =>
          Some {| UploadProgress.current := 0; UploadProgress.total := Some totalSteps;
                  UploadProgress.message := Some "Creating document index...";
                  UploadProgress.fileName := None |}) ;;
        try_finally
          (try_assign_catch
             (let storeName := "chat-session-" ++ JS.string_of_N (Date_now W) in
              emit (call_createRagStore storeName) ;;
              await (createRagStore W storeName))
             (initChatTry W filePayloads chatDisplayName totalSteps)
             (initChatCatch W))
          (setUploadProgress (fun _ => None))
    end.

(** [activeRagStoreName] is the one of the render this handler belongs to. *)
Definition handleResetChat (W : World) (activeRagStoreName_ : option string) : M unit :=
  if JS.truthy_opt activeRagStoreName_ then
    setIsQueryLoading true ;;
    try_finally
      (try_catch
         (emit (call_deleteRagStore (the activeRagStoreName_)) ;;
          await_void (deleteRagStore W (the activeRagStoreName_)) ;;
          setActiveRagStoreName None ;;
          setChatHistory (fun _ => []) ;;
          setExampleQuestions [] ;;
          setDocumentName EmptyString ;;
          setStatus AppStatus.Initializing ;;
          postMessageToParent (chatEnded "Chat session reset."))
         (fun err => handleError "Failed to delete RAG store during reset." (Some err)))
      (setIsQueryLoading false)
  else
    setActiveRagStoreName None ;;
    setChatHistory (fun _ => []) ;;
    setExampleQuestions [] ;;
    setDocumentName EmptyString ;;
    setStatus AppStatus.Initializing ;;
    postMessageToParent (chatEnded "Chat session reset (no active store).").

Definition apology : string := "Sorry, I encountered an error. Please try again.".

Definition handleSendMessage (W : World) (activeRagStoreName_ : option string)
    (message : string) : M unit :=
  if negb (JS.truthy_opt activeRagStoreName_) then
    postMessageToParent (chatError "No active chat session. Please initialize first.")
  else
    let userMessage := {| ChatMessage.role := user; ChatMessage.parts := [message];
                          ChatMessage.groundingChunks := None |} in
    setChatHistory (fun prev => (prev ++ [userMessage])%list) ;;
    setIsQueryLoading true ;;
    try_finally
      (try_catch
         (emit (call_fileSearch (the activeRagStoreName_) message) ;;
          result <- await (fileSearch W (the activeRagStoreName_) message) ;;
          let modelMessage :=
            {| ChatMessage.role := model; ChatMessage.parts := [QueryResult.text result];
               ChatMessage.groundingChunks := Some (QueryResult.groundingChunks result) |} in
          setChatHistory (fun prev => (prev ++ [modelMessage])%list) ;;
          postMessageToParent
            (chatResponse (QueryResult.text result) (QueryResult.groundingChunks result)))
         (fun err =>
            let errorMessage := {| ChatMessage.role := model; ChatMessage.parts := [apology];
                                   ChatMessage.groundingChunks := None |} in
            setChatHistory (fun prev => (prev ++ [errorMessage])%list) ;;
            handleError "Failed to get response" (Some err) ;;
            postMessageToParent
              (chatError ("Failed to get response: " ++ JS.describe err))))
      (setIsQueryLoading false).

(** A ['message'] event: whether [event.source] is [window.parent], and
    [event.data] when it is an object. *)
Record MessageEvent := {
  fromParent : bool;
  data : option ParentMessage
}.

(** The [TypeError] of reading [length] of the [undefined] that
    [handleInitChat] receives as [filePayloads] (the message text is the
    engine's). *)
Definition lengthOfUndefined : JS.Thrown :=
  JS.ErrorObject "Cannot read properties of undefined (reading 'length')".

Definition handleMessage (W : World) (event : MessageEvent) : M unit :=
  fun c =>
    let closure := listener c in
    (if negb (fromParent event) then ret tt
     else match data event with
          | None => ret tt
          | Some (otherType type) =>
              if JS.truthy type
              then emit (console_warn ("Unknown message type received: " ++ type))
              else ret tt
          | Some (initChat initChatPayload) =>
              if negb (AppStatus.eqb (status closure) AppStatus.Initializing)
                 && negb (AppStatus.eqb (status closure) AppStatus.Error)
                 && negb (AppStatus.eqb (status closure) AppStatus.Chatting)
              then emit (console_warn "Ignoring initChat: App is not in an initial or error state.")
              else handleInitChat W (InitChatPayload.files initChatPayload)
                     (InitChatPayload.chatDisplayName initChatPayload)
          | Some (initChatNoFiles chatDisplayName) =>
              if negb (AppStatus.eqb (status closure) AppStatus.Initializing)
                 && negb (AppStatus.eqb (status closure) AppStatus.Error)
                 && negb (AppStatus.eqb (status closure) AppStatus.Chatting)
              then emit (console_warn "Ignoring initChat: App is not in an initial or error state.")
              else throw lengthOfUndefined
          | Some (sendMessage message) =>
              if AppStatus.eqb (status closure) AppStatus.Chatting
              then handleSendMessage W (activeRagStoreName closure) message
              else
                emit (console_warn "Cannot send message: Chat is not active.") ;;
                postMessageToParent (chatError "Chat is not active to send message.")
          | Some resetChat => handleResetChat W (activeRagStoreName closure)
          end) c.

(** The ['beforeunload'] listener. *)
Definition handleUnload (W : World) : M unit :=
  fun c =>
    (if JS.truthy_opt (ragStoreNameRef c) then
       emit (call_deleteRagStore (the (ragStoreNameRef c))) ;;
       match deleteRagStore W (the (ragStoreNameRef c)) with
       | Some err => emit (console_error "Error deleting RAG store on unload:" (Some err))
       | None => ret tt
       end
     else ret tt) c.

(** ** The session as a transition system *)

(** What can happen to the mounted component: a ['message'] event, a click
    on the "Try Again / Reset" button (rendered only in status [Error]), or
    a question sent from the chat interface (rendered only in status
    [Chatting], with the handler of the current render). *)
Inductive Input : Type :=
| onMessage (W : World) (event : MessageEvent)
| onTryAgain
| onSendMessage (W : World) (message : string).

Definition handle (i : Input) : M unit :=
  match i with
  | onMessage W event => handleMessage W event
  | onTryAgain =>
      fun c => (if AppStatus.eqb (status (live c)) AppStatus.Error
                then clearError else ret tt) c
  | onSendMessage W message =>
      fun c => (if AppStatus.eqb (status (live c)) AppStatus.Chatting
                then handleSendMessage W (activeRagStoreName (live c)) message
                else ret tt) c
  end.

(** One input processed to completion, followed by the render of the
    resulting state. *)
Definition step (i : Input) (c : Component) : Component * list Effect :=
  let '(_, c1, t) := handle i c in
  let '(_, c2, _) := render c1 in
  (c2, t).

(** A sequence of inputs, each processed after the previous one has
    settled; the effects are accumulated in order. *)
Fixpoint run (inputs : list Input) (c : Component) : Component * list Effect :=
  match inputs with
  | [] => (c, [])
  | i :: rest =>
      let '(c1, t1) := step i c in
      let '(c2, t2) := run rest c1 in
      (c2, (t1 ++ t2)%list)
  end.

Definition reachable (c : Component) : Prop :=
  exists inputs, fst (run inputs mount) = c.

(** The files passed to [uploadToRagStore], in call order. *)
Fixpoint uploaded (t : list Effect) : list File.t :=
  match t with
  | [] => []
  | call_uploadToRagStore _ file :: r => file :: uploaded r
  | _ :: r => uploaded r
  end.

(** The store identifiers passed to [deleteRagStore], in call order. *)
Fixpoint deleted (t : list Effect) : list string :=
  match t with
  | [] => []
  | call_deleteRagStore ragStoreName :: r => ragStoreName :: deleted r
  | _ :: r => deleted r
  end.

(** The events posted to the host, in order. *)
Fixpoint posted (t : list Effect) : list ChildMessage :=
  match t with
  | [] => []
  | post m :: r => m :: posted r
  | _ :: r => posted r
  end.

(** The name [getFileFromPayload] gives to the file of a payload. *)
Definition resolvedName (filePayload : InitChatPayloadFile.t) : string :=
  JS.or_else (InitChatPayloadFile.fileName filePayload) "unknown_file".

(** Two hook states that differ at most in [uploadProgress]. *)
Definition same_session (s s' : AppState) : Prop :=
  status s' = status s /\ error s' = error s
  /\ activeRagStoreName s' = activeRagStoreName s
  /\ chatHistory s' = chatHistory s /\ isQueryLoading s' = isQueryLoading s
  /\ exampleQuestions s' = exampleQuestions s /\ documentName s' = documentName s.

(** The input is not a click on "Try Again / Reset". *)
Definition notTryAgain (i : Input) : bool :=
  match i with
  | onTryAgain => false
  | _ => true
  end.

(** ** Concrete environments and payloads used in examples *)

(** The texts of these examples are ASCII, and on ASCII text
    [String.prototype.toLowerCase] is the ASCII lowercase. *)

Definition pdfBlob : Blob.t :=
  {| Blob.type := "application/pdf"; Blob.bytes := ["a"%byte; "b"%byte; "c"%byte] |}.

(** Every external call succeeds. *)
Definition allSucceed : World := {|
  toLowerCase := JS.asciiLowerCase;
  initialize := None;
  Date_now := 1700000000000;
  createRagStore := fun _ => inr "fileSearchStores/demo";
  fetch := fun _ _ =>
    inr {| Response.ok := true; Response.statusText := "OK"; Response.blob := inr pdfBlob |};
  uploadToRagStore := fun _ _ _ => None;
  generateExampleQuestions := fun _ => inr ["What is covered?"];
  fileSearch := fun _ _ => inr {| QueryResult.text := "It is."; QueryResult.groundingChunks := [] |};
  deleteRagStore := fun _ => None
|}.

(** As [allSucceed], but [fileSearch] rejects. *)
Definition searchFails : World := {|
  toLowerCase := JS.asciiLowerCase;
  initialize := None;
  Date_now := 1700000000000;
  createRagStore := fun _ => inr "fileSearchStores/demo";
  fetch := fetch allSucceed;
  uploadToRagStore := fun _ _ _ => None;
  generateExampleQuestions := fun _ => inr ["What is covered?"];
  fileSearch := fun _ _ => inl (JS.ErrorObject "503 Service Unavailable");
  deleteRagStore := fun _ => None
|}.

(** As [allSucceed], but [deleteRagStore] rejects. *)
Definition deleteFails : World := {|
  toLowerCase := JS.asciiLowerCase;
  initialize := None;
  Date_now := 1700000000000;
  createRagStore := fun _ => inr "fileSearchStores/demo";
  fetch := fetch allSucceed;
  uploadToRagStore := fun _ _ _ => None;
  generateExampleQuestions := fun _ => inr ["What is covered?"];
  fileSearch := fileSearch allSucceed;
  deleteRagStore := fun _ => Some (JS.ErrorObject "404 Not Found")
|}.

Definition fileA : InitChatPayloadFile.t := {|
  InitChatPayloadFile.fileName := "A.pdf";
  InitChatPayloadFile.mimeType := None;
  InitChatPayloadFile.url := Some "https://host.example/A.pdf";
  InitChatPayloadFile.base64Data := None
|}.

Definition fileB : InitChatPayloadFile.t := {|
  InitChatPayloadFile.fileName := "B.pdf";
  InitChatPayloadFile.mimeType := Some "application/pdf";
  InitChatPayloadFile.url := None;
  InitChatPayloadFile.base64Data := Some "YWJj"
|}.

(** A payload with neither [url] nor [base64Data]. *)
Definition fileNoSource : InitChatPayloadFile.t := {|
  InitChatPayloadFile.fileName := "C.pdf";
  InitChatPayloadFile.mimeType := Some "application/pdf";
  InitChatPayloadFile.url := None;
  InitChatPayloadFile.base64Data := None
|}.

Definition fromHost (m : ParentMessage) : MessageEvent :=
  {| fromParent := true; data := Some m |}.

Definition initWith (fs : list InitChatPayloadFile.t) (name : option string) : ParentMessage :=
  initChat {| InitChatPayload.files := fs; InitChatPayload.chatDisplayName := name;
              InitChatPayload.apiKey := None |}.

Definition userMessageOf (message : string) : ChatMessage.t :=
  {| ChatMessage.role := user; ChatMessage.parts := [message];
     ChatMessage.groundingChunks := None |}.

Definition apologyMessage : ChatMessage.t :=
  {| ChatMessage.role := model; ChatMessage.parts := [apology];
     ChatMessage.groundingChunks := None |}.

(** What holds of the component between two inputs: the listener was
    registered with the current status; no handler is in flight, so the
    status is neither [Uploading] nor the unused [Welcome]; and in status
    [Chatting] the listener holds the store name of the hook state, which
    is not null. *)
Definition coherent (c : Component) : Prop :=
  status (listener c) = status (live c)
  /\ status (live c) <> AppStatus.Uploading
  /\ status (live c) <> AppStatus.Welcome
  /\ (status (live c) = AppStatus.Chatting ->
      activeRagStoreName (listener c) = activeRagStoreName (live c)
      /\ activeRagStoreName (live c) <> None).

(** The check made of each row of the base64 table: the character of a
    sextet decodes to that sextet, is not whitespace and is not "=". *)
Definition sextet_ok (k : nat) : bool :=
  let c := Base64.char_of_sextet (N.of_nat k) in
  match Base64.sextet_of_char c with
  | Some m => (m =? N.of_nat k)%N
  | None => false
  end
  && negb (Base64.is_ascii_whitespace c) && negb (Ascii.eqb c "=").


(** A number that fits a byte. *)
Definition small (n : N) : Prop := (n < 256)%N.


(** The session after a successful initialization with one file. *)
Definition chattingSession : Component :=
  fst (run [onMessage allSucceed (fromHost (initWith [fileA] None))] mount).

(** A payload in which both [url] and [base64Data] are populated. *)
Definition fileBothSources : InitChatPayloadFile.t := {|
  InitChatPayloadFile.fileName := "D.pdf";
  InitChatPayloadFile.mimeType := Some "application/pdf";
  InitChatPayloadFile.url := Some "https://host.example/D.pdf";
  InitChatPayloadFile.base64Data := Some "YWJj"
|}.

(** A fetched payload without a name. *)
Definition fileUnnamed : InitChatPayloadFile.t := {|
  InitChatPayloadFile.fileName := EmptyString;
  InitChatPayloadFile.mimeType := None;
  InitChatPayloadFile.url := Some "https://host.example/E.pdf";
  InitChatPayloadFile.base64Data := None
|}.

(** Both sources populated, and a MIME type written with capitals. *)
Definition fileBothSourcesCapitals : InitChatPayloadFile.t := {|
  InitChatPayloadFile.fileName := "D.pdf";
  InitChatPayloadFile.mimeType := Some "Application/PDF";
  InitChatPayloadFile.url := Some "https://host.example/D.pdf";
  InitChatPayloadFile.base64Data := Some "YWJj"
|}.

(** A payload that carries [bytes] inline. *)
Definition inlinePayload (name mime : string) (bytes : list byte) : InitChatPayloadFile.t := {|
  InitChatPayloadFile.fileName := name;
  InitChatPayloadFile.mimeType := Some mime;
  InitChatPayloadFile.url := None;
  InitChatPayloadFile.base64Data := Some (Base64.encode bytes)
|}.

(** ** Rendering *)

(** What [renderContent] returns: the element and the props it is given. *)
Inductive View : Type :=
| WaitingView
| ProgressBarView (progress total : nat) (message : string) (fileName : option string)
    (icon : option string)
| ChatInterfaceView (documentName : string) (history : list ChatMessage.t)
    (isQueryLoading : bool) (exampleQuestions : list string) (hideNewChatButton : bool)
| ErrorView (error : option string).

(** [uploadProgress?.message === literal] *)
Definition messageIs (p : option UploadProgress.t) (literal : string) : bool :=
  match p with
  | Some u =>
      match UploadProgress.message u with
      | Some m => (m =? literal)
      | None => false
      end
  | None => false
  end.

Definition renderContent (s : AppState) : View :=
  match status s with
  | AppStatus.Initializing => WaitingView
  | AppStatus.Uploading =>
      let icon :=
        if messageIs (uploadProgress s) "Creating document index..." then
          Some "https://services.google.com/fh/files/misc/applet-upload.png"
        else if messageIs (uploadProgress s) "Generating embeddings..." then
          Some "https://services.google.com/fh/files/misc/applet-creating-embeddings_2.png"
        else if messageIs (uploadProgress s) "Generating suggestions..." then
          Some "https://services.google.com/fh/files/misc/applet-suggestions_2.png"
        else if messageIs (uploadProgress s) "All set!" then
          Some "https://services.google.com/fh/files/misc/applet-completion_2.png"
        else None in
      ProgressBarView
        (match uploadProgress s with
         | Some u => UploadProgress.current u
         | None => 0
         end)
        (match uploadProgress s with
         | Some u =>
             match UploadProgress.total u with
             | Some n => if (n =? 0)%nat then 1 else n
             | None => 1
             end
         | None => 1
         end)
        (match uploadProgress s with
         | Some u => JS.opt_or_else (UploadProgress.message u) "Preparing your chat..."
         | None => "Preparing your chat..."
         end)
        (match uploadProgress s with
         | Some u => UploadProgress.fileName u
         | None => None
         end)
        icon
  | AppStatus.Chatting =>
      ChatInterfaceView (documentName s) (chatHistory s) (isQueryLoading s)
        (exampleQuestions s) true
  | AppStatus.Error => ErrorView (error s)
  | AppStatus.Welcome => WaitingView
  end.

(** ** More views of a trace *)

(** The store names passed to [uploadToRagStore], in call order. *)
Fixpoint uploadTargets (t : list Effect) : list string :=
  match t with
  | [] => []
  | call_uploadToRagStore ragStoreName _ :: r => ragStoreName :: uploadTargets r
  | _ :: r => uploadTargets r
  end.

(** Whether an effect is a call of [geminiService]. *)
Definition isServiceCall (e : Effect) : bool :=
  match e with
  | call_initialize | call_createRagStore _ | call_uploadToRagStore _ _
  | call_generateExampleQuestions _ | call_fileSearch _ _ | call_deleteRagStore _ => true
  | _ => false
  end.

(** The name [handleInitChat] asks for when it creates the store. *)
Definition sessionStoreName (W : World) : string :=
  "chat-session-" ++ JS.string_of_N (Date_now W).

(** The message [handleError] stores and posts. *)
Definition errorMessageOf (message : string) (err : option JS.Thrown) : string :=
  message ++ match err with
             | Some e => if JS.thrown_truthy e then ": " ++ JS.describe e else EmptyString
             | None => EmptyString
             end.

(** The message the [catch] clause of [handleInitChat] passes to
    [handleError] for a caught value. *)
Definition initFailureMessage (W : World) (err : JS.Thrown) : string :=
  if JS.includes (toLowerCase W (JS.describe err)) "api key not valid"
     || JS.includes (toLowerCase W (JS.describe err)) "requested entity was not found"
  then "The API key is invalid or not found. Please ensure a valid API Key is configured."
  else "Failed to start chat session".

(** A hook state in status [Uploading] with a given progress object. *)
Definition uploadingState (p : option UploadProgress.t) : AppState :=
  {| status := AppStatus.Uploading; error := None; uploadProgress := p;
     activeRagStoreName := None; chatHistory := []; isQueryLoading := false;
     exampleQuestions := []; documentName := EmptyString |}.

(** A progress object whose total is zero and whose message is empty. *)
Definition emptyProgress : UploadProgress.t :=
  {| UploadProgress.current := 2; UploadProgress.total := Some 0;
     UploadProgress.message := Some EmptyString; UploadProgress.fileName := None |}.

(** A component in which an initialization is in flight: the listener has
    been registered with status [Uploading]. *)
Definition uploadingComponent : Component :=
  let s := {| status := AppStatus.Uploading; error := None;
              uploadProgress :=
                Some {| UploadProgress.current := 0; UploadProgress.total := Some 3;
                        UploadProgress.message := Some "Creating document index...";
                        UploadProgress.fileName := None |};
              activeRagStoreName := None; chatHistory := []; isQueryLoading := false;
              exampleQuestions := []; documentName := EmptyString |} in
  {| live := s; listener := s; ragStoreNameRef := None |}.

(** Store creation is rejected with an invalid-key error. *)
Definition createFails : World := {|
  toLowerCase := JS.asciiLowerCase;
  initialize := None;
  Date_now := 1700000000000;
  createRagStore := fun _ => inl (JS.ErrorObject "API key not valid. Please pass a valid API key.");
  fetch := fetch allSucceed;
  uploadToRagStore := fun _ _ _ => None;
  generateExampleQuestions := fun _ => inr ["What is covered?"];
  fileSearch := fileSearch allSucceed;
  deleteRagStore := fun _ => None
|}.

(** The service cannot be initialized. *)
Definition initializeFails : World := {|
  toLowerCase := JS.asciiLowerCase;
  initialize := Some (JS.ErrorObject "API_KEY is not set");
  Date_now := 1700000000000;
  createRagStore := createRagStore allSucceed;
  fetch := fetch allSucceed;
  uploadToRagStore := fun _ _ _ => None;
  generateExampleQuestions := fun _ => inr ["What is covered?"];
  fileSearch := fileSearch allSucceed;
  deleteRagStore := fun _ => None
|}.

(** A second store is created, and the generation of example questions
    is rejected. *)
Definition nextStoreThenFailure : World := {|
  toLowerCase := JS.asciiLowerCase;
  initialize := None;
  Date_now := 1700000000500;
  createRagStore := fun _ => inr "fileSearchStores/next";
  fetch := fetch allSucceed;
  uploadToRagStore := fun _ _ _ => None;
  generateExampleQuestions := fun _ => inl (JS.ErrorObject "500 Internal Server Error");
  fileSearch := fileSearch allSucceed;
  deleteRagStore := fun _ => None
|}.

(** The session after an initialization and one rejected query. *)
Definition sessionAfterFailedQuery : Component :=
  fst (run [onMessage allSucceed (fromHost (initWith [fileA] None));
            onMessage searchFails (fromHost (sendMessage "hi"))] mount).

(** The session after an initialization and a completed reset. *)
Definition sessionAfterReset : list Input :=
  [onMessage allSucceed (fromHost (initWith [fileA] None));
   onMessage allSucceed (fromHost resetChat)].

(** * Properties *)

(** ** Status comparison *)

Lemma AppStatus_eqb_eq (a b : AppStatus.t) : AppStatus.eqb a b = true <-> a = b.
Proof. destruct a, b; simpl; split; intro H; try reflexivity; discriminate H. Qed.

Lemma AppStatus_eqb_refl (a : AppStatus.t) : AppStatus.eqb a a = true.
Proof. destruct a; reflexivity. Qed.

Lemma AppStatus_eqb_neq (a b : AppStatus.t) : AppStatus.eqb a b = false <-> a <> b.
Proof.
  split.
  - intros H E. subst b. rewrite AppStatus_eqb_refl in H. discriminate H.
  - intro H. destruct (AppStatus.eqb a b) eqn:E; [|reflexivity].
    apply AppStatus_eqb_eq in E. contradiction.
Qed.

(** ** Traces *)

Lemma uploaded_app (t1 t2 : list Effect) :
  uploaded (t1 ++ t2)%list = (uploaded t1 ++ uploaded t2)%list.
Proof.
  induction t1 as [|e t1 IH]; simpl; [reflexivity|].
  destruct e; simpl; rewrite IH; reflexivity.
Qed.

Lemma deleted_app (t1 t2 : list Effect) :
  deleted (t1 ++ t2)%list = (deleted t1 ++ deleted t2)%list.
Proof.
  induction t1 as [|e t1 IH]; simpl; [reflexivity|].
  destruct e; simpl; rewrite IH; reflexivity.
Qed.

Lemma posted_app (t1 t2 : list Effect) :
  posted (t1 ++ t2)%list = (posted t1 ++ posted t2)%list.
Proof.
  induction t1 as [|e t1 IH]; simpl; [reflexivity|].
  destruct e; simpl; rewrite IH; reflexivity.
Qed.

Lemma same_session_refl (s : AppState) : same_session s s.
Proof. unfold same_session. repeat split. Qed.

Lemma same_session_trans (s1 s2 s3 : AppState) :
  same_session s1 s2 -> same_session s2 s3 -> same_session s1 s3.
Proof.
  unfold same_session. intros H1 H2.
  destruct H1 as (a1 & a2 & a3 & a4 & a5 & a6 & a7).
  destruct H2 as (b1 & b2 & b3 & b4 & b5 & b6 & b7).
  repeat split; congruence.
Qed.

(** ** The resolver *)

Arguments Base64.atob : simpl never.

(** A render leaves the hook state alone, and leaves the listener alone
    when it was registered with the current status. *)
Lemma render_run (c : Component) :
  exists c', render c = (Normal tt, c', [])
    /\ live c' = live c
    /\ status (listener c') = status (live c)
    /\ (status (listener c) = status (live c) -> listener c' = listener c)
    /\ (status (listener c) <> status (live c) -> listener c' = live c).
Proof.
  eexists. split; [reflexivity|]. simpl.
  destruct (AppStatus.eqb (status (live c)) (status (listener c))) eqn:E.
  - apply AppStatus_eqb_eq in E. repeat split; try congruence.
  - apply AppStatus_eqb_neq in E. repeat split; try congruence.
Qed.

Lemma handleError_run (c : Component) (message : string) (err : option JS.Thrown) :
  exists c',
    handleError message err c
    = (Normal tt, c',
       [console_error message err;
        post (chatError (message ++ match err with
                                    | Some e => if JS.thrown_truthy e
                                                then ": " ++ JS.describe e else EmptyString
                                    | None => EmptyString
                                    end))])
    /\ status (live c') = AppStatus.Error
    /\ activeRagStoreName (live c') = activeRagStoreName (live c)
    /\ chatHistory (live c') = chatHistory (live c)
    /\ exampleQuestions (live c') = exampleQuestions (live c)
    /\ documentName (live c') = documentName (live c)
    /\ listener c' = listener c.
Proof.
  eexists. split; [reflexivity|]. simpl. repeat split.
Qed.

Ltac run_monad :=
  cbv beta iota delta
    [bind ret throw emit await await_void try_catch try_finally modify render
     postMessageToParent] in *.

(** What one resolution does: the hook state is untouched, no upload call
    is made, and a file that is produced carries [resolvedName]. *)
Lemma getFileFromPayload_run (W : World) (i : nat) (p : InitChatPayloadFile.t)
    (c : Component) :
  exists r c' t,
    getFileFromPayload W i p c = (r, c', t)
    /\ live c' = live c
    /\ (status (listener c) = status (live c) -> listener c' = listener c)
    /\ uploaded t = [] /\ deleted t = [] /\ posted t = []
    /\ match r with
       | Normal f => File.name f = resolvedName p
       | Throws _ => True
       end.
Proof.
  unfold getFileFromPayload, resolvedName.
  destruct (JS.truthy_opt (InitChatPayloadFile.url p)).
  - run_monad. simpl.
    assert (L : status (listener c) = status (live c) ->
                (if AppStatus.eqb (status (live c)) (status (listener c))
                 then listener c else live c) = listener c).
    { intro H. rewrite H, AppStatus_eqb_refl. reflexivity. }
    destruct (fetch W i (the (InitChatPayloadFile.url p))) as [e|response]; simpl.
    + do 3 eexists. split; [reflexivity|]. simpl. repeat split. exact L.
    + destruct (Response.ok response); simpl.
      * destruct (Response.blob response) as [e|blob]; simpl.
        -- do 3 eexists. split; [reflexivity|]. simpl. repeat split.
           intro H. rewrite (L H). simpl. rewrite H, AppStatus_eqb_refl. reflexivity.
        -- do 3 eexists. split; [reflexivity|]. simpl. repeat split.
           intro H. rewrite (L H). simpl. rewrite H, AppStatus_eqb_refl. reflexivity.
      * do 3 eexists. split; [reflexivity|]. simpl. repeat split. exact L.
  - destruct (JS.truthy_opt (InitChatPayloadFile.base64Data p)
              && JS.truthy_opt (InitChatPayloadFile.mimeType p)).
    + run_monad. simpl.
      destruct (Base64.atob (the (InitChatPayloadFile.base64Data p))); simpl.
      * do 3 eexists. split; [reflexivity|]. simpl. repeat split.
      * do 3 eexists. split; [reflexivity|]. simpl. repeat split.
    + run_monad. do 3 eexists. split; [reflexivity|]. simpl. repeat split.
Qed.

(** ** Base64 round trip *)

Section ListInd3.

Variable A : Type.
Variable P : list A -> Prop.
Hypothesis P0 : P [].
Hypothesis P1 : forall a, P [a].
Hypothesis P2 : forall a b, P [a; b].
Hypothesis P3 : forall a b c r, P r -> P (a :: b :: c :: r).

(** Induction on a list three elements at a time. *)
Lemma list_ind3 : forall l, P l.
Proof.
  assert (H : forall l, P l /\ (forall a, P (a :: l)) /\ (forall a b, P (a :: b :: l))).
  { induction l as [|x l (H0 & H1 & H2)].
    - repeat split; auto.
    - repeat split; auto. }
  intro l. apply H.
Qed.

End ListInd3.

(** Linear arithmetic with division and remainder by constants. *)
Ltac div_lia := zify; Z.to_euclidean_division_equations; lia.

Lemma sextet_table : forallb sextet_ok (seq 0 64) = true.
Proof. vm_compute. reflexivity. Qed.

Lemma char_of_sextet_spec (n : N) :
  (n < 64)%N ->
  Base64.sextet_of_char (Base64.char_of_sextet n) = Some n
  /\ Base64.is_ascii_whitespace (Base64.char_of_sextet n) = false
  /\ Ascii.eqb (Base64.char_of_sextet n) "=" = false.
Proof.
  intro Hn.
  pose proof sextet_table as T. rewrite forallb_forall in T.
  specialize (T (N.to_nat n)).
  assert (Hin : In (N.to_nat n) (seq 0 64)) by (apply in_seq; lia).
  specialize (T Hin). unfold sextet_ok in T. rewrite N2Nat.id in T.
  apply andb_prop in T. destruct T as [T T3].
  apply andb_prop in T. destruct T as [T1 T2].
  apply negb_true_iff in T2, T3.
  destruct (Base64.sextet_of_char (Base64.char_of_sextet n)) as [m|]; [|discriminate T1].
  apply N.eqb_eq in T1. subst m. auto.
Qed.

Lemma sextets_of_bytes_bound (bs : list N) :
  Forall small bs -> Forall (fun s => (s < 64)%N) (Base64.sextets_of_bytes bs).
Proof.
  unfold small. induction bs as [|a|a b|a b c r IH] using list_ind3; intro H.
  - apply Forall_nil.
  - inversion H; subst. simpl.
    repeat (apply Forall_cons; [div_lia|]). apply Forall_nil.
  - inversion H as [|? ? Ha H']; subst. inversion H'; subst. simpl.
    repeat (apply Forall_cons; [div_lia|]). apply Forall_nil.
  - inversion H as [|? ? Ha H1]; subst. inversion H1 as [|? ? Hb H2]; subst.
    inversion H2 as [|? ? Hc H3]; subst. simpl.
    repeat (apply Forall_cons; [div_lia|]). apply IH. exact H3.
Qed.

Lemma bytes_of_sextets_of_bytes (bs : list N) :
  Forall small bs -> Base64.bytes_of_sextets (Base64.sextets_of_bytes bs) = bs.
Proof.
  unfold small. induction bs as [|a|a b|a b c r IH] using list_ind3; intro H.
  - reflexivity.
  - inversion H; subst. simpl. f_equal. div_lia.
  - inversion H as [|? ? Ha H']; subst. inversion H'; subst.
    simpl. f_equal; [div_lia|]. f_equal. div_lia.
  - inversion H as [|? ? Ha H1]; subst. inversion H1 as [|? ? Hb H2]; subst.
    inversion H2 as [|? ? Hc H3]; subst.
    simpl. rewrite (IH H3). f_equal; [div_lia|]. f_equal; [div_lia|]. f_equal. div_lia.
Qed.

Lemma encode_N_chars (bs : list N) :
  list_ascii_of_string (Base64.encode_N bs)
  = (map Base64.char_of_sextet (Base64.sextets_of_bytes bs) ++ Base64.padding bs)%list.
Proof.
  induction bs as [|a|a b|a b c r IH] using list_ind3; try reflexivity.
  simpl. rewrite IH. reflexivity.
Qed.

Lemma encode_N_length (bs : list N) :
  exists k, length (list_ascii_of_string (Base64.encode_N bs)) = k * 4.
Proof.
  induction bs as [|a|a b|a b c r [k IH]] using list_ind3.
  - exists 0. reflexivity.
  - exists 1. reflexivity.
  - exists 1. reflexivity.
  - exists (S k). simpl. rewrite IH. reflexivity.
Qed.

Lemma sextets_of_bytes_length (bs : list N) :
  length (Base64.sextets_of_bytes bs) mod 4 <> 1.
Proof.
  induction bs as [|a|a b|a b c r IH] using list_ind3; try (simpl; discriminate).
  change (length (Base64.sextets_of_bytes (a :: b :: c :: r)))
    with (4 + length (Base64.sextets_of_bytes r)).
  rewrite Nat.add_comm.
  replace (length (Base64.sextets_of_bytes r) + 4)
    with (length (Base64.sextets_of_bytes r) + 1 * 4) by lia.
  rewrite Nat.Div0.mod_add. exact IH.
Qed.

Lemma filter_all {A : Type} (f : A -> bool) (l : list A) :
  Forall (fun x => f x = true) l -> filter f l = l.
Proof.
  induction 1 as [|x l Hx _ IH]; simpl; [reflexivity|].
  rewrite Hx, IH. reflexivity.
Qed.

Lemma padding_cases (bs : list N) :
  Base64.padding bs = [] \/ Base64.padding bs = ["="%char]
  \/ Base64.padding bs = ["="%char; "="%char].
Proof.
  induction bs as [|a|a b|a b c r IH] using list_ind3; simpl; auto.
Qed.

(** The characters of an encoding survive the removal of whitespace. *)
Lemma encode_N_no_whitespace (bs : list N) :
  Forall small bs ->
  filter (fun c => negb (Base64.is_ascii_whitespace c))
    (list_ascii_of_string (Base64.encode_N bs))
  = list_ascii_of_string (Base64.encode_N bs).
Proof.
  intro H. apply filter_all. rewrite encode_N_chars. apply Forall_app. split.
  - apply Forall_map.
    apply (Forall_impl _ (P := fun s => (s < 64)%N)).
    + intros s Hs. destruct (char_of_sextet_spec s Hs) as (_ & Hw & _).
      rewrite Hw. reflexivity.
    + apply sextets_of_bytes_bound. exact H.
  - destruct (padding_cases bs) as [-> | [-> | ->]]; repeat constructor.
Qed.

(** Removing the padding of an encoding leaves the sextet characters. *)
Lemma strip_padding_body (body : list N) (pad : list ascii) :
  Forall (fun s => (s < 64)%N) body ->
  pad = [] \/ pad = ["="%char] \/ pad = ["="%char; "="%char] ->
  rev (Base64.strip_padding_rev (rev (map Base64.char_of_sextet body ++ pad)%list))
  = map Base64.char_of_sextet body.
Proof.
  intros Hb Hp. rewrite rev_app_distr.
  assert (Hhead : forall r c, rev (map Base64.char_of_sextet body) = c :: r ->
                              Ascii.eqb c "=" = false).
  { intros r c Hr.
    assert (Hin : In c (map Base64.char_of_sextet body)).
    { apply in_rev. rewrite Hr. left. reflexivity. }
    apply in_map_iff in Hin. destruct Hin as (s & <- & Hs).
    rewrite Forall_forall in Hb.
    destruct (char_of_sextet_spec s (Hb s Hs)) as (_ & _ & He). exact He. }
  destruct Hp as [-> | [-> | ->]]; simpl.
  - destruct (rev (map Base64.char_of_sextet body)) as [|c r] eqn:E.
    + simpl. rewrite <- (rev_involutive (map Base64.char_of_sextet body)), E. reflexivity.
    + simpl. rewrite (Hhead r c eq_refl).
      rewrite <- E. apply rev_involutive.
  - destruct (rev (map Base64.char_of_sextet body)) as [|c r] eqn:E.
    + simpl. rewrite <- (rev_involutive (map Base64.char_of_sextet body)), E. reflexivity.
    + rewrite (Hhead r c eq_refl). rewrite <- E. apply rev_involutive.
  - apply rev_involutive.
Qed.

Lemma sextets_of_chars (l : list N) :
  Forall (fun s => (s < 64)%N) l ->
  Base64.sextets (map Base64.char_of_sextet l) = Some l.
Proof.
  induction 1 as [|s l Hs _ IH]; [reflexivity|].
  simpl. destruct (char_of_sextet_spec s Hs) as (-> & _). rewrite IH. reflexivity.
Qed.

(** [atob] inverts the encoding, on numbers that fit a byte. *)
Lemma atob_encode_N (bs : list N) :
  Forall small bs ->
  Base64.atob (Base64.encode_N bs) = Some (string_of_list_ascii (map ascii_of_N bs)).
Proof.
  intro H. unfold Base64.atob.
  rewrite (encode_N_no_whitespace bs H).
  destruct (encode_N_length bs) as [k Hk].
  rewrite Hk, Nat.Div0.mod_mul, Nat.eqb_refl.
  rewrite encode_N_chars.
  pose proof (sextets_of_bytes_bound bs H) as Hb.
  rewrite (strip_padding_body _ _ Hb (padding_cases bs)).
  rewrite length_map.
  destruct (length (Base64.sextets_of_bytes bs) mod 4 =? 1)%nat eqn:E.
  - apply Nat.eqb_eq in E. exfalso. exact (sextets_of_bytes_length bs E).
  - rewrite (sextets_of_chars _ Hb), (bytes_of_sextets_of_bytes bs H). reflexivity.
Qed.

Lemma byte_to_N_small (bs : list byte) : Forall small (map Byte.to_N bs).
Proof.
  apply Forall_map. apply Forall_forall. intros b _. unfold small.
  pose proof (Byte.to_N_bounded b). lia.
Qed.

Lemma Uint8Array_charCodes (bs : list byte) :
  Base64.Uint8Array
    (Base64.charCodes (string_of_list_ascii (map ascii_of_N (map Byte.to_N bs))))
  = bs.
Proof.
  unfold Base64.Uint8Array, Base64.charCodes.
  rewrite list_ascii_of_string_of_list_ascii, !map_map.
  induction bs as [|b bs IH]; [reflexivity|].
  simpl. rewrite IH. f_equal.
  destruct b; vm_compute; reflexivity.
Qed.

(** The whole round trip made by [getFileFromPayload] on inline data. *)
Lemma decode_encode (bs : list byte) :
  exists byteCharacters,
    Base64.atob (Base64.encode bs) = Some byteCharacters
    /\ Base64.Uint8Array (Base64.charCodes byteCharacters) = bs.
Proof.
  eexists. split.
  - unfold Base64.encode. apply atob_encode_N. apply byte_to_N_small.
  - apply Uint8Array_charCodes.
Qed.

(** The encoding of a non-empty byte sequence is a non-empty string. *)
Lemma encode_nonempty (bs : list byte) :
  bs <> [] -> JS.truthy (Base64.encode bs) = true.
Proof.
  intro H. unfold Base64.encode.
  destruct bs as [|a [|b [|c r]]]; [contradiction| | |]; reflexivity.
Qed.


(** ** The upload loop *)

Lemma uploadLoop_run (W : World) (ragStoreName : string) (total : nat) :
  forall (rest : list InitChatPayloadFile.t) (i : nat) (acc : list File.t) (c : Component),
  exists r c' t,
    uploadLoop W ragStoreName total i rest acc c = (r, c', t)
    /\ same_session (live c) (live c')
    /\ (status (listener c) = status (live c) -> listener c' = listener c)
    /\ deleted t = [] /\ posted t = []
    /\ length (uploaded t) <= length rest
    /\ match r with
       | Normal fs =>
           fs = (acc ++ uploaded t)%list
           /\ map File.name (uploaded t) = map resolvedName rest
       | Throws _ => True
       end.
Proof.
  induction rest as [|p rest IH]; intros i acc c.
  - exists (Normal acc), c, []. simpl.
    split; [reflexivity|]. split; [apply same_session_refl|].
    split; [intros _; reflexivity|]. split; [reflexivity|]. split; [reflexivity|].
    split; [lia|].
    split; [rewrite app_nil_r; reflexivity | reflexivity].
  - simpl uploadLoop.
    match goal with
    | |- context [bind (setUploadProgress ?f) _ c] =>
        remember (setUploadProgress f c) as sp eqn:Hsp
    end.
    destruct sp as [[r0 c1] t0].
    assert (Hc1 : r0 = Normal tt /\ t0 = [] /\ same_session (live c) (live c1)
                  /\ listener c1 = listener c).
    { unfold setUploadProgress, modify in Hsp. inversion Hsp; subst.
      simpl. unfold same_session. simpl. repeat split. }
    destruct Hc1 as (-> & -> & Hs1 & Hl1).
    destruct (getFileFromPayload_run W i p c1) as (r1 & c2 & t1 & Hg & Hlive2 & Hlis2 & Hup1 & Hdel1 & Hpost1 & Hname).
    assert (Hstat1 : status (live c1) = status (live c)) by apply Hs1.
    destruct r1 as [file|e].
    + (* the file is resolved; the upload is issued and awaited *)
      destruct (render_run c2) as (c3 & Hr & Hlive3 & _ & Hlis3 & _).
      destruct (uploadToRagStore W i ragStoreName file) as [e|] eqn:Hu.
      * exists (Throws e), c3, (t1 ++ [call_uploadToRagStore ragStoreName file])%list.
        split.
        { unfold bind at 1. rewrite <- Hsp. unfold bind at 1. rewrite Hg.
          cbv [bind emit await_void throw ret]. rewrite Hr, Hu. simpl. reflexivity. }
        split. { rewrite Hlive3, Hlive2. exact Hs1. }
        split. { intro H.
                 assert (L2 : listener c2 = listener c1) by (apply Hlis2; congruence).
                 assert (L3 : listener c3 = listener c2) by (apply Hlis3; congruence).
                 congruence. }
        split. { rewrite deleted_app, Hdel1. reflexivity. }
        split. { rewrite posted_app, Hpost1. reflexivity. }
        split. { rewrite uploaded_app, Hup1. simpl. lia. }
        exact I.
      * destruct (IH (S i) (acc ++ [file])%list c3)
          as (r4 & c4 & t4 & Hrec & Hs4 & Hlis4 & Hdel4 & Hpost4 & Hlen4 & Hres4).
        exists r4, c4, (t1 ++ call_uploadToRagStore ragStoreName file :: t4)%list.
        split.
        { unfold bind at 1. rewrite <- Hsp. unfold bind at 1. rewrite Hg.
          cbv [bind emit await_void throw ret]. rewrite Hr, Hu, Hrec.
          simpl. reflexivity. }
        split. { eapply same_session_trans; [exact Hs1|].
                 rewrite <- Hlive2, <- Hlive3. exact Hs4. }
        split. { intro H.
                 assert (L2 : listener c2 = listener c1) by (apply Hlis2; congruence).
                 assert (L3 : listener c3 = listener c2) by (apply Hlis3; congruence).
                 assert (L4 : listener c4 = listener c3) by (apply Hlis4; congruence).
                 congruence. }
        split. { rewrite deleted_app, Hdel1. simpl. exact Hdel4. }
        split. { rewrite posted_app, Hpost1. simpl. exact Hpost4. }
        split. { rewrite uploaded_app, Hup1. simpl. lia. }
        destruct r4 as [fs|e]; [|exact I].
        destruct Hres4 as [Hfs Hnames]. split.
        { rewrite uploaded_app, Hup1. simpl. rewrite Hfs, <- app_assoc. reflexivity. }
        { rewrite uploaded_app, Hup1. simpl. rewrite Hname, Hnames. reflexivity. }
    + exists (Throws e), c2, t1.
      split.
      { unfold bind at 1. rewrite <- Hsp. unfold bind at 1. rewrite Hg. reflexivity. }
      split. { rewrite Hlive2. exact Hs1. }
      split. { intro H.
               assert (L2 : listener c2 = listener c1) by (apply Hlis2; congruence).
               congruence. }
      split. { exact Hdel1. }
      split. { exact Hpost1. }
      split. { rewrite Hup1. simpl. lia. }
      exact I.
Qed.

(** ** Initialization *)

Arguments JS.includes : simpl never.
Arguments JS.asciiLowerCase : simpl never.
Arguments File.normalizeType : simpl never.
Arguments JS.string_of_N : simpl never.
Arguments JS.string_of_nat : simpl never.
Arguments String.append : simpl never.

(** The [catch] clause ends in status [Error], keeps the store name held in
    the hook state, and issues at most one deletion, for the local
    [ragStoreName]. *)
Lemma initChatCatch_run (W : World) (ragStoreName : option string) (err : JS.Thrown)
    (c : Component) :
  exists c' t,
    initChatCatch W ragStoreName err c = (Normal tt, c', t)
    /\ status (live c') = AppStatus.Error
    /\ activeRagStoreName (live c') = activeRagStoreName (live c)
    /\ listener c' = listener c
    /\ uploaded t = []
    /\ deleted t = (if JS.truthy_opt ragStoreName then [the ragStoreName] else [])
    /\ (exists m, posted t = [chatError m]).
Proof.
  unfold initChatCatch.
  destruct (JS.includes (toLowerCase W (JS.describe err)) "api key not valid"
            || JS.includes (toLowerCase W (JS.describe err))
                 "requested entity was not found");
    destruct (JS.truthy_opt ragStoreName);
    try destruct (deleteRagStore W (the ragStoreName)) eqn:Hd;
    cbv [bind handleError postMessageToParent setError setStatus modify emit ret];
    try rewrite Hd;
    do 2 eexists; (split; [reflexivity|]); simpl;
    repeat (split; try reflexivity); eexists; reflexivity.
Qed.

(** The [try] block after the store exists.  It runs the upload loop from
    the state in which the store name has been recorded; when it completes,
    the session is [Chatting] with that store and the label computed from
    the uploaded files. *)
Lemma initChatTry_run (W : World) (files : list InitChatPayloadFile.t)
    (dn : option string) (totalSteps : nat) (name : string) (c : Component) :
  status (listener c) = status (live c) ->
  exists r c' t c1 rl cl tl,
    initChatTry W files dn totalSteps name c = (r, c', t)
    /\ uploadLoop W name (length files) 0 files [] c1 = (rl, cl, tl)
    /\ uploaded t = uploaded tl
    /\ deleted t = []
    /\ activeRagStoreName (live c') = Some name
    /\ listener c' = listener c
    /\ match r with
       | Throws _ => status (live c') = status (live c)
       | Normal _ =>
           (exists fs, rl = Normal fs)
           /\ status (live c') = AppStatus.Chatting
           /\ documentName (live c') = docNameOf dn (uploaded t)
           /\ chatHistory (live c') = []
           /\ length (uploaded t) = length files
           /\ map File.name (uploaded t) = map resolvedName files
           /\ posted t = [chatReady (docNameOf dn (uploaded t))]
       end.
Proof.
  intro Hcoh. unfold initChatTry.
  cbv [bind setActiveRagStoreName setUploadProgress modify].
  match goal with
  | |- context [uploadLoop W name (length files) 0 files [] ?c1] =>
      set (k := c1);
      destruct (uploadLoop_run W name (length files) files 0 [] k)
        as (rl & cl & tl & Hloop & Hs & Hlis & Hdel & Hpost & Hlen & Hres)
  end.
  assert (Hk : status (listener k) = status (live k)) by (subst k; simpl; exact Hcoh).
  specialize (Hlis Hk).
  destruct Hs as (Hst & _ & Hstore & _).
  rewrite Hloop.
  destruct rl as [fs|e].
  - destruct Hres as [Hfs Hnames]. simpl in Hfs. subst fs.
    assert (Heqb : AppStatus.eqb (status (live cl)) (status (listener cl)) = true).
    { apply AppStatus_eqb_eq. rewrite Hlis, Hst. symmetry. exact Hk. }
    cbv [emit await await_void bind render ret throw setExampleQuestions
         setDocumentName setChatHistory setStatus postMessageToParent modify].
    simpl. rewrite Heqb.
    destruct (generateExampleQuestions W name) as [e|questions].
    + do 3 eexists. exists k, (Normal (uploaded tl)), cl, tl.
      split; [reflexivity|]. split; [exact Hloop|]. simpl.
      rewrite !uploaded_app, !deleted_app, Hdel. simpl. rewrite app_nil_r.
      split; [reflexivity|]. split; [reflexivity|].
      split; [rewrite Hstore; reflexivity|].
      split; [rewrite Hlis; reflexivity|].
      rewrite Hst. reflexivity.
    + simpl. rewrite Heqb.
      do 3 eexists. exists k, (Normal (uploaded tl)), cl, tl.
      split; [reflexivity|]. split; [exact Hloop|]. simpl.
      rewrite !uploaded_app, !deleted_app, Hdel. simpl. rewrite app_nil_r.
      split; [reflexivity|]. split; [reflexivity|].
      split; [rewrite Hstore; reflexivity|].
      split; [rewrite Hlis; reflexivity|].
      split; [eexists; reflexivity|].
      split; [reflexivity|]. split; [reflexivity|]. split; [reflexivity|].
      split. { apply Nat.le_antisymm; [exact Hlen|].
               rewrite <- (length_map File.name), Hnames, length_map. apply Nat.le_refl. }
      split; [exact Hnames|].
      rewrite !posted_app, Hpost. reflexivity.
  - do 3 eexists. exists k, (Throws e), cl, tl.
    split; [reflexivity|]. split; [exact Hloop|]. simpl.
    split; [reflexivity|]. split; [exact Hdel|].
    split; [rewrite Hstore; reflexivity|].
    split; [rewrite Hlis; reflexivity|].
    rewrite Hst. reflexivity.
Qed.

(** A whole [handleInitChat].  It never throws.  It ends either in status
    [Error], or in status [Chatting] with the created store recorded and the
    label computed from the uploaded files.  Every upload call it makes is
    made by one run of the upload loop over the whole payload list. *)
Lemma handleInitChat_run (W : World) (files : list InitChatPayloadFile.t)
    (dn : option string) (c : Component) :
  exists c' t,
    handleInitChat W files dn c = (Normal tt, c', t)
    /\ (uploaded t = []
        \/ exists name c1 rl cl tl,
             uploadLoop W name (length files) 0 files [] c1 = (rl, cl, tl)
             /\ uploaded t = uploaded tl
             /\ (forall e, rl = Throws e -> status (live c') = AppStatus.Error))
    /\ (status (live c') = AppStatus.Error
        \/ (status (live c') = AppStatus.Chatting
            /\ status (listener c') = AppStatus.Uploading
            /\ (exists name, activeRagStoreName (live c') = Some name)
            /\ documentName (live c') = docNameOf dn (uploaded t)
            /\ chatHistory (live c') = []
            /\ length (uploaded t) = length files
            /\ map File.name (uploaded t) = map resolvedName files
            /\ posted t = [chatReady (docNameOf dn (uploaded t))]
            /\ deleted t = [])).
Proof.
  unfold handleInitChat.
  destruct (length files =? 0)%nat.
  { destruct (handleError_run c "No files provided for chat initialization." None)
      as (c' & Hrun & Hst & _).
    exists c'. eexists. split; [exact Hrun|]. split; [left; reflexivity|].
    left. exact Hst. }
  cbv [bind emit].
  destruct (initialize W) as [err|].
  { destruct (handleError_run c "Initialization failed." (Some err))
      as (c' & Hrun & Hst & _).
    exists c'. eexists. rewrite Hrun. split; [reflexivity|].
    split; [left; reflexivity|]. left. exact Hst. }
  cbv [setStatus setError setUploadProgress modify].
  unfold try_finally, try_assign_catch.
  cbv [bind emit await render ret throw].
  match goal with
  | |- context [createRagStore W ?n] => destruct (createRagStore W n) as [e|name]
  end.
  - (* the store is not created *)
    match goal with
    | |- context [initChatCatch W None e ?k] =>
        destruct (initChatCatch_run W None e k)
          as (c3 & t3 & Hc & Hst & _ & _ & Hup & _ & _);
        rewrite Hc
    end.
    do 2 eexists. split; [reflexivity|]. simpl. rewrite ?app_nil_r.
    split; [left; exact Hup|]. left. exact Hst.
  - (* the store exists *)
    unfold try_catch.
    match goal with
    | |- context [initChatTry W files dn ?n name ?k] =>
        set (c2 := k);
        assert (Hcoh : status (listener c2) = status (live c2))
          by (subst c2; cbn; destruct (status (listener c)) eqn:E; cbn;
              try reflexivity; exact E);
        destruct (initChatTry_run W files dn n name c2 Hcoh)
          as (r & c3 & t3 & c1 & rl & cl & tl & Htry & Hloop & Hup & Hdel & Hstore
              & Hlis & Hres);
        rewrite Htry
    end.
    destruct r as [[]|e].
    + destruct Hres as ([fs Hrl] & Hst & Hdoc & Hhist & Hlen & Hnames & Hpost).
      do 2 eexists. split; [reflexivity|]. simpl. rewrite ?app_nil_r.
      split.
      { right. exists name, c1, rl, cl, tl. split; [exact Hloop|].
        split; [exact Hup|]. intros e He. rewrite Hrl in He. discriminate He. }
      right. split; [exact Hst|].
      split; [rewrite Hlis, Hcoh; reflexivity|].
      split; [exists name; exact Hstore|].
      split; [exact Hdoc|]. split; [exact Hhist|]. split; [exact Hlen|].
      split; [exact Hnames|]. split; [exact Hpost|].
      exact Hdel.
    + destruct (initChatCatch_run W (Some name) e c3)
        as (c4 & t4 & Hc & Hst & _ & _ & Hup4 & _ & _).
      rewrite Hc.
      do 2 eexists. split; [reflexivity|]. simpl. rewrite ?app_nil_r.
      split.
      { right. exists name, c1, rl, cl, tl. split; [exact Hloop|].
        split; [rewrite uploaded_app, Hup4, app_nil_r; exact Hup|].
        intros _ _. exact Hst. }
      left. exact Hst.
Qed.

(** An initialization that got as far as creating the store: the store name
    stays in the hook state whatever happens next, and when the
    initialization fails its [catch] clause has issued the one deletion. *)
Lemma handleInitChat_after_creation (W : World) (files : list InitChatPayloadFile.t)
    (dn : option string) (c : Component) (name : string) :
  files <> [] ->
  initialize W = None ->
  createRagStore W ("chat-session-" ++ JS.string_of_N (Date_now W)) = inr name ->
  exists c' t,
    handleInitChat W files dn c = (Normal tt, c', t)
    /\ activeRagStoreName (live c') = Some name
    /\ status (listener c') = AppStatus.Uploading
    /\ (status (live c') = AppStatus.Error ->
        deleted t = if JS.truthy name then [name] else []).
Proof.
  intros Hfiles Hinit Hcreate.
  unfold handleInitChat.
  destruct files as [|p files']; [contradiction|].
  change (length (p :: files') =? 0)%nat with false. cbv iota.
  cbv [bind emit]. rewrite Hinit.
  cbv [setStatus setError setUploadProgress modify].
  unfold try_finally, try_assign_catch.
  cbv [bind emit await render ret throw].
  rewrite Hcreate. unfold try_catch.
  match goal with
  | |- context [initChatTry W (p :: files') dn ?n name ?k] =>
      set (c2 := k);
      assert (Hcoh : status (listener c2) = status (live c2))
        by (subst c2; cbn; destruct (status (listener c)) eqn:E; cbn;
            try reflexivity; exact E);
      assert (Hup2 : status (live c2) = AppStatus.Uploading) by reflexivity;
      destruct (initChatTry_run W (p :: files') dn n name c2 Hcoh)
        as (r & c3 & t3 & c1 & rl & cl & tl & Htry & Hloop & Hup & Hdel & Hstore
            & Hlis & Hres);
      rewrite Htry
  end.
  destruct r as [[]|e].
  - destruct Hres as (_ & Hst & _).
    do 2 eexists. split; [reflexivity|]. simpl. rewrite ?app_nil_r.
    split; [exact Hstore|]. split; [rewrite Hlis, Hcoh; exact Hup2|].
    intro HE. rewrite Hst in HE. discriminate HE.
  - destruct (initChatCatch_run W (Some name) e c3)
      as (c4 & t4 & Hc & Hst & Hstore4 & Hlis4 & _ & Hdel4 & _).
    rewrite Hc.
    do 2 eexists. split; [reflexivity|]. simpl. rewrite ?app_nil_r.
    split; [rewrite Hstore4; exact Hstore|].
    split; [rewrite Hlis4, Hlis, Hcoh; exact Hup2|].
    intros _. rewrite deleted_app, Hdel, Hdel4. reflexivity.
Qed.

(** ** Reset and query *)

(** Evaluation of a handler on a symbolic component: the monad and the
    setters are unfolded, and projections are reduced where they meet a
    record. *)
Ltac js_eval :=
  cbn [bind ret throw emit modify await await_void render try_catch try_finally
       postMessageToParent handleError
       setStatus setError setUploadProgress setActiveRagStoreName setChatHistory
       setIsQueryLoading setExampleQuestions setDocumentName
       live listener ragStoreNameRef status error uploadProgress activeRagStoreName
       chatHistory isQueryLoading exampleQuestions documentName negb].

(** The three ways [handleResetChat] can go, by the store name it holds
    and the outcome of the deletion. *)
Lemma handleResetChat_run (W : World) (held : option string) (c : Component) :
  exists c' t,
    handleResetChat W held c = (Normal tt, c', t)
    /\ (status (listener c) = status (live c) -> listener c' = listener c)
    /\ if JS.truthy_opt held then
         match deleteRagStore W (the held) with
         | None =>
             t = [call_deleteRagStore (the held); post (chatEnded "Chat session reset.")]
             /\ status (live c') = AppStatus.Initializing
             /\ activeRagStoreName (live c') = None
             /\ chatHistory (live c') = [] /\ exampleQuestions (live c') = []
             /\ documentName (live c') = EmptyString
         | Some err =>
             t = [call_deleteRagStore (the held);
                  console_error "Failed to delete RAG store during reset." (Some err);
                  post (chatError ("Failed to delete RAG store during reset."
                                     ++ (if JS.thrown_truthy err
                                         then ": " ++ JS.describe err else EmptyString)))]
             /\ status (live c') = AppStatus.Error
             /\ activeRagStoreName (live c') = activeRagStoreName (live c)
             /\ chatHistory (live c') = chatHistory (live c)
             /\ exampleQuestions (live c') = exampleQuestions (live c)
             /\ documentName (live c') = documentName (live c)
         end
       else
         t = [post (chatEnded "Chat session reset (no active store).")]
         /\ status (live c') = AppStatus.Initializing
         /\ activeRagStoreName (live c') = None
         /\ chatHistory (live c') = [] /\ exampleQuestions (live c') = []
         /\ documentName (live c') = EmptyString.
Proof.
  unfold handleResetChat.
  destruct (JS.truthy_opt held).
  - js_eval.
    destruct (deleteRagStore W (the held)) as [err|].
    + js_eval.
      do 2 eexists. split; [reflexivity|]. simpl.
      split; [|repeat split].
      intro H. rewrite H, AppStatus_eqb_refl. reflexivity.
    + js_eval.
      do 2 eexists. split; [reflexivity|]. simpl.
      split; [|repeat split].
      intro H. rewrite H, AppStatus_eqb_refl. reflexivity.
  - js_eval.
    do 2 eexists. split; [reflexivity|]. simpl. repeat split.
Qed.

(** The three ways [handleSendMessage] can go, by the store name it holds
    and the outcome of [fileSearch]. *)
Lemma handleSendMessage_run (W : World) (held : option string) (message : string)
    (c : Component) :
  exists c' t,
    handleSendMessage W held message c = (Normal tt, c', t)
    /\ (status (listener c) = status (live c) -> listener c' = listener c)
    /\ activeRagStoreName (live c') = activeRagStoreName (live c)
    /\ if JS.truthy_opt held then
         match fileSearch W (the held) message with
         | inr result =>
             t = [call_fileSearch (the held) message;
                  post (chatResponse (QueryResult.text result)
                          (QueryResult.groundingChunks result))]
             /\ status (live c') = status (live c)
             /\ chatHistory (live c')
                = (chatHistory (live c)
                     ++ [userMessageOf message;
                         {| ChatMessage.role := model;
                            ChatMessage.parts := [QueryResult.text result];
                            ChatMessage.groundingChunks :=
                              Some (QueryResult.groundingChunks result) |}])%list
         | inl err =>
             t = [call_fileSearch (the held) message;
                  console_error "Failed to get response" (Some err);
                  post (chatError ("Failed to get response"
                                     ++ (if JS.thrown_truthy err
                                         then ": " ++ JS.describe err else EmptyString)));
                  post (chatError ("Failed to get response: " ++ JS.describe err))]
             /\ status (live c') = AppStatus.Error
             /\ chatHistory (live c')
                = (chatHistory (live c) ++ [userMessageOf message; apologyMessage])%list
         end
       else
         t = [post (chatError "No active chat session. Please initialize first.")]
         /\ live c' = live c.
Proof.
  unfold handleSendMessage.
  destruct (JS.truthy_opt held); simpl negb; cbv iota.
  - js_eval.
    destruct (fileSearch W (the held) message) as [err|result].
    + js_eval.
      do 2 eexists. split; [reflexivity|]. simpl.
      split; [intro H; rewrite H, AppStatus_eqb_refl; reflexivity|].
      split; [reflexivity|]. split; [reflexivity|]. split; [reflexivity|].
      rewrite <- app_assoc. reflexivity.
    + js_eval.
      do 2 eexists. split; [reflexivity|]. simpl.
      split; [intro H; rewrite H, AppStatus_eqb_refl; reflexivity|].
      split; [reflexivity|]. split; [reflexivity|]. split; [reflexivity|].
      rewrite <- app_assoc. reflexivity.
  - js_eval.
    do 2 eexists. split; [reflexivity|]. repeat split.
Qed.

(** ** One input *)

(** What one input does to the part of the component the invariants speak
    of.  Either nothing changes there; or the status becomes [Error]; or a
    reset completed; or an initialization completed; or the error was
    acknowledged. *)
Lemma handle_run (i : Input) (c : Component) :
  coherent c ->
  exists r c1 t,
    handle i c = (r, c1, t)
    /\ ((status (live c1) = status (live c)
         /\ activeRagStoreName (live c1) = activeRagStoreName (live c)
         /\ listener c1 = listener c)
        \/ status (live c1) = AppStatus.Error
        \/ (status (live c1) = AppStatus.Initializing
            /\ activeRagStoreName (live c1) = None)
        \/ (status (live c1) = AppStatus.Chatting
            /\ status (listener c1) = AppStatus.Uploading
            /\ exists name, activeRagStoreName (live c1) = Some name)
        \/ (i = onTryAgain
            /\ status (live c1) = AppStatus.Initializing
            /\ activeRagStoreName (live c1) = activeRagStoreName (live c))).
Proof.
  intros (Hst & HnU & HnW & Hchat).
  assert (Hsame : forall r : Completion unit,
            exists r' c1 t, (r, c, @nil Effect) = (r', c1, t)
            /\ ((status (live c1) = status (live c)
                 /\ activeRagStoreName (live c1) = activeRagStoreName (live c)
                 /\ listener c1 = listener c)
                \/ status (live c1) = AppStatus.Error
                \/ (status (live c1) = AppStatus.Initializing
                    /\ activeRagStoreName (live c1) = None)
                \/ (status (live c1) = AppStatus.Chatting
                    /\ status (listener c1) = AppStatus.Uploading
                    /\ exists name, activeRagStoreName (live c1) = Some name)
                \/ (i = onTryAgain
                    /\ status (live c1) = AppStatus.Initializing
                    /\ activeRagStoreName (live c1) = activeRagStoreName (live c)))).
  { intro r. exists r, c, []. split; [reflexivity|]. left. repeat split. }
  assert (Hsend : forall W held message,
            exists c1 t, handleSendMessage W held message c = (Normal tt, c1, t)
              /\ ((status (live c1) = status (live c)
                   /\ activeRagStoreName (live c1) = activeRagStoreName (live c)
                   /\ listener c1 = listener c)
                  \/ status (live c1) = AppStatus.Error)).
  { intros W held message.
    destruct (handleSendMessage_run W held message c)
      as (c1 & t & Hrun & Hlis & Hstore & Hcases).
    exists c1, t. split; [exact Hrun|].
    destruct (JS.truthy_opt held).
    - destruct (fileSearch W (the held) message) as [err|result].
      + right. apply Hcases.
      + left. destruct Hcases as (_ & Hs & _). auto.
    - left. destruct Hcases as (_ & Hl). rewrite Hl. auto. }
  destruct i as [W event| |W message]; unfold handle.
  - unfold handleMessage.
    destruct (fromParent event); simpl negb; cbv iota; [|exact (Hsame _)].
    destruct (data event) as [[payload|dn|message| |type]|]; [| | | | |exact (Hsame _)].
    + (* initChat *)
      destruct (negb (AppStatus.eqb (status (listener c)) AppStatus.Initializing)
                && negb (AppStatus.eqb (status (listener c)) AppStatus.Error)
                && negb (AppStatus.eqb (status (listener c)) AppStatus.Chatting)).
      * unfold emit. do 3 eexists. split; [reflexivity|]. left. repeat split.
      * destruct (handleInitChat_run W (InitChatPayload.files payload)
                    (InitChatPayload.chatDisplayName payload) c)
          as (c1 & t & Hrun & _ & [HE|(HC & HL & HS & _)]).
        -- exists (Normal tt), c1, t. split; [exact Hrun|]. right. left. exact HE.
        -- exists (Normal tt), c1, t. split; [exact Hrun|]. right. right. right. left. auto.
    + (* initChat without files *)
      destruct (negb (AppStatus.eqb (status (listener c)) AppStatus.Initializing)
                && negb (AppStatus.eqb (status (listener c)) AppStatus.Error)
                && negb (AppStatus.eqb (status (listener c)) AppStatus.Chatting)).
      * unfold emit. do 3 eexists. split; [reflexivity|]. left. repeat split.
      * exact (Hsame _).
    + (* sendMessage *)
      destruct (AppStatus.eqb (status (listener c)) AppStatus.Chatting).
      * destruct (Hsend W (activeRagStoreName (listener c)) message)
          as (c1 & t & Hrun & Hc).
        exists (Normal tt), c1, t. split; [exact Hrun|]. destruct Hc as [Hc|Hc]; [left|right; left]; exact Hc.
      * cbv [bind emit postMessageToParent]. do 3 eexists. split; [reflexivity|].
        left. repeat split.
    + (* resetChat *)
      destruct (handleResetChat_run W (activeRagStoreName (listener c)) c)
        as (c1 & t & Hrun & _ & Hcases).
      exists (Normal tt), c1, t. split; [exact Hrun|].
      destruct (JS.truthy_opt (activeRagStoreName (listener c))).
      * destruct (deleteRagStore W (the (activeRagStoreName (listener c)))).
        -- right. left. apply Hcases.
        -- right. right. left. split; apply Hcases.
      * right. right. left. split; apply Hcases.
    + (* any other type *)
      destruct (JS.truthy type); [|exact (Hsame _)].
      unfold emit. do 3 eexists. split; [reflexivity|]. left. repeat split.
  - destruct (AppStatus.eqb (status (live c)) AppStatus.Error); [|exact (Hsame _)].
    cbv [clearError bind setError setStatus modify].
    do 3 eexists. split; [reflexivity|]. simpl.
    right. right. right. right. repeat split.
  - destruct (AppStatus.eqb (status (live c)) AppStatus.Chatting); [|exact (Hsame _)].
    destruct (Hsend W (activeRagStoreName (live c)) message) as (c1 & t & Hrun & Hc).
    exists (Normal tt), c1, t. split; [exact Hrun|]. destruct Hc as [Hc|Hc]; [left|right; left]; exact Hc.
Qed.

Lemma step_run (i : Input) (c : Component) :
  exists r c1 t,
    handle i c = (r, c1, t)
    /\ step i c
       = ({| live := live c1;
             listener := if AppStatus.eqb (status (live c1)) (status (listener c1))
                         then listener c1 else live c1;
             ragStoreNameRef := activeRagStoreName (live c1) |}, t).
Proof.
  unfold step. destruct (handle i c) as [[r c1] t].
  exists r, c1, t. split; reflexivity.
Qed.

(** The invariant is kept by every input. *)
Lemma step_coherent (i : Input) (c : Component) :
  coherent c -> coherent (fst (step i c)).
Proof.
  intro Hc.
  destruct (handle_run i c Hc) as (r0 & c1 & t & Hh & Hcases).
  destruct (step_run i c) as (r & c1' & t' & Hh' & Hstep).
  rewrite Hh in Hh'. inversion Hh'; subst r c1' t'. clear Hh'.
  rewrite Hstep. simpl.
  destruct Hc as (Hst & HnU & HnW & Hchat).
  unfold coherent. simpl.
  destruct Hcases as [(Hs & Ha & Hl)|[HE|[(HI & _)|[(HC & HL & name & HS)|(_ & HI & _)]]]].
  - rewrite Hl, Hs, Hst, AppStatus_eqb_refl.
    repeat split; try congruence.
    + rewrite Ha. apply Hchat. congruence.
    + rewrite Ha. apply Hchat. congruence.
  - rewrite HE. repeat split; try discriminate.
    destruct (AppStatus.eqb AppStatus.Error (status (listener c1))) eqn:E.
    + apply AppStatus_eqb_eq in E. symmetry. exact E.
    + exact HE.
  - rewrite HI. repeat split; try discriminate.
    destruct (AppStatus.eqb AppStatus.Initializing (status (listener c1))) eqn:E.
    + apply AppStatus_eqb_eq in E. symmetry. exact E.
    + exact HI.
  - rewrite HC, HL. simpl. repeat split; try discriminate; try assumption.
    rewrite HS. discriminate.
  - rewrite HI. repeat split; try discriminate.
    destruct (AppStatus.eqb AppStatus.Initializing (status (listener c1))) eqn:E.
    + apply AppStatus_eqb_eq in E. symmetry. exact E.
    + exact HI.
Qed.

Lemma mount_coherent : coherent mount.
Proof. unfold coherent. simpl. repeat split; discriminate. Qed.

Lemma run_coherent (inputs : list Input) :
  forall c, coherent c -> coherent (fst (run inputs c)).
Proof.
  induction inputs as [|i rest IH]; intros c Hc; [exact Hc|].
  simpl. pose proof (step_coherent i c Hc) as H1.
  destruct (step i c) as [c1 t1]. simpl in H1.
  specialize (IH c1 H1). destruct (run rest c1) as [c2 t2]. exact IH.
Qed.

Lemma reachable_coherent (c : Component) : reachable c -> coherent c.
Proof.
  intros [inputs <-]. apply run_coherent. exact mount_coherent.
Qed.

(** Without an acknowledgment, an input keeps "[Initializing] means no
    store". *)
Lemma step_Initializing_no_store (i : Input) (c : Component) :
  coherent c -> notTryAgain i = true ->
  (status (live c) = AppStatus.Initializing -> activeRagStoreName (live c) = None) ->
  status (live (fst (step i c))) = AppStatus.Initializing ->
  activeRagStoreName (live (fst (step i c))) = None.
Proof.
  intros Hc Hi Hinv.
  destruct (handle_run i c Hc) as (r0 & c1 & t & Hh & Hcases).
  destruct (step_run i c) as (r & c1' & t' & Hh' & Hstep).
  rewrite Hh in Hh'. inversion Hh'; subst r c1' t'. clear Hh'.
  rewrite Hstep. simpl. intro HI.
  destruct Hcases as [(Hs & Ha & Hl)|[HE|[(_ & HN)|[(HC & _)|(Hack & _)]]]].
  - rewrite Ha. apply Hinv. congruence.
  - congruence.
  - exact HN.
  - congruence.
  - subst i. discriminate Hi.
Qed.

Lemma run_Initializing_no_store (inputs : list Input) :
  forall c,
    coherent c -> forallb notTryAgain inputs = true ->
    (status (live c) = AppStatus.Initializing -> activeRagStoreName (live c) = None) ->
    status (live (fst (run inputs c))) = AppStatus.Initializing ->
    activeRagStoreName (live (fst (run inputs c))) = None.
Proof.
  induction inputs as [|i rest IH]; intros c Hc Hall Hinv; [exact Hinv|].
  simpl in Hall. apply andb_prop in Hall. destruct Hall as [Hi Hrest].
  simpl.
  pose proof (step_coherent i c Hc) as H1.
  pose proof (step_Initializing_no_store i c Hc Hi Hinv) as H2.
  destruct (step i c) as [c1 t1]. simpl in H1, H2.
  specialize (IH c1 H1 Hrest H2). destruct (run rest c1) as [c2 t2]. exact IH.
Qed.

(** ** Claims about queries and resets *)

(** C1 (as amended).  A query command processed in status [Chatting] whose
    [fileSearch] call is rejected appends exactly two messages to
    [chatHistory], the user message and then the model message with the
    fixed apology text, posts [chatError] twice, and leaves the session in
    status [Error]: the [catch] clause of [handleSendMessage] calls
    [handleError], which sets the status. *)
Theorem C1_failed_query_appends_apology_and_sets_Error
    (W : World) (c : Component) (message s : string) (err : JS.Thrown) :
  reachable c ->
  status (live c) = AppStatus.Chatting ->
  activeRagStoreName (live c) = Some s ->
  JS.truthy s = true ->
  fileSearch W s message = inl err ->
  let c' := fst (step (onMessage W (fromHost (sendMessage message))) c) in
  let t := snd (step (onMessage W (fromHost (sendMessage message))) c) in
  chatHistory (live c')
  = (chatHistory (live c) ++ [userMessageOf message; apologyMessage])%list
  /\ status (live c') = AppStatus.Error
  /\ t = [call_fileSearch s message;
          console_error "Failed to get response" (Some err);
          post (chatError ("Failed to get response"
                             ++ (if JS.thrown_truthy err
                                 then ": " ++ JS.describe err else EmptyString)));
          post (chatError ("Failed to get response: " ++ JS.describe err))].
Proof.
  intros Hreach Hst Hstore Htruthy Hfail c' t.
  destruct (reachable_coherent c Hreach) as (Hl & _ & _ & Hchat).
  destruct (Hchat Hst) as [Hheld _].
  destruct (step_run (onMessage W (fromHost (sendMessage message))) c)
    as (r & c1 & t1 & Hh & Hstep).
  subst c' t. rewrite Hstep. simpl fst. simpl snd. simpl live.
  unfold handle, handleMessage in Hh. simpl in Hh.
  rewrite Hl, Hst in Hh. simpl in Hh.
  destruct (handleSendMessage_run W (activeRagStoreName (listener c)) message c)
    as (c2 & t2 & Hrun & _ & _ & Hcases).
  rewrite Hrun in Hh. inversion Hh; subst r c1 t1. clear Hh.
  rewrite Hheld, Hstore in Hcases. simpl in Hcases. rewrite Htruthy, Hfail in Hcases.
  destruct Hcases as (Ht & Hs & Hhist).
  split; [exact Hhist|]. split; [exact Hs|exact Ht].
Qed.

(** C4 (as amended).  From every component state, a [resetChat] command
    run by a handler that holds no store name, or whose deletion of the
    held store succeeds, ends in status [Initializing] with empty history,
    suggestions and document name and a null store name, and posts
    [chatEnded].  When the deletion is rejected, the [catch] clause calls
    [handleError]: the status becomes [Error], [chatError] is posted,
    [chatEnded] is not, and the store name, history, suggestions and
    document name are kept. *)
Theorem C4_reset_outcome (W : World) (c : Component) :
  let held := activeRagStoreName (listener c) in
  let c' := fst (step (onMessage W (fromHost resetChat)) c) in
  let t := snd (step (onMessage W (fromHost resetChat)) c) in
  (JS.truthy_opt held = false
   \/ (JS.truthy_opt held = true /\ deleteRagStore W (the held) = None) ->
   status (live c') = AppStatus.Initializing
   /\ chatHistory (live c') = []
   /\ exampleQuestions (live c') = []
   /\ documentName (live c') = EmptyString
   /\ activeRagStoreName (live c') = None
   /\ exists m, posted t = [chatEnded m])
  /\ (forall err,
        JS.truthy_opt held = true ->
        deleteRagStore W (the held) = Some err ->
        status (live c') = AppStatus.Error
        /\ chatHistory (live c') = chatHistory (live c)
        /\ exampleQuestions (live c') = exampleQuestions (live c)
        /\ documentName (live c') = documentName (live c)
        /\ activeRagStoreName (live c') = activeRagStoreName (live c)
        /\ t = [call_deleteRagStore (the held);
                console_error "Failed to delete RAG store during reset." (Some err);
                post (chatError ("Failed to delete RAG store during reset."
                                   ++ (if JS.thrown_truthy err
                                       then ": " ++ JS.describe err else EmptyString)))]).
Proof.
  intros held c' t.
  destruct (step_run (onMessage W (fromHost resetChat)) c)
    as (r & c1 & t1 & Hh & Hstep).
  subst c' t. rewrite Hstep. simpl fst. simpl snd. simpl live.
  unfold handle, handleMessage in Hh. simpl in Hh.
  destruct (handleResetChat_run W (activeRagStoreName (listener c)) c)
    as (c2 & t2 & Hrun & _ & Hcases).
  rewrite Hrun in Hh. inversion Hh; subst r c1 t1. clear Hh.
  fold held in Hcases. split.
  - intros [Hf|[Ht Hd]].
    + rewrite Hf in Hcases. destruct Hcases as (Ht2 & H1 & H2 & H3 & H4 & H5).
      repeat (split; [assumption|]). rewrite Ht2. eexists. reflexivity.
    + rewrite Ht, Hd in Hcases. destruct Hcases as (Ht2 & H1 & H2 & H3 & H4 & H5).
      repeat (split; [assumption|]). rewrite Ht2. eexists. reflexivity.
  - intros err Ht Hd. rewrite Ht, Hd in Hcases.
    destruct Hcases as (Ht2 & H1 & H2 & H3 & H4 & H5).
    repeat (split; [assumption|]). exact Ht2.
Qed.

(** C8.  A [sendMessage] command received while the status is not
    [Chatting] (that is [Initializing], [Uploading], [Error] or [Welcome])
    posts [chatError] (after a console warning) and changes nothing in the
    session state: no transition, [chatHistory] unchanged.  The listener
    is the one registered for the current status, as the effect
    re-registers it whenever the status changes. *)
Theorem C8_sendMessage_outside_Chatting_rejected
    (W : World) (c : Component) (message : string) :
  status (listener c) = status (live c) ->
  status (live c) <> AppStatus.Chatting ->
  live (fst (step (onMessage W (fromHost (sendMessage message))) c)) = live c
  /\ snd (step (onMessage W (fromHost (sendMessage message))) c)
     = [console_warn "Cannot send message: Chat is not active.";
        post (chatError "Chat is not active to send message.")].
Proof.
  intros Hl Hst.
  unfold step, handle, handleMessage. simpl.
  rewrite Hl. apply AppStatus_eqb_neq in Hst. rewrite Hst.
  split; reflexivity.
Qed.

(** C5 (as amended).  An [initChat] command whose [files] array is empty
    logs the error and posts [chatError]; no store is created and nothing
    is uploaded, since these two effects are all it does; and the status
    becomes [Error], because the rejection goes through [handleError].  The
    store name, history, suggestions and document name are unchanged. *)
Theorem C5_empty_initChat_posts_chatError_and_sets_Error
    (W : World) (c : Component) (payload : InitChatPayload.t) :
  reachable c ->
  InitChatPayload.files payload = [] ->
  let c' := fst (step (onMessage W (fromHost (initChat payload))) c) in
  let t := snd (step (onMessage W (fromHost (initChat payload))) c) in
  t = [console_error "No files provided for chat initialization." None;
       post (chatError "No files provided for chat initialization.")]
  /\ status (live c') = AppStatus.Error
  /\ error (live c') = Some "No files provided for chat initialization."
  /\ activeRagStoreName (live c') = activeRagStoreName (live c)
  /\ chatHistory (live c') = chatHistory (live c)
  /\ exampleQuestions (live c') = exampleQuestions (live c)
  /\ documentName (live c') = documentName (live c).
Proof.
  intros Hreach Hfiles c' t.
  destruct (reachable_coherent c Hreach) as (Hl & HnU & HnW & _).
  subst c' t. unfold step, handle, handleMessage. simpl.
  rewrite Hl, Hfiles.
  destruct (status (live c)) eqn:E; try (exfalso; congruence); simpl;
    repeat split.
Qed.

(** ** Claims about the store name *)

(** C3 (as amended).  In every state reached by processing inputs one
    after the other: in status [Chatting] the active store name is not
    null; the status is never [Uploading] between two inputs; and, as long
    as no error has been acknowledged with "Try Again / Reset", the store
    name is null in status [Initializing], so that a non-null store name
    is found only in status [Chatting] or [Error]. *)
Theorem C3_store_name_invariant (inputs : list Input) :
  let c := fst (run inputs mount) in
  (status (live c) = AppStatus.Chatting -> activeRagStoreName (live c) <> None)
  /\ status (live c) <> AppStatus.Uploading
  /\ (forallb notTryAgain inputs = true ->
      status (live c) = AppStatus.Initializing ->
      activeRagStoreName (live c) = None)
  /\ (forallb notTryAgain inputs = true ->
      activeRagStoreName (live c) <> None ->
      status (live c) = AppStatus.Chatting \/ status (live c) = AppStatus.Error).
Proof.
  intro c.
  assert (Hc : coherent c) by (apply run_coherent; exact mount_coherent).
  assert (HI : forallb notTryAgain inputs = true ->
               status (live c) = AppStatus.Initializing ->
               activeRagStoreName (live c) = None).
  { intros Hall. apply run_Initializing_no_store.
    - exact mount_coherent.
    - exact Hall.
    - intros _. reflexivity. }
  destruct Hc as (_ & HnU & HnW & Hchat).
  split; [intro H; apply (Hchat H)|].
  split; [exact HnU|].
  split; [exact HI|].
  intros Hall Hnn.
  destruct (status (live c)) eqn:E.
  - exfalso. apply Hnn. apply HI; [exact Hall|reflexivity].
  - exfalso. apply HnW. reflexivity.
  - exfalso. apply HnU. reflexivity.
  - left. reflexivity.
  - right. reflexivity.
Qed.

(** C2, as the code behaves.  Whenever an initialization creates a store
    and then fails, its [catch] clause calls [deleteRagStore] on the store
    but leaves the name in [activeRagStoreName]; the [resetChat] that
    follows finds the name and calls [deleteRagStore] on the same store
    once more. *)
Theorem C2_reset_after_failed_init_deletes_again
    (W W' : World) (c : Component) (files : list InitChatPayloadFile.t)
    (dn : option string) (name : string) :
  reachable c ->
  files <> [] ->
  initialize W = None ->
  createRagStore W ("chat-session-" ++ JS.string_of_N (Date_now W)) = inr name ->
  JS.truthy name = true ->
  let failed := step (onMessage W (fromHost (initWith files dn))) c in
  status (live (fst failed)) = AppStatus.Error ->
  deleted (snd failed) = [name]
  /\ deleted (snd (step (onMessage W' (fromHost resetChat)) (fst failed))) = [name].
Proof.
  intros Hreach Hfiles Hinit Hcreate Htruthy failed.
  destruct (reachable_coherent c Hreach) as (Hl & HnU & HnW & _).
  destruct (handleInitChat_after_creation W files dn c name Hfiles Hinit Hcreate)
    as (c1 & t1 & Hrun & Hstore & Hlis & Hdel).
  assert (Hh : handle (onMessage W (fromHost (initWith files dn))) c = (Normal tt, c1, t1)).
  { unfold handle, handleMessage. simpl. rewrite Hl.
    destruct (status (live c)) eqn:E; try (exfalso; congruence); simpl; exact Hrun. }
  destruct (step_run (onMessage W (fromHost (initWith files dn))) c)
    as (r & c1' & t1' & Hh' & Hstep).
  rewrite Hh in Hh'. inversion Hh'; subst r c1' t1'. clear Hh'.
  subst failed. rewrite Hstep. simpl fst. simpl snd. simpl live.
  intro HE. split.
  - rewrite (Hdel HE), Htruthy. reflexivity.
  - rewrite HE, Hlis. simpl AppStatus.eqb. cbv iota.
    match goal with
    | |- context [step ?i ?k] =>
        destruct (step_run i k) as (r & c2 & t2 & Hh2 & Hstep2); rewrite Hstep2
    end.
    simpl snd.
    unfold handle, handleMessage in Hh2. simpl in Hh2.
    destruct (handleResetChat_run W' (activeRagStoreName (live c1))
                {| live := live c1; listener := live c1;
                   ragStoreNameRef := activeRagStoreName (live c1) |})
      as (c3 & t3 & Hrun3 & _ & Hcases).
    rewrite Hrun3 in Hh2. inversion Hh2; subst r c2 t2. clear Hh2.
    rewrite Hstore in Hcases. simpl in Hcases. rewrite Htruthy in Hcases.
    destruct (deleteRagStore W' name); destruct Hcases as (-> & _); reflexivity.
Qed.

(** ** Claims about initialization *)

(** A payload with neither source is rejected by the resolver at once. *)
Lemma getFileFromPayload_unsourced (W : World) (i : nat) (p : InitChatPayloadFile.t)
    (c : Component) :
  JS.truthy_opt (InitChatPayloadFile.url p) = false ->
  JS.truthy_opt (InitChatPayloadFile.base64Data p) = false ->
  getFileFromPayload W i p c
  = (Throws (JS.ErrorObject
               "Invalid file payload: must provide url or base64Data with mimeType."),
     c, []).
Proof.
  intros Hu Hb. unfold getFileFromPayload. rewrite Hu, Hb. reflexivity.
Qed.

(** The upload loop stops at such a payload at the latest. *)
Lemma uploadLoop_unsourced (W : World) (ragStoreName : string) (total : nat)
    (p : InitChatPayloadFile.t) (post : list InitChatPayloadFile.t) :
  JS.truthy_opt (InitChatPayloadFile.url p) = false ->
  JS.truthy_opt (InitChatPayloadFile.base64Data p) = false ->
  forall (pre : list InitChatPayloadFile.t) (i : nat) (acc : list File.t) (c : Component),
  exists e c' t,
    uploadLoop W ragStoreName total i (pre ++ p :: post)%list acc c = (Throws e, c', t)
    /\ length (uploaded t) <= length pre.
Proof.
  intros Hu Hb. induction pre as [|p0 pre IH]; intros i acc c.
  - simpl app. simpl uploadLoop.
    cbv [bind setUploadProgress modify].
    rewrite (getFileFromPayload_unsourced W i p _ Hu Hb).
    do 3 eexists. split; [reflexivity|]. simpl. lia.
  - simpl app. simpl uploadLoop.
    cbv [bind setUploadProgress modify].
    match goal with
    | |- context [getFileFromPayload W i p0 ?k] =>
        destruct (getFileFromPayload_run W i p0 k)
          as (r1 & c2 & t1 & Hg & _ & _ & Hup1 & _);
        rewrite Hg
    end.
    destruct r1 as [file|e].
    + cbv [emit await_void bind render ret throw].
      destruct (uploadToRagStore W i ragStoreName file) as [e|].
      * do 3 eexists. split; [reflexivity|].
        simpl. rewrite !uploaded_app, Hup1. simpl. lia.
      * match goal with
        | |- context [uploadLoop W ragStoreName total (S i) _ ?a ?k] =>
            destruct (IH (S i) a k) as (e & c' & t & Hrec & Hlen);
            rewrite Hrec
        end.
        do 3 eexists. split; [reflexivity|].
        simpl. rewrite !uploaded_app, Hup1. simpl. lia.
    + do 3 eexists. split; [reflexivity|]. simpl.
      rewrite ?app_nil_r, Hup1. simpl. lia.
Qed.

(** C7.  A payload in which neither [url] nor [base64Data] is populated
    fails resolution with the validation error and without any effect; and
    an initialization whose list holds such a payload issues upload calls
    for files before it at most, and ends in status [Error]. *)
Theorem C7_unsourced_payload_fails_before_upload
    (W : World) (p : InitChatPayloadFile.t) :
  JS.truthy_opt (InitChatPayloadFile.url p) = false ->
  JS.truthy_opt (InitChatPayloadFile.base64Data p) = false ->
  (forall i c,
      getFileFromPayload W i p c
      = (Throws (JS.ErrorObject
                   "Invalid file payload: must provide url or base64Data with mimeType."),
         c, []))
  /\ (forall pre post dn c,
        length (uploaded (snd (handleInitChat W (pre ++ p :: post)%list dn c)))
        <= length pre
        /\ status (live (snd (fst (handleInitChat W (pre ++ p :: post)%list dn c))))
           = AppStatus.Error).
Proof.
  intros Hu Hb. split.
  - intros i c. apply getFileFromPayload_unsourced; assumption.
  - intros pre post dn c.
    destruct (handleInitChat_run W (pre ++ p :: post)%list dn c)
      as (c' & t & Hrun & Hup & Hend).
    rewrite Hrun. simpl.
    destruct Hup as [Hup|(name & c1 & rl & cl & tl & Hloop & Hup & Hthrow)].
    + rewrite Hup. simpl. split; [lia|].
      destruct Hend as [HE|(_ & _ & _ & _ & _ & Hlen & _)]; [exact HE|].
      rewrite Hup, length_app in Hlen. simpl in Hlen. lia.
    + destruct (uploadLoop_unsourced W name (length (pre ++ p :: post)%list) p post
                  Hu Hb pre 0 [] c1) as (e & c2 & t2 & Hloop2 & Hlen2).
      rewrite Hloop in Hloop2. inversion Hloop2; subst rl cl tl.
      split; [rewrite Hup; exact Hlen2|].
      apply (Hthrow e). reflexivity.
Qed.

(** C6.  After an initialization that ended in status [Chatting], the
    document name is the display name when one is given (present and not
    the empty string); otherwise the name of the single uploaded file;
    otherwise the two names joined by " & " for two files; otherwise the
    file count in decimal followed by " documents".  There is one uploaded
    file per payload, in payload order; its name is the [fileName] of the
    payload, or "unknown_file" when that is empty; and [chatReady] carries
    the same document name. *)
Theorem C6_documentName_after_successful_initChat
    (W : World) (files : list InitChatPayloadFile.t) (dn : option string)
    (c : Component) :
  let c' := snd (fst (handleInitChat W files dn c)) in
  let fs := uploaded (snd (handleInitChat W files dn c)) in
  status (live c') = AppStatus.Chatting ->
  length fs = length files
  /\ map File.name fs
     = map (fun p => if (InitChatPayloadFile.fileName p =? EmptyString)%string
                     then "unknown_file" else InitChatPayloadFile.fileName p) files
  /\ posted (snd (handleInitChat W files dn c)) = [chatReady (documentName (live c'))]
  /\ (forall s, dn = Some s -> s <> EmptyString -> documentName (live c') = s)
  /\ (dn = None \/ dn = Some EmptyString ->
      (forall f, fs = [f] -> documentName (live c') = File.name f)
      /\ (forall f g, fs = [f; g] ->
          documentName (live c') = File.name f ++ " & " ++ File.name g)
      /\ (length fs <> 1 -> length fs <> 2 ->
          documentName (live c')
          = NilZero.string_of_uint (Nat.to_uint (length fs)) ++ " documents")).
Proof.
  intros c' fs. subst c' fs.
  destruct (handleInitChat_run W files dn c) as (c' & t & Hrun & _ & Hend).
  rewrite Hrun. simpl. intro Hst.
  destruct Hend as [HE|(_ & _ & _ & Hdoc & _ & Hlen & Hnames & Hpost & _)];
    [congruence|].
  split; [exact Hlen|]. split.
  { rewrite Hnames. apply map_ext. intro p.
    unfold resolvedName, JS.or_else, JS.truthy.
    destruct (InitChatPayloadFile.fileName p =? EmptyString)%string; reflexivity. }
  split; [rewrite Hdoc; exact Hpost|].
  rewrite Hdoc. unfold docNameOf. split.
  { intros s -> Hs. simpl. unfold JS.truthy.
    destruct (String.eqb_spec s EmptyString); [contradiction|reflexivity]. }
  intro Hdn.
  assert (Hf : JS.truthy_opt dn = false) by (destruct Hdn as [->| ->]; reflexivity).
  rewrite Hf.
  split; [intros f ->; reflexivity|].
  split; [intros f g ->; reflexivity|].
  intros H1 H2.
  destruct (uploaded t) as [|f [|g [|h r]]]; simpl in *; try reflexivity; congruence.
Qed.

(** ** Claims about the resolver *)

(** C10.  When [url] is populated, resolution is the fetch and nothing
    else, whatever [base64Data] holds: its only effect is the fetch, [atob]
    is not called, and it fails only as the fetch fails (a rejection, a
    response that is not ok, or an unreadable body), never with the
    validation error of the last branch.  When the body is read, the file
    has the payload's name (or "unknown_file"), the bytes of the body, and
    as type the payload's MIME type, or the type of the body when the
    payload has none, in the form the [File] constructor gives it. *)
Theorem C10_url_takes_precedence
    (W : World) (i : nat) (p : InitChatPayloadFile.t) (c : Component) (url : string) :
  InitChatPayloadFile.url p = Some url ->
  url <> EmptyString ->
  snd (getFileFromPayload W i p c) = [call_fetch url]
  /\ live (snd (fst (getFileFromPayload W i p c))) = live c
  /\ fst (fst (getFileFromPayload W i p c))
     = match fetch W i url with
       | inl e => Throws e
       | inr response =>
           if Response.ok response then
             match Response.blob response with
             | inl e => Throws e
             | inr blob =>
                 Normal {| File.name :=
                             if (InitChatPayloadFile.fileName p =? EmptyString)%string
                             then "unknown_file" else InitChatPayloadFile.fileName p;
                           File.type :=
                             File.normalizeType
                               match InitChatPayloadFile.mimeType p with
                               | Some m => if (m =? EmptyString)%string
                                           then Blob.type blob else m
                               | None => Blob.type blob
                               end;
                           File.bytes := Blob.bytes blob |}
             end
           else Throws (JS.ErrorObject
                          ("Failed to fetch file from URL: " ++ url ++ " - "
                             ++ Response.statusText response))
       end.
Proof.
  intros Hurl Hne.
  assert (Hu : JS.truthy_opt (InitChatPayloadFile.url p) = true).
  { rewrite Hurl. simpl. unfold JS.truthy.
    destruct (String.eqb_spec url EmptyString); [contradiction|reflexivity]. }
  unfold getFileFromPayload. rewrite Hu, Hurl.
  cbv [bind emit await render ret throw the].
  destruct (fetch W i url) as [e|response].
  - repeat split.
  - destruct (Response.ok response); simpl negb; cbv iota.
    + destruct (Response.blob response) as [e|blob]; [repeat split|].
      split; [reflexivity|]. split; [reflexivity|].
      cbn [fst snd]. unfold File.construct, JS.opt_or_else, JS.or_else, JS.truthy.
      destruct (InitChatPayloadFile.fileName p =? EmptyString)%string;
        destruct (InitChatPayloadFile.mimeType p) as [m|];
        try destruct (m =? EmptyString)%string; reflexivity.
    + repeat split.
Qed.

(** A type made of characters from U+0020 to U+007E, none of them a
    capital letter, is kept as it is by the [File] constructor. *)
Lemma normalizeType_id (t : string) :
  Forall (fun ch => 32 <= nat_of_ascii ch <= 126
                    /\ ~ (65 <= nat_of_ascii ch <= 90))
         (list_ascii_of_string t) ->
  File.normalizeType t = t.
Proof.
  intro H. unfold File.normalizeType.
  assert (Hp : forallb File.printable (list_ascii_of_string t) = true).
  { apply forallb_forall. intros ch Hin.
    rewrite Forall_forall in H. destruct (H ch Hin) as [[H1 H2] _].
    unfold File.printable. apply andb_true_iff. split; apply Nat.leb_le; assumption. }
  rewrite Hp. clear Hp.
  induction t as [|ch r IH]; [reflexivity|].
  simpl in H. inversion H as [|? ? [_ Hc] Hr]; subst.
  change (JS.asciiLowerCase (String ch r))
    with (String (JS.lower_ascii ch) (JS.asciiLowerCase r)).
  rewrite (IH Hr). f_equal.
  unfold JS.lower_ascii. cbv zeta.
  destruct (Nat.leb_spec 65 (nat_of_ascii ch)) as [H1|H1]; [|reflexivity].
  destruct (Nat.leb_spec (nat_of_ascii ch) 90) as [H2|H2]; [|reflexivity].
  exfalso. apply Hc. split; assumption.
Qed.

(** C9 (as amended).  For every non-empty byte sequence and every
    non-empty declared MIME type made of characters from U+0020 to U+007E
    none of which is a capital letter A to Z, a payload that carries the
    base64 encoding of the bytes in [base64Data], that MIME type and no
    [url] resolves to a file whose bytes are the original bytes and whose
    type is the declared type; the only effect is the call of [atob]. *)
Theorem C9_inline_base64_round_trip
    (W : World) (i : nat) (c : Component) (name mime : string) (url : option string)
    (bs : list byte) :
  bs <> [] ->
  mime <> EmptyString ->
  Forall (fun ch => 32 <= nat_of_ascii ch <= 126
                    /\ ~ (65 <= nat_of_ascii ch <= 90))
         (list_ascii_of_string mime) ->
  url = None \/ url = Some EmptyString ->
  getFileFromPayload W i
    {| InitChatPayloadFile.fileName := name;
       InitChatPayloadFile.mimeType := Some mime;
       InitChatPayloadFile.url := url;
       InitChatPayloadFile.base64Data := Some (Base64.encode bs) |} c
  = (Normal {| File.name := if (name =? EmptyString)%string then "unknown_file" else name;
               File.type := mime;
               File.bytes := bs |},
     c, [call_atob (Base64.encode bs)]).
Proof.
  intros Hbs Hmime Hchars Hurl.
  assert (Hm : JS.truthy mime = true).
  { unfold JS.truthy. destruct (String.eqb_spec mime EmptyString); [contradiction|reflexivity]. }
  assert (Hu : JS.truthy_opt url = false) by (destruct Hurl as [->| ->]; reflexivity).
  unfold getFileFromPayload.
  cbn [InitChatPayloadFile.url InitChatPayloadFile.base64Data
       InitChatPayloadFile.mimeType InitChatPayloadFile.fileName JS.truthy_opt the].
  rewrite Hu, (encode_nonempty bs Hbs), Hm.
  cbn [andb].
  destruct (decode_encode bs) as (byteCharacters & Ha & Hb).
  cbv [bind emit ret]. rewrite Ha, Hb.
  unfold File.construct. rewrite (normalizeType_id mime Hchars).
  unfold JS.or_else, JS.truthy.
  destruct (name =? EmptyString)%string; reflexivity.
Qed.

(** ** Instances *)

(** C1, an instance: the only file search of a session is rejected. *)
Lemma C1_witness :
  let c' := fst (step (onMessage searchFails (fromHost (sendMessage "hi"))) chattingSession) in
  let t := snd (step (onMessage searchFails (fromHost (sendMessage "hi"))) chattingSession) in
  chatHistory (live c') = [userMessageOf "hi"; apologyMessage]
  /\ status (live c') = AppStatus.Error
  /\ t = [call_fileSearch "fileSearchStores/demo" "hi";
          console_error "Failed to get response"
            (Some (JS.ErrorObject "503 Service Unavailable"));
          post (chatError "Failed to get response: 503 Service Unavailable");
          post (chatError "Failed to get response: 503 Service Unavailable")].
Proof.
  apply (C1_failed_query_appends_apology_and_sets_Error
           searchFails chattingSession "hi" "fileSearchStores/demo"
           (JS.ErrorObject "503 Service Unavailable")).
  - exists [onMessage allSucceed (fromHost (initWith [fileA] None))].
    unfold chattingSession. reflexivity.
  - vm_compute. reflexivity.
  - vm_compute. reflexivity.
  - reflexivity.
  - reflexivity.
Defined.

(** C1 as stated fails: the session is [Chatting], the file search is
    rejected, and the status afterwards is not [Chatting]. *)
Lemma C1_counterexample :
  status (live chattingSession) = AppStatus.Chatting
  /\ fileSearch searchFails "fileSearchStores/demo" "hi"
     = inl (JS.ErrorObject "503 Service Unavailable")
  /\ status (live (fst (step (onMessage searchFails (fromHost (sendMessage "hi")))
                          chattingSession)))
     <> AppStatus.Chatting.
Proof.
  split; [vm_compute; reflexivity|]. split; [reflexivity|].
  vm_compute. discriminate.
Qed.

(** C2, the failing run: the store is created, the only file has no
    source, so the initialization fails and deletes the store; the
    [resetChat] that follows deletes the same store again. *)
Lemma C2_witness :
  deleted (snd (step (onMessage allSucceed (fromHost (initWith [fileNoSource] None))) mount))
  = ["fileSearchStores/demo"]
  /\ deleted (snd (step (onMessage allSucceed (fromHost resetChat))
                     (fst (step (onMessage allSucceed
                                   (fromHost (initWith [fileNoSource] None))) mount))))
     = ["fileSearchStores/demo"].
Proof.
  apply (C2_reset_after_failed_init_deletes_again allSucceed allSucceed mount
           [fileNoSource] None "fileSearchStores/demo").
  - exists []. reflexivity.
  - discriminate.
  - reflexivity.
  - reflexivity.
  - reflexivity.
  - vm_compute. reflexivity.
Defined.

(** C3, instances: a store name in [Chatting]; none after a reset. *)
Lemma C3_witness :
  activeRagStoreName (live chattingSession) <> None
  /\ activeRagStoreName
       (live (fst (run [onMessage allSucceed (fromHost (initWith [fileA] None));
                        onMessage allSucceed (fromHost resetChat)] mount)))
     = None.
Proof.
  split.
  - apply (proj1 (C3_store_name_invariant
                    [onMessage allSucceed (fromHost (initWith [fileA] None))])).
    vm_compute. reflexivity.
  - apply (proj1 (proj2 (proj2 (C3_store_name_invariant
                    [onMessage allSucceed (fromHost (initWith [fileA] None));
                     onMessage allSucceed (fromHost resetChat)]))));
      vm_compute; reflexivity.
Defined.

(** C3 as stated fails: an initialization fails after the store was
    created, the error is acknowledged, and the session is [Initializing]
    with a store name. *)
Lemma C3_counterexample :
  let c := fst (run [onMessage allSucceed (fromHost (initWith [fileNoSource] None));
                     onTryAgain] mount) in
  status (live c) = AppStatus.Initializing
  /\ activeRagStoreName (live c) = Some "fileSearchStores/demo"
  /\ activeRagStoreName (live c) <> None.
Proof.
  split; [vm_compute; reflexivity|]. split; [vm_compute; reflexivity|].
  vm_compute. discriminate.
Qed.

(** C4, an instance: a reset whose deletion succeeds. *)
Lemma C4_witness :
  let c' := fst (step (onMessage allSucceed (fromHost resetChat)) chattingSession) in
  let t := snd (step (onMessage allSucceed (fromHost resetChat)) chattingSession) in
  status (live c') = AppStatus.Initializing
  /\ chatHistory (live c') = []
  /\ exampleQuestions (live c') = []
  /\ documentName (live c') = EmptyString
  /\ activeRagStoreName (live c') = None
  /\ exists m, posted t = [chatEnded m].
Proof.
  apply (proj1 (C4_reset_outcome allSucceed chattingSession)).
  right. split; vm_compute; reflexivity.
Defined.

(** C4 as stated fails: the deletion is rejected, and the reset ends in
    status [Error] with the store name kept and [chatError] posted. *)
Lemma C4_counterexample :
  let c' := fst (step (onMessage deleteFails (fromHost resetChat)) chattingSession) in
  let t := snd (step (onMessage deleteFails (fromHost resetChat)) chattingSession) in
  deleteRagStore deleteFails "fileSearchStores/demo" = Some (JS.ErrorObject "404 Not Found")
  /\ status (live c') <> AppStatus.Initializing
  /\ activeRagStoreName (live c') <> None
  /\ posted t = [chatError "Failed to delete RAG store during reset.: 404 Not Found"].
Proof.
  split; [reflexivity|]. split; [vm_compute; discriminate|].
  split; [vm_compute; discriminate|]. vm_compute. reflexivity.
Qed.

(** C5, an instance: the first command of a session has no files. *)
Lemma C5_witness :
  let c' := fst (step (onMessage allSucceed (fromHost (initWith [] None))) mount) in
  let t := snd (step (onMessage allSucceed (fromHost (initWith [] None))) mount) in
  t = [console_error "No files provided for chat initialization." None;
       post (chatError "No files provided for chat initialization.")]
  /\ status (live c') = AppStatus.Error
  /\ error (live c') = Some "No files provided for chat initialization."
  /\ activeRagStoreName (live c') = activeRagStoreName (live mount)
  /\ chatHistory (live c') = chatHistory (live mount)
  /\ exampleQuestions (live c') = exampleQuestions (live mount)
  /\ documentName (live c') = documentName (live mount).
Proof.
  apply (C5_empty_initChat_posts_chatError_and_sets_Error allSucceed mount).
  - exists []. reflexivity.
  - reflexivity.
Defined.

(** C5 as stated fails: the status was [Initializing] and does not remain
    so. *)
Lemma C5_counterexample :
  status (live mount) = AppStatus.Initializing
  /\ status (live (fst (step (onMessage allSucceed (fromHost (initWith [] None))) mount)))
     <> AppStatus.Initializing.
Proof.
  split; [reflexivity|]. vm_compute. discriminate.
Qed.

(** C6, instances: two files without a display name; a display name; an
    empty display name and one file; three files, one of them unnamed;
    and twelve files. *)
Lemma C6_witness :
  documentName (live (snd (fst (handleInitChat allSucceed [fileA; fileB] None mount))))
  = "A.pdf & B.pdf"
  /\ documentName
       (live (snd (fst (handleInitChat allSucceed [fileA; fileB] (Some "Contracts") mount))))
     = "Contracts"
  /\ documentName
       (live (snd (fst (handleInitChat allSucceed [fileA] (Some EmptyString) mount))))
     = "A.pdf"
  /\ (documentName
        (live (snd (fst (handleInitChat allSucceed [fileA; fileB; fileUnnamed] None mount))))
      = "3 documents"
      /\ map File.name
           (uploaded (snd (handleInitChat allSucceed [fileA; fileB; fileUnnamed] None mount)))
         = ["A.pdf"; "B.pdf"; "unknown_file"])
  /\ documentName
       (live (snd (fst (handleInitChat allSucceed (repeat fileA 12) None mount))))
     = "12 documents".
Proof.
  split; [|split; [|split; [|split]]].
  - assert (Hst : status (live (snd (fst (handleInitChat allSucceed [fileA; fileB] None
                                            mount))))
                  = AppStatus.Chatting) by (vm_compute; reflexivity).
    assert (Hfs : uploaded (snd (handleInitChat allSucceed [fileA; fileB] None mount))
                  = [ {| File.name := "A.pdf"; File.type := "application/pdf";
                         File.bytes := ["a"%byte; "b"%byte; "c"%byte] |};
                      {| File.name := "B.pdf"; File.type := "application/pdf";
                         File.bytes := ["a"%byte; "b"%byte; "c"%byte] |} ])
      by (vm_compute; reflexivity).
    pose proof (C6_documentName_after_successful_initChat
                  allSucceed [fileA; fileB] None mount Hst) as H.
    destruct H as (_ & _ & _ & _ & H).
    destruct (H (or_introl eq_refl)) as (_ & H2 & _).
    rewrite (H2 _ _ Hfs). reflexivity.
  - assert (Hst : status (live (snd (fst (handleInitChat allSucceed [fileA; fileB]
                                            (Some "Contracts") mount))))
                  = AppStatus.Chatting) by (vm_compute; reflexivity).
    pose proof (C6_documentName_after_successful_initChat
                  allSucceed [fileA; fileB] (Some "Contracts") mount Hst) as H.
    destruct H as (_ & _ & _ & H & _).
    apply (H "Contracts" eq_refl). discriminate.
  - assert (Hst : status (live (snd (fst (handleInitChat allSucceed [fileA]
                                            (Some EmptyString) mount))))
                  = AppStatus.Chatting) by (vm_compute; reflexivity).
    assert (Hfs : uploaded (snd (handleInitChat allSucceed [fileA] (Some EmptyString) mount))
                  = [ {| File.name := "A.pdf"; File.type := "application/pdf";
                         File.bytes := ["a"%byte; "b"%byte; "c"%byte] |} ])
      by (vm_compute; reflexivity).
    pose proof (C6_documentName_after_successful_initChat
                  allSucceed [fileA] (Some EmptyString) mount Hst) as H.
    destruct H as (_ & _ & _ & _ & H).
    destruct (H (or_intror eq_refl)) as (H1 & _).
    rewrite (H1 _ Hfs). reflexivity.
  - assert (Hst : status (live (snd (fst (handleInitChat allSucceed
                                            [fileA; fileB; fileUnnamed] None mount))))
                  = AppStatus.Chatting) by (vm_compute; reflexivity).
    pose proof (C6_documentName_after_successful_initChat
                  allSucceed [fileA; fileB; fileUnnamed] None mount Hst) as H.
    destruct H as (Hlen & Hn & _ & _ & H).
    destruct (H (or_introl eq_refl)) as (_ & _ & H3).
    split.
    + rewrite H3.
      * rewrite Hlen. reflexivity.
      * rewrite Hlen. simpl. discriminate.
      * rewrite Hlen. simpl. discriminate.
    + rewrite Hn. reflexivity.
  - assert (Hst : status (live (snd (fst (handleInitChat allSucceed (repeat fileA 12) None
                                            mount))))
                  = AppStatus.Chatting) by (vm_compute; reflexivity).
    pose proof (C6_documentName_after_successful_initChat
                  allSucceed (repeat fileA 12) None mount Hst) as H.
    destruct H as (Hlen & _ & _ & _ & H).
    destruct (H (or_introl eq_refl)) as (_ & _ & H3).
    rewrite H3.
    + rewrite Hlen. reflexivity.
    + rewrite Hlen. simpl. discriminate.
    + rewrite Hlen. simpl. discriminate.
Defined.

(** C7, an instance: a file with a source, then one without. *)
Lemma C7_witness :
  length (uploaded (snd (handleInitChat allSucceed [fileA; fileNoSource] None mount))) <= 1
  /\ status (live (snd (fst (handleInitChat allSucceed [fileA; fileNoSource] None mount))))
     = AppStatus.Error.
Proof.
  exact (proj2 (C7_unsourced_payload_fails_before_upload allSucceed fileNoSource
                  eq_refl eq_refl) [fileA] [] None mount).
Defined.

(** C8, instances: a question before any initialization, a question while
    the files are being uploaded, and a question on the error screen. *)
Lemma C8_witness :
  (live (fst (step (onMessage allSucceed (fromHost (sendMessage "hi"))) mount)) = live mount
   /\ snd (step (onMessage allSucceed (fromHost (sendMessage "hi"))) mount)
      = [console_warn "Cannot send message: Chat is not active.";
         post (chatError "Chat is not active to send message.")])
  /\ (live (fst (step (onMessage allSucceed (fromHost (sendMessage "hi")))
                   uploadingComponent))
      = live uploadingComponent
      /\ snd (step (onMessage allSucceed (fromHost (sendMessage "hi"))) uploadingComponent)
         = [console_warn "Cannot send message: Chat is not active.";
            post (chatError "Chat is not active to send message.")])
  /\ (live (fst (step (onMessage allSucceed (fromHost (sendMessage "hi")))
                   sessionAfterFailedQuery))
      = live sessionAfterFailedQuery
      /\ snd (step (onMessage allSucceed (fromHost (sendMessage "hi")))
                sessionAfterFailedQuery)
         = [console_warn "Cannot send message: Chat is not active.";
            post (chatError "Chat is not active to send message.")]).
Proof.
  split; [|split].
  - apply (C8_sendMessage_outside_Chatting_rejected allSucceed mount "hi").
    + reflexivity.
    + simpl. discriminate.
  - apply (C8_sendMessage_outside_Chatting_rejected allSucceed uploadingComponent "hi").
    + reflexivity.
    + simpl. discriminate.
  - apply (C8_sendMessage_outside_Chatting_rejected allSucceed sessionAfterFailedQuery "hi").
    + vm_compute. reflexivity.
    + vm_compute. discriminate.
Defined.

(** C10, instances: both sources are populated and the fetch is used; the
    MIME type of the payload is the type of the file, in lower case. *)
Lemma C10_witness :
  snd (getFileFromPayload allSucceed 0 fileBothSources mount)
  = [call_fetch "https://host.example/D.pdf"]
  /\ snd (getFileFromPayload allSucceed 0 fileBothSourcesCapitals mount)
     = [call_fetch "https://host.example/D.pdf"]
  /\ fst (fst (getFileFromPayload allSucceed 0 fileBothSourcesCapitals mount))
     = Normal {| File.name := "D.pdf"; File.type := "application/pdf";
                 File.bytes := ["a"%byte; "b"%byte; "c"%byte] |}.
Proof.
  split; [|split].
  - refine (proj1 (C10_url_takes_precedence allSucceed 0 fileBothSources mount
                     "https://host.example/D.pdf" eq_refl _)).
    discriminate.
  - refine (proj1 (C10_url_takes_precedence allSucceed 0 fileBothSourcesCapitals mount
                     "https://host.example/D.pdf" eq_refl _)).
    discriminate.
  - assert (Hne : "https://host.example/D.pdf" <> EmptyString) by discriminate.
    destruct (C10_url_takes_precedence allSucceed 0 fileBothSourcesCapitals mount
                "https://host.example/D.pdf" eq_refl Hne) as (_ & _ & H).
    rewrite H. vm_compute. reflexivity.
Defined.

(** C9, an instance: three bytes of a PDF. *)
Lemma C9_witness :
  getFileFromPayload allSucceed 0
    (inlinePayload "B.pdf" "application/pdf" ["a"%byte; "b"%byte; "c"%byte]) mount
  = (Normal {| File.name := "B.pdf"; File.type := "application/pdf";
               File.bytes := ["a"%byte; "b"%byte; "c"%byte] |},
     mount, [call_atob "YWJj"]).
Proof.
  refine (C9_inline_base64_round_trip allSucceed 0 mount "B.pdf" "application/pdf" None
            ["a"%byte; "b"%byte; "c"%byte] _ _ _ _).
  - discriminate.
  - discriminate.
  - simpl. repeat (apply Forall_cons; [vm_compute; lia|]). apply Forall_nil.
  - left. reflexivity.
Defined.

(** C9 as stated fails.  The encoding of the empty byte sequence is the
    empty string, which the resolver takes for a missing [base64Data]; and
    the type of the file is the declared MIME type in lower case, or empty
    when the declared type has a character outside U+0020 to U+007E. *)
Lemma C9_counterexample :
  (Base64.encode [] = EmptyString
   /\ getFileFromPayload allSucceed 0 (inlinePayload "empty.txt" "text/plain" []) mount
      = (Throws (JS.ErrorObject
                   "Invalid file payload: must provide url or base64Data with mimeType."),
         mount, []))
  /\ getFileFromPayload allSucceed 0
       (inlinePayload "B.pdf" "Application/PDF" ["a"%byte; "b"%byte; "c"%byte]) mount
     = (Normal {| File.name := "B.pdf"; File.type := "application/pdf";
                  File.bytes := ["a"%byte; "b"%byte; "c"%byte] |},
        mount, [call_atob "YWJj"])
  /\ getFileFromPayload allSucceed 0
       (inlinePayload "B.pdf" (String (ascii_of_nat 233) "tat")
          ["a"%byte; "b"%byte; "c"%byte]) mount
     = (Normal {| File.name := "B.pdf"; File.type := EmptyString;
                  File.bytes := ["a"%byte; "b"%byte; "c"%byte] |},
        mount, [call_atob "YWJj"]).
Proof. split; [split; reflexivity|]. split; vm_compute; reflexivity. Qed.

(** * Further properties of the component *)

(** ** Dispatch *)

(** X1.  A message that does not come from the parent window, that has no
    data, or whose type is none of [initChat], [sendMessage] and
    [resetChat] changes nothing in the hook state, posts nothing to the
    host and calls no service, in whatever state it arrives. *)
Theorem dropped_message_changes_nothing (W : World) (c : Component) (event : MessageEvent) :
  fromParent event = false
  \/ data event = None
  \/ (exists type, data event = Some (otherType type)) ->
  live (fst (step (onMessage W event) c)) = live c
  /\ posted (snd (step (onMessage W event) c)) = []
  /\ filter isServiceCall (snd (step (onMessage W event) c)) = [].
Proof.
  intro H. unfold step, handle, handleMessage.
  destruct (fromParent event) eqn:Hp.
  - destruct H as [H|[H|[type H]]]; [discriminate H| |]; rewrite H; simpl.
    + repeat split.
    + destruct (JS.truthy type); simpl; repeat split.
  - simpl. repeat split.
Qed.

(** X2.  While an initialization is in flight (status [Uploading]), an
    [initChat] command is ignored: the hook state is unchanged, the only
    effect is a console warning, and in particular no second store is
    created. *)
Theorem initChat_while_Uploading_ignored
    (W : World) (c : Component) (payload : InitChatPayload.t) :
  status (live c) = AppStatus.Uploading ->
  status (listener c) = status (live c) ->
  live (fst (step (onMessage W (fromHost (initChat payload))) c)) = live c
  /\ snd (step (onMessage W (fromHost (initChat payload))) c)
     = [console_warn "Ignoring initChat: App is not in an initial or error state."].
Proof.
  intros Hst Hl. unfold step, handle, handleMessage. simpl.
  rewrite Hl, Hst. simpl. split; reflexivity.
Qed.

(** X3.  The one exception a handler lets escape is the [TypeError] of an
    [initChat] message whose payload has no [files] array.  For every other
    input, whatever the component state and whatever the services and the
    network do, the processing ends normally, and so does the unload
    handler.  An [initChat] message without [files] that is accepted (the
    status is [Initializing], [Error] or [Chatting]) fails on
    [filePayloads.length] before any effect and leaves the state as it
    was; in the other statuses it is ignored with the usual warning. *)
Theorem handlers_never_throw (W : World) (i : Input) (c : Component) :
  ((forall W0 event dn, i = onMessage W0 event ->
                        data event <> Some (initChatNoFiles dn)) ->
   fst (fst (handle i c)) = Normal tt)
  /\ (forall event dn,
        fromParent event = true ->
        data event = Some (initChatNoFiles dn) ->
        (status (listener c) = AppStatus.Initializing
         \/ status (listener c) = AppStatus.Error
         \/ status (listener c) = AppStatus.Chatting ->
         handle (onMessage W event) c = (Throws lengthOfUndefined, c, []))
        /\ (status (listener c) = AppStatus.Uploading
            \/ status (listener c) = AppStatus.Welcome ->
            handle (onMessage W event) c
            = (Normal tt, c,
               [console_warn
                  "Ignoring initChat: App is not in an initial or error state."])))
  /\ fst (fst (handleUnload W c)) = Normal tt.
Proof.
  split; [|split].
  - intro Hfiles.
    destruct i as [W0 event| |W0 message]; unfold handle.
    + unfold handleMessage.
      destruct (fromParent event); [|reflexivity].
      change (negb true) with false. cbv beta iota zeta.
      pose proof (Hfiles W0 event) as Hno.
      destruct (data event) as [[payload|dn|message| |type]|]; [| | | | |reflexivity].
      * destruct (negb (AppStatus.eqb (status (listener c)) AppStatus.Initializing)
                  && negb (AppStatus.eqb (status (listener c)) AppStatus.Error)
                  && negb (AppStatus.eqb (status (listener c)) AppStatus.Chatting));
          [reflexivity|].
        cbv beta iota zeta.
        destruct (handleInitChat_run W0 (InitChatPayload.files payload)
                    (InitChatPayload.chatDisplayName payload) c) as (c1 & t & Hrun & _).
        rewrite Hrun. reflexivity.
      * exfalso. exact (Hno dn eq_refl eq_refl).
      * destruct (AppStatus.eqb (status (listener c)) AppStatus.Chatting); [|reflexivity].
        cbv beta iota zeta.
        destruct (handleSendMessage_run W0 (activeRagStoreName (listener c)) message c)
          as (c1 & t & Hrun & _).
        rewrite Hrun. reflexivity.
      * cbv beta iota zeta.
        destruct (handleResetChat_run W0 (activeRagStoreName (listener c)) c)
          as (c1 & t & Hrun & _).
        rewrite Hrun. reflexivity.
      * destruct (JS.truthy type); reflexivity.
    + destruct (AppStatus.eqb (status (live c)) AppStatus.Error); reflexivity.
    + destruct (AppStatus.eqb (status (live c)) AppStatus.Chatting); [|reflexivity].
      cbv beta iota zeta.
      destruct (handleSendMessage_run W0 (activeRagStoreName (live c)) message c)
        as (c1 & t & Hrun & _).
      rewrite Hrun. reflexivity.
  - intros event dn Hfrom Hdata.
    unfold handle, handleMessage. rewrite Hfrom, Hdata.
    change (negb true) with false. cbv beta iota zeta.
    split.
    + intros [H|[H|H]]; rewrite H; reflexivity.
    + intros [H|H]; rewrite H; reflexivity.
  - unfold handleUnload.
    destruct (JS.truthy_opt (ragStoreNameRef c)); [|reflexivity].
    cbv [bind emit]. destruct (deleteRagStore W (the (ragStoreNameRef c))); reflexivity.
Qed.

(** ** Queries *)

(** X4.  A query command processed in status [Chatting] whose [fileSearch]
    call succeeds appends exactly two messages to [chatHistory], the user
    message and then the model message carrying the answer and its
    grounding chunks; it posts one [chatResponse] with the same answer and
    chunks, and the status and the store name are unchanged. *)
Theorem successful_query_appends_user_and_model_message
    (W : World) (c : Component) (message s : string) (result : QueryResult.t) :
  reachable c ->
  status (live c) = AppStatus.Chatting ->
  activeRagStoreName (live c) = Some s ->
  JS.truthy s = true ->
  fileSearch W s message = inr result ->
  let c' := fst (step (onMessage W (fromHost (sendMessage message))) c) in
  let t := snd (step (onMessage W (fromHost (sendMessage message))) c) in
  chatHistory (live c')
  = (chatHistory (live c)
       ++ [userMessageOf message;
           {| ChatMessage.role := model;
              ChatMessage.parts := [QueryResult.text result];
              ChatMessage.groundingChunks := Some (QueryResult.groundingChunks result) |}])%list
  /\ status (live c') = AppStatus.Chatting
  /\ activeRagStoreName (live c') = Some s
  /\ t = [call_fileSearch s message;
          post (chatResponse (QueryResult.text result) (QueryResult.groundingChunks result))].
Proof.
  intros Hreach Hst Hstore Htruthy Hok c' t.
  destruct (reachable_coherent c Hreach) as (Hl & _ & _ & Hchat).
  destruct (Hchat Hst) as [Hheld _].
  destruct (step_run (onMessage W (fromHost (sendMessage message))) c)
    as (r & c1 & t1 & Hh & Hstep).
  subst c' t. rewrite Hstep. simpl fst. simpl snd. simpl live.
  unfold handle, handleMessage in Hh. simpl in Hh.
  rewrite Hl, Hst in Hh. simpl in Hh.
  destruct (handleSendMessage_run W (activeRagStoreName (listener c)) message c)
    as (c2 & t2 & Hrun & _ & Hkeep & Hcases).
  rewrite Hrun in Hh. inversion Hh; subst r c1 t1. clear Hh.
  rewrite Hheld, Hstore in Hcases. simpl in Hcases. rewrite Htruthy, Hok in Hcases.
  destruct Hcases as (Ht & Hs & Hhist).
  split; [exact Hhist|]. split; [congruence|]. split; [congruence|exact Ht].
Qed.

(** ** Unload *)

Lemma step_ref (i : Input) (c : Component) :
  ragStoreNameRef (fst (step i c)) = activeRagStoreName (live (fst (step i c))).
Proof.
  destruct (step_run i c) as (r & c1 & t & _ & Hstep). rewrite Hstep. reflexivity.
Qed.

Lemma run_ref (inputs : list Input) :
  forall c,
    ragStoreNameRef c = activeRagStoreName (live c) ->
    ragStoreNameRef (fst (run inputs c)) = activeRagStoreName (live (fst (run inputs c))).
Proof.
  induction inputs as [|i rest IH]; intros c Hc; [exact Hc|].
  simpl. pose proof (step_ref i c) as H1.
  destruct (step i c) as [c1 t1]. simpl in H1.
  specialize (IH c1 H1). destruct (run rest c1) as [c2 t2]. exact IH.
Qed.

(** X5.  Between two inputs the ref read by the unload handler holds the
    active store name, so an unload deletes exactly the active store: one
    [deleteRagStore] call on it when it is non-empty and none otherwise.
    The handler changes no state and posts nothing to the host, also when
    the deletion is rejected. *)
Theorem unload_deletes_exactly_the_active_store (W : World) (c : Component) :
  reachable c ->
  ragStoreNameRef c = activeRagStoreName (live c)
  /\ snd (fst (handleUnload W c)) = c
  /\ posted (snd (handleUnload W c)) = []
  /\ deleted (snd (handleUnload W c))
     = (if JS.truthy_opt (activeRagStoreName (live c))
        then [the (activeRagStoreName (live c))] else []).
Proof.
  intros [inputs <-].
  assert (Href : ragStoreNameRef (fst (run inputs mount))
                 = activeRagStoreName (live (fst (run inputs mount))))
    by (apply run_ref; reflexivity).
  split; [exact Href|].
  unfold handleUnload. rewrite Href.
  destruct (JS.truthy_opt (activeRagStoreName (live (fst (run inputs mount))))).
  - cbv [bind emit ret].
    destruct (deleteRagStore W (the (activeRagStoreName (live (fst (run inputs mount))))));
      repeat split.
  - repeat split.
Qed.

(** ** Early failures of an initialization *)

(** X6.  When [geminiService.initialize] throws, or when the creation of
    the store is rejected, the initialization stops there: no further
    service call is made (in particular no upload and no deletion), the
    store name in the hook state is unchanged, the status is [Error], and
    one [chatError] is posted.  For a rejected creation the message is the
    API-key message exactly when the error text, put in lower case by
    [String.prototype.toLowerCase], contains "api key not valid" or
    "requested entity was not found", and "Failed to start chat session"
    otherwise. *)
Theorem early_init_failure_stops_the_initialization
    (W : World) (files : list InitChatPayloadFile.t) (dn : option string) (c : Component)
    (err : JS.Thrown) :
  files <> [] ->
  (initialize W = Some err ->
   snd (handleInitChat W files dn c)
   = [call_initialize;
      console_error "Initialization failed." (Some err);
      post (chatError (errorMessageOf "Initialization failed." (Some err)))]
   /\ status (live (snd (fst (handleInitChat W files dn c)))) = AppStatus.Error
   /\ activeRagStoreName (live (snd (fst (handleInitChat W files dn c))))
      = activeRagStoreName (live c))
  /\ (initialize W = None ->
      createRagStore W (sessionStoreName W) = inl err ->
      snd (handleInitChat W files dn c)
      = [call_initialize;
         call_createRagStore (sessionStoreName W);
         console_error (initFailureMessage W err) (Some err);
         post (chatError (errorMessageOf (initFailureMessage W err) (Some err)))]
      /\ status (live (snd (fst (handleInitChat W files dn c)))) = AppStatus.Error
      /\ error (live (snd (fst (handleInitChat W files dn c))))
         = Some (errorMessageOf (initFailureMessage W err) (Some err))
      /\ uploadProgress (live (snd (fst (handleInitChat W files dn c)))) = None
      /\ activeRagStoreName (live (snd (fst (handleInitChat W files dn c))))
         = activeRagStoreName (live c)).
Proof.
  intro Hfiles.
  destruct files as [|p files']; [contradiction|].
  unfold handleInitChat.
  change (length (p :: files') =? 0)%nat with false. cbv iota.
  split.
  - intro Hinit. cbv [bind emit]. rewrite Hinit.
    unfold errorMessageOf. js_eval. repeat split.
  - intros Hinit Hcreate. cbv [bind emit]. rewrite Hinit.
    cbv [setStatus setError setUploadProgress modify].
    unfold try_finally, try_assign_catch, sessionStoreName in *.
    cbv [bind emit await render ret throw].
    rewrite Hcreate.
    unfold initChatCatch, initFailureMessage, errorMessageOf. cbv zeta.
    destruct (JS.includes (toLowerCase W (JS.describe err)) "api key not valid"
              || JS.includes (toLowerCase W (JS.describe err))
                   "requested entity was not found");
      js_eval; repeat split.
Qed.

(** ** The rendered view *)

(** X7.  The progress bar is rendered in status [Uploading] only, and it
    is never given a total of zero nor an empty message: a total that is
    missing or zero is replaced by 1, and a message that is missing or
    empty by "Preparing your chat..."; a total and a message that are
    there are passed on as they are.  Without any progress object the bar
    shows step 0 of 1 with the default message and no file name. *)
Theorem progress_bar_total_and_message_never_empty
    (s : AppState) (progress total : nat) (message : string)
    (fileName icon : option string) :
  renderContent s = ProgressBarView progress total message fileName icon ->
  status s = AppStatus.Uploading
  /\ total <> 0
  /\ message <> EmptyString
  /\ (uploadProgress s = None ->
      progress = 0 /\ total = 1 /\ message = "Preparing your chat..."
      /\ fileName = None /\ icon = None)
  /\ (forall u, uploadProgress s = Some u ->
        progress = UploadProgress.current u
        /\ fileName = UploadProgress.fileName u
        /\ (forall n, UploadProgress.total u = Some n -> n <> 0 -> total = n)
        /\ (UploadProgress.total u = None \/ UploadProgress.total u = Some 0 ->
            total = 1)
        /\ (forall m, UploadProgress.message u = Some m -> m <> EmptyString ->
                      message = m)
        /\ (UploadProgress.message u = None
            \/ UploadProgress.message u = Some EmptyString ->
            message = "Preparing your chat...")).
Proof.
  unfold renderContent.
  destruct (status s); try discriminate.
  intro H. injection H as Hp Ht Hm Hf Hi. subst progress total message fileName.
  split; [reflexivity|].
  destruct (uploadProgress s) as [u|].
  - assert (Htot : (match UploadProgress.total u with
                    | Some n => if (n =? 0)%nat then 1 else n
                    | None => 1
                    end) <> 0).
    { destruct (UploadProgress.total u) as [n|]; [|discriminate].
      destruct (n =? 0)%nat eqn:E; [discriminate|].
      apply Nat.eqb_neq in E. exact E. }
    assert (Hmsg : JS.opt_or_else (UploadProgress.message u) "Preparing your chat..."
                   <> EmptyString).
    { destruct (UploadProgress.message u) as [m|]; [|discriminate].
      unfold JS.opt_or_else, JS.or_else, JS.truthy.
      destruct (String.eqb_spec m EmptyString); simpl; [discriminate|assumption]. }
    split; [exact Htot|]. split; [exact Hmsg|].
    split; [discriminate|].
    intros u' Hu. injection Hu as <-.
    split; [reflexivity|]. split; [reflexivity|].
    split.
    { intros n -> Hn. apply Nat.eqb_neq in Hn. rewrite Hn. reflexivity. }
    split.
    { intros [-> | ->]; reflexivity. }
    split.
    { intros m -> Hne. unfold JS.opt_or_else, JS.or_else, JS.truthy.
      destruct (String.eqb_spec m EmptyString); [contradiction|reflexivity]. }
    intros [-> | ->]; reflexivity.
  - split; [discriminate|]. split; [discriminate|].
    split.
    + intros _. subst icon. repeat split.
    + intros u Hu. discriminate Hu.
Qed.

(** ** What the handlers leave alone *)

Lemma uploadTargets_app (t1 t2 : list Effect) :
  uploadTargets (t1 ++ t2)%list = (uploadTargets t1 ++ uploadTargets t2)%list.
Proof.
  induction t1 as [|e t1 IH]; simpl; [reflexivity|].
  destruct e; simpl; rewrite IH; reflexivity.
Qed.

Lemma getFileFromPayload_targets (W : World) (i : nat) (p : InitChatPayloadFile.t)
    (c : Component) :
  uploadTargets (snd (getFileFromPayload W i p c)) = [].
Proof.
  unfold getFileFromPayload.
  destruct (JS.truthy_opt (InitChatPayloadFile.url p)).
  - cbv [bind emit await render ret throw].
    destruct (fetch W i (the (InitChatPayloadFile.url p))) as [e|response]; [reflexivity|].
    destruct (Response.ok response); simpl negb; cbv iota; [|reflexivity].
    destruct (Response.blob response); reflexivity.
  - destruct (JS.truthy_opt (InitChatPayloadFile.base64Data p)
              && JS.truthy_opt (InitChatPayloadFile.mimeType p)); [|reflexivity].
    cbv [bind emit ret throw].
    destruct (Base64.atob (the (InitChatPayloadFile.base64Data p))); reflexivity.
Qed.

(** Every upload of the loop goes to the store the loop was given. *)
Lemma uploadLoop_targets (W : World) (ragStoreName : string) (total : nat) :
  forall (rest : list InitChatPayloadFile.t) (i : nat) (acc : list File.t) (c : Component),
    Forall (eq ragStoreName)
      (uploadTargets (snd (uploadLoop W ragStoreName total i rest acc c))).
Proof.
  induction rest as [|p rest IH]; intros i acc c.
  - simpl. apply Forall_nil.
  - simpl uploadLoop. cbv [bind setUploadProgress modify].
    match goal with
    | |- context [getFileFromPayload W i p ?k] =>
        pose proof (getFileFromPayload_targets W i p k) as Hg;
        destruct (getFileFromPayload W i p k) as [[r1 c2] t1]
    end.
    simpl in Hg.
    destruct r1 as [file|e].
    + cbv [emit await_void bind render ret throw].
      destruct (uploadToRagStore W i ragStoreName file) as [e|].
      * simpl. rewrite !uploadTargets_app, Hg. simpl.
        apply Forall_cons; [reflexivity|apply Forall_nil].
      * match goal with
        | |- context [uploadLoop W ragStoreName total (S i) rest ?a ?k] =>
            pose proof (IH (S i) a k) as Hrec;
            destruct (uploadLoop W ragStoreName total (S i) rest a k) as [[r4 c4] t4]
        end.
        simpl in Hrec. simpl. rewrite !uploadTargets_app, Hg. simpl.
        apply Forall_cons; [reflexivity|exact Hrec].
    + simpl. rewrite ?app_nil_r, Hg. apply Forall_nil.
Qed.

(** What the resolver returns depends on the payload, on its index and on
    the environment, not on the component. *)
Lemma getFileFromPayload_result (W : World) (i : nat) (p : InitChatPayloadFile.t)
    (c c0 : Component) :
  fst (fst (getFileFromPayload W i p c0)) = fst (fst (getFileFromPayload W i p c)).
Proof.
  unfold getFileFromPayload.
  destruct (JS.truthy_opt (InitChatPayloadFile.url p)).
  - cbv [bind emit await render ret throw].
    destruct (fetch W i (the (InitChatPayloadFile.url p))) as [e|response]; [reflexivity|].
    destruct (Response.ok response); simpl negb; cbv iota; [|reflexivity].
    destruct (Response.blob response); reflexivity.
  - destruct (JS.truthy_opt (InitChatPayloadFile.base64Data p)
              && JS.truthy_opt (InitChatPayloadFile.mimeType p)); [|reflexivity].
    cbv [bind emit ret throw].
    destruct (Base64.atob (the (InitChatPayloadFile.base64Data p))); reflexivity.
Qed.

(** The [k]-th upload of the loop carries the file the resolver returns
    for the [k]-th payload. *)
Lemma uploadLoop_files (W : World) (ragStoreName : string) (total : nat) :
  forall (rest : list InitChatPayloadFile.t) (i : nat) (acc : list File.t) (c : Component)
         (k : nat) (file : File.t),
    nth_error (uploaded (snd (uploadLoop W ragStoreName total i rest acc c))) k = Some file ->
    exists p, nth_error rest k = Some p
              /\ forall c0, fst (fst (getFileFromPayload W (i + k) p c0)) = Normal file.
Proof.
  induction rest as [|p rest IH]; intros i acc c k file.
  - simpl. destruct k; discriminate.
  - simpl uploadLoop. cbv [bind setUploadProgress modify].
    match goal with
    | |- context [getFileFromPayload W i p ?k0] =>
        pose proof (fun c0 => getFileFromPayload_result W i p k0 c0) as Hres;
        destruct (getFileFromPayload_run W i p k0)
          as (r1 & c2 & t1 & Hg & _ & _ & Hup1 & _);
        rewrite Hg in Hres; rewrite Hg
    end.
    simpl in Hres.
    destruct r1 as [f|e].
    + cbv [emit await_void bind render ret throw].
      destruct (uploadToRagStore W i ragStoreName f) as [e|].
      * simpl. rewrite !uploaded_app, Hup1. simpl.
        destruct k as [|k]; simpl; [|destruct k; discriminate].
        intro H. injection H as <-.
        exists p. split; [reflexivity|]. rewrite Nat.add_0_r. exact Hres.
      * match goal with
        | |- context [uploadLoop W ragStoreName total (S i) rest ?a ?k1] =>
            pose proof (IH (S i) a k1) as Hrec;
            destruct (uploadLoop W ragStoreName total (S i) rest a k1) as [[r4 c4] t4]
        end.
        simpl in Hrec. simpl. rewrite !uploaded_app, Hup1. simpl.
        destruct k as [|k]; simpl.
        -- intro H. injection H as <-.
           exists p. split; [reflexivity|]. rewrite Nat.add_0_r. exact Hres.
        -- intro H. destruct (Hrec k file H) as (q & Hq & Hf).
           exists q. split; [exact Hq|].
           rewrite Nat.add_succ_r. exact Hf.
    + simpl. rewrite ?app_nil_r, Hup1. destruct k; discriminate.
Qed.

(** The [catch] clause of [handleInitChat]: the diagnostic it stores is
    the one it posts, and it touches nothing but [error] and [status]. *)
Lemma initChatCatch_frame (W : World) (ragStoreName : option string) (err : JS.Thrown)
    (c : Component) :
  let c' := snd (fst (initChatCatch W ragStoreName err c)) in
  let t := snd (initChatCatch W ragStoreName err c) in
  error (live c') = Some (errorMessageOf (initFailureMessage W err) (Some err))
  /\ posted t = [chatError (errorMessageOf (initFailureMessage W err) (Some err))]
  /\ isQueryLoading (live c') = isQueryLoading (live c)
  /\ uploadProgress (live c') = uploadProgress (live c)
  /\ chatHistory (live c') = chatHistory (live c)
  /\ exampleQuestions (live c') = exampleQuestions (live c)
  /\ documentName (live c') = documentName (live c)
  /\ uploadTargets t = [].
Proof.
  unfold initChatCatch, initFailureMessage, errorMessageOf. cbv zeta.
  destruct (JS.includes (toLowerCase W (JS.describe err)) "api key not valid"
            || JS.includes (toLowerCase W (JS.describe err))
                 "requested entity was not found");
    destruct (JS.truthy_opt ragStoreName);
    try destruct (deleteRagStore W (the ragStoreName));
    js_eval; repeat split.
Qed.

(** The [try] block of [handleInitChat] after the store exists. *)
Lemma initChatTry_frame (W : World) (files : list InitChatPayloadFile.t)
    (dn : option string) (totalSteps : nat) (name : string) (c : Component) :
  let r := fst (fst (initChatTry W files dn totalSteps name c)) in
  let c' := snd (fst (initChatTry W files dn totalSteps name c)) in
  let t := snd (initChatTry W files dn totalSteps name c) in
  error (live c') = error (live c)
  /\ isQueryLoading (live c') = isQueryLoading (live c)
  /\ Forall (eq name) (uploadTargets t)
  /\ match r with
     | Normal _ =>
         exists questions,
           generateExampleQuestions W name = inr questions
           /\ exampleQuestions (live c') = questions
     | Throws _ =>
         posted t = []
         /\ chatHistory (live c') = chatHistory (live c)
         /\ exampleQuestions (live c') = exampleQuestions (live c)
         /\ documentName (live c') = documentName (live c)
     end.
Proof.
  unfold initChatTry.
  cbv [bind setActiveRagStoreName setUploadProgress modify].
  match goal with
  | |- context [uploadLoop W name (length files) 0 files [] ?c1] =>
      set (k := c1);
      destruct (uploadLoop_run W name (length files) files 0 [] k)
        as (rl & cl & tl & Hloop & Hs & _ & _ & Hpost & _ & _);
      pose proof (uploadLoop_targets W name (length files) files 0 [] k) as Htg
  end.
  rewrite Hloop in Htg |- *. simpl in Htg.
  destruct Hs as (_ & Herr & _ & Hhist & Hload & Hq & Hdoc).
  destruct rl as [fs|e].
  - js_eval.
    destruct (generateExampleQuestions W name) as [e|questions].
    + js_eval. simpl. rewrite !uploadTargets_app, !posted_app, Hpost. simpl.
      rewrite app_nil_r.
      split; [exact Herr|]. split; [exact Hload|]. split; [exact Htg|].
      split; [reflexivity|]. split; [exact Hhist|]. split; [exact Hq|exact Hdoc].
    + js_eval. simpl. rewrite !uploadTargets_app. simpl. rewrite app_nil_r.
      split; [exact Herr|]. split; [exact Hload|]. split; [exact Htg|].
      exists questions. split; reflexivity.
  - simpl.
    split; [exact Herr|]. split; [exact Hload|]. split; [exact Htg|].
    split; [exact Hpost|]. split; [exact Hhist|]. split; [exact Hq|exact Hdoc].
Qed.

(** A whole [handleInitChat], for the fields and the calls that
    [handleInitChat_run] does not speak of. *)
Lemma handleInitChat_frame (W : World) (files : list InitChatPayloadFile.t)
    (dn : option string) (c : Component) :
  exists c' t,
    handleInitChat W files dn c = (Normal tt, c', t)
    /\ isQueryLoading (live c') = isQueryLoading (live c)
    /\ (uploadProgress (live c') = None
        \/ uploadProgress (live c') = uploadProgress (live c))
    /\ (status (live c') = AppStatus.Error ->
        (exists m, error (live c') = Some m /\ posted t = [chatError m])
        /\ chatHistory (live c') = chatHistory (live c)
        /\ exampleQuestions (live c') = exampleQuestions (live c)
        /\ documentName (live c') = documentName (live c))
    /\ (status (live c') = AppStatus.Chatting ->
        error (live c') = None
        /\ exists name questions,
             createRagStore W (sessionStoreName W) = inr name
             /\ generateExampleQuestions W name = inr questions
             /\ activeRagStoreName (live c') = Some name
             /\ exampleQuestions (live c') = questions)
    /\ (deleted t = []
        \/ exists name,
             createRagStore W (sessionStoreName W) = inr name /\ deleted t = [name])
    /\ (forall target, In target (uploadTargets t) ->
        createRagStore W (sessionStoreName W) = inr target).
Proof.
  unfold handleInitChat, sessionStoreName.
  destruct (length files =? 0)%nat.
  { js_eval. do 2 eexists. split; [reflexivity|]. simpl.
    split; [reflexivity|]. split; [right; reflexivity|].
    split. { intros _. split; [eexists; split; reflexivity|]. repeat split. }
    split; [discriminate|]. split; [left; reflexivity|]. intros target []. }
  cbv [bind emit].
  destruct (initialize W) as [err|].
  { js_eval. do 2 eexists. split; [reflexivity|]. simpl.
    split; [reflexivity|]. split; [right; reflexivity|].
    split. { intros _. split; [eexists; split; reflexivity|]. repeat split. }
    split; [discriminate|]. split; [left; reflexivity|]. intros target []. }
  cbv [setStatus setError setUploadProgress modify].
  unfold try_finally, try_assign_catch.
  cbv [bind emit await render ret throw].
  destruct (createRagStore W ("chat-session-" ++ JS.string_of_N (Date_now W)))
    as [e|name] eqn:Hcreate.
  - (* the store is not created *)
    match goal with
    | |- context [initChatCatch W None e ?k] =>
        pose proof (initChatCatch_frame W None e k) as Hf;
        destruct (initChatCatch_run W None e k)
          as (c3 & t3 & Hc & Hst & _ & _ & _ & Hdel & _);
        rewrite Hc in Hf |- *
    end.
    simpl in Hf. destruct Hf as (Herr & Hpost & Hload & _ & Hhist & Hq & Hdoc & Htg).
    js_eval.
    do 2 eexists. split; [reflexivity|]. simpl. rewrite ?app_nil_r.
    split; [exact Hload|]. split; [left; reflexivity|].
    split. { intros _. split; [eexists; split; [exact Herr|exact Hpost]|].
             split; [exact Hhist|]. split; [exact Hq|exact Hdoc]. }
    split; [rewrite Hst; discriminate|].
    split; [left; exact Hdel|].
    rewrite Htg. intros target [].
  - (* the store exists *)
    unfold try_catch.
    match goal with
    | |- context [initChatTry W files dn ?n name ?k] =>
        set (c2 := k);
        assert (Hcoh : status (listener c2) = status (live c2))
          by (subst c2; cbn; destruct (status (listener c)) eqn:E; cbn;
              try reflexivity; exact E);
        pose proof (initChatTry_frame W files dn n name c2) as Hf;
        destruct (initChatTry_run W files dn n name c2 Hcoh)
          as (r & c3 & t3 & c1 & rl & cl & tl & Htry & _ & _ & Hdel & Hstore & _ & Hres);
        rewrite Htry in Hf |- *
    end.
    simpl in Hf. destruct Hf as (Herr & Hload & Htg & Hf).
    destruct r as [[]|e].
    + destruct Hres as (_ & Hst & _). destruct Hf as (questions & Hgen & Hq).
      js_eval.
      do 2 eexists. split; [reflexivity|]. simpl. rewrite ?app_nil_r.
      split; [exact Hload|]. split; [left; reflexivity|].
      split; [rewrite Hst; discriminate|].
      split. { intros _. split; [exact Herr|]. exists name, questions. auto. }
      split; [left; exact Hdel|].
      intros target Hin. rewrite Forall_forall in Htg.
      rewrite <- (Htg target Hin). reflexivity.
    + destruct Hf as (Hpost & Hhist & Hq & Hdoc).
      pose proof (initChatCatch_frame W (Some name) e c3) as Hf4.
      destruct (initChatCatch_run W (Some name) e c3)
        as (c4 & t4 & Hc & Hst & _ & _ & _ & Hdel4 & _).
      rewrite Hc in Hf4 |- *. simpl in Hf4.
      destruct Hf4 as (Herr4 & Hpost4 & Hload4 & _ & Hhist4 & Hq4 & Hdoc4 & Htg4).
      js_eval.
      do 2 eexists. split; [reflexivity|]. simpl. rewrite ?app_nil_r.
      split; [rewrite Hload4; exact Hload|]. split; [left; reflexivity|].
      split. { intros _. split.
               - eexists. split; [exact Herr4|].
                 rewrite posted_app, Hpost, Hpost4. reflexivity.
               - split; [rewrite Hhist4; exact Hhist|].
                 split; [rewrite Hq4; exact Hq|rewrite Hdoc4; exact Hdoc]. }
      split; [rewrite Hst; discriminate|].
      split. { rewrite deleted_app, Hdel, Hdel4. simpl.
               destruct (JS.truthy name); [right; exists name; auto|left; reflexivity]. }
      rewrite uploadTargets_app, Htg4, app_nil_r.
      intros target Hin. rewrite Forall_forall in Htg.
      rewrite <- (Htg target Hin). reflexivity.
Qed.

(** What a query leaves alone, and what it does to the diagnostic and
    the loading flag. *)
Lemma handleSendMessage_frame (W : World) (held : option string) (message : string)
    (c : Component) :
  let c' := snd (fst (handleSendMessage W held message c)) in
  uploadProgress (live c') = uploadProgress (live c)
  /\ exampleQuestions (live c') = exampleQuestions (live c)
  /\ documentName (live c') = documentName (live c)
  /\ (isQueryLoading (live c') = false \/ live c' = live c)
  /\ ((status (live c') = AppStatus.Error
       /\ error (live c')
          = Some (errorMessageOf "Failed to get response"
                    (match fileSearch W (the held) message with
                     | inl err => Some err
                     | inr _ => None
                     end)))
      \/ (status (live c') = status (live c) /\ error (live c') = error (live c))).
Proof.
  unfold handleSendMessage, errorMessageOf.
  destruct (JS.truthy_opt held); simpl negb; cbv iota.
  - js_eval. destruct (fileSearch W (the held) message) as [err|result]; js_eval.
    + repeat split; [left; reflexivity|left; split; reflexivity].
    + repeat split; [left; reflexivity|right; split; reflexivity].
  - js_eval. repeat split; [right; reflexivity|right; split; reflexivity].
Qed.

(** What a reset leaves alone, and what it does to the diagnostic and
    the loading flag. *)
Lemma handleResetChat_frame (W : World) (held : option string) (c : Component) :
  let c' := snd (fst (handleResetChat W held c)) in
  uploadProgress (live c') = uploadProgress (live c)
  /\ (isQueryLoading (live c') = false
      \/ isQueryLoading (live c') = isQueryLoading (live c))
  /\ ((status (live c') = AppStatus.Error /\ exists m, error (live c') = Some m)
      \/ status (live c') = AppStatus.Initializing).
Proof.
  unfold handleResetChat.
  destruct (JS.truthy_opt held).
  - js_eval. destruct (deleteRagStore W (the held)) as [err|]; js_eval.
    + repeat split; [left; reflexivity|]. left. split; [reflexivity|eexists; reflexivity].
    + repeat split; [left; reflexivity|right; reflexivity].
  - js_eval. repeat split; [right; reflexivity|right; reflexivity].
Qed.

(** ** Invariants of the session *)

(** What any input does to the loading flag, the progress and the
    diagnostic. *)
Lemma handle_frame (i : Input) (c : Component) :
  let c1 := snd (fst (handle i c)) in
  (isQueryLoading (live c1) = false
   \/ isQueryLoading (live c1) = isQueryLoading (live c))
  /\ (uploadProgress (live c1) = None
      \/ uploadProgress (live c1) = uploadProgress (live c))
  /\ ((status (live c1) = AppStatus.Error /\ error (live c1) <> None)
      \/ (status (live c1) = AppStatus.Chatting /\ error (live c1) = None)
      \/ (status (live c1) = status (live c) /\ error (live c1) = error (live c))
      \/ status (live c1) = AppStatus.Initializing).
Proof.
  assert (Hsame : (isQueryLoading (live c) = false
                   \/ isQueryLoading (live c) = isQueryLoading (live c))
                  /\ (uploadProgress (live c) = None
                      \/ uploadProgress (live c) = uploadProgress (live c))
                  /\ ((status (live c) = AppStatus.Error /\ error (live c) <> None)
                      \/ (status (live c) = AppStatus.Chatting /\ error (live c) = None)
                      \/ (status (live c) = status (live c)
                          /\ error (live c) = error (live c))
                      \/ status (live c) = AppStatus.Initializing)).
  { split; [right; reflexivity|]. split; [right; reflexivity|].
    right. right. left. split; reflexivity. }
  assert (Hsend : forall W held message,
            let c1 := snd (fst (handleSendMessage W held message c)) in
            (isQueryLoading (live c1) = false
             \/ isQueryLoading (live c1) = isQueryLoading (live c))
            /\ (uploadProgress (live c1) = None
                \/ uploadProgress (live c1) = uploadProgress (live c))
            /\ ((status (live c1) = AppStatus.Error /\ error (live c1) <> None)
                \/ (status (live c1) = AppStatus.Chatting /\ error (live c1) = None)
                \/ (status (live c1) = status (live c)
                    /\ error (live c1) = error (live c))
                \/ status (live c1) = AppStatus.Initializing)).
  { intros W held message c1.
    destruct (handleSendMessage_frame W held message c) as (Hp & _ & _ & Hl & He).
    fold c1 in Hp, Hl, He.
    split. { destruct Hl as [Hl|Hl]; [left; exact Hl|right; rewrite Hl; reflexivity]. }
    split; [right; exact Hp|].
    destruct He as [[Hs He]|[Hs He]].
    - left. split; [exact Hs|]. rewrite He. discriminate.
    - right. right. left. split; assumption. }
  destruct i as [W event| |W message]; unfold handle.
  - unfold handleMessage. cbv beta zeta.
    destruct (fromParent event); [|exact Hsame].
    change (negb true) with false. cbv beta iota.
    destruct (data event) as [[payload|dn|message| |type]|]; [| | | | |exact Hsame].
    + destruct (negb (AppStatus.eqb (status (listener c)) AppStatus.Initializing)
                && negb (AppStatus.eqb (status (listener c)) AppStatus.Error)
                && negb (AppStatus.eqb (status (listener c)) AppStatus.Chatting));
        [exact Hsame|].
      destruct (handleInitChat_frame W (InitChatPayload.files payload)
                  (InitChatPayload.chatDisplayName payload) c)
        as (c1 & t & Hrun & Hload & Hprog & HE & HC & _).
      destruct (handleInitChat_run W (InitChatPayload.files payload)
                  (InitChatPayload.chatDisplayName payload) c)
        as (c1' & t' & Hrun' & _ & Hend).
      rewrite Hrun in Hrun'. inversion Hrun'; subst c1' t'. clear Hrun'.
      rewrite Hrun. simpl.
      split; [right; exact Hload|]. split; [exact Hprog|].
      destruct Hend as [Hst|(Hst & _)].
      * left. split; [exact Hst|].
        destruct (HE Hst) as ((m & Hm & _) & _). rewrite Hm. discriminate.
      * right. left. split; [exact Hst|]. apply (HC Hst).
    + destruct (negb (AppStatus.eqb (status (listener c)) AppStatus.Initializing)
                && negb (AppStatus.eqb (status (listener c)) AppStatus.Error)
                && negb (AppStatus.eqb (status (listener c)) AppStatus.Chatting));
        exact Hsame.
    + destruct (AppStatus.eqb (status (listener c)) AppStatus.Chatting); [|exact Hsame].
      apply Hsend.
    + destruct (handleResetChat_frame W (activeRagStoreName (listener c)) c)
        as (Hp & Hl & Hs).
      split; [exact Hl|]. split; [right; exact Hp|].
      destruct Hs as [[Hs (m & Hm)]|Hs].
      * left. split; [exact Hs|]. rewrite Hm. discriminate.
      * right. right. right. exact Hs.
    + destruct (JS.truthy type); exact Hsame.
  - destruct (AppStatus.eqb (status (live c)) AppStatus.Error); [|exact Hsame].
    js_eval. cbn [clearError]. js_eval.
    split; [right; reflexivity|]. split; [right; reflexivity|].
    right. right. right. reflexivity.
  - destruct (AppStatus.eqb (status (live c)) AppStatus.Chatting); [|exact Hsame].
    apply Hsend.
Qed.

Lemma step_live (i : Input) (c : Component) :
  live (fst (step i c)) = live (snd (fst (handle i c))).
Proof.
  destruct (step_run i c) as (r & c1 & t & Hh & Hstep).
  rewrite Hstep, Hh. reflexivity.
Qed.

(** X8.  Between two inputs nothing is left pending on the screen: in
    every reachable state the loading flag is off and the upload progress
    is null, whichever way the handlers ended (their [finally] clauses
    reset both). *)
Theorem no_pending_indicator_between_inputs (c : Component) :
  reachable c ->
  isQueryLoading (live c) = false /\ uploadProgress (live c) = None.
Proof.
  intros [inputs <-].
  assert (H : forall c0,
             isQueryLoading (live c0) = false /\ uploadProgress (live c0) = None ->
             isQueryLoading (live (fst (run inputs c0))) = false
             /\ uploadProgress (live (fst (run inputs c0))) = None).
  { induction inputs as [|i rest IH]; intros c0 Hc0; [exact Hc0|].
    simpl.
    assert (H1 : isQueryLoading (live (fst (step i c0))) = false
                 /\ uploadProgress (live (fst (step i c0))) = None).
    { rewrite step_live.
      destruct (handle_frame i c0) as (Hl & Hp & _).
      destruct Hc0 as [Hl0 Hp0]. split.
      - destruct Hl as [Hl|Hl]; congruence.
      - destruct Hp as [Hp|Hp]; congruence. }
    destruct (step i c0) as [c1 t1]. simpl in H1.
    specialize (IH c1 H1). destruct (run rest c1) as [c2 t2]. exact IH. }
  apply H. split; reflexivity.
Qed.


(** ** Resets *)

(** An input other than an acknowledgment that ends in status
    [Initializing] leaves the registered listener as it was. *)
Lemma handle_listener_Initializing (i : Input) (c : Component) :
  coherent c ->
  notTryAgain i = true ->
  status (live (snd (fst (handle i c)))) = AppStatus.Initializing ->
  listener (snd (fst (handle i c))) = listener c.
Proof.
  intros (Hl & _) Hi.
  assert (Hsend : forall W held message,
            listener (snd (fst (handleSendMessage W held message c))) = listener c).
  { intros W held message.
    destruct (handleSendMessage_run W held message c) as (c1 & t & Hrun & Hlis & _).
    rewrite Hrun. simpl. apply Hlis. exact Hl. }
  destruct i as [W event| |W message]; unfold handle; [| discriminate Hi |].
  - unfold handleMessage. cbv beta zeta.
    destruct (fromParent event); [|reflexivity].
    change (negb true) with false. cbv beta iota.
    destruct (data event) as [[payload|dn|message| |type]|]; [| | | | |reflexivity].
    + destruct (negb (AppStatus.eqb (status (listener c)) AppStatus.Initializing)
                && negb (AppStatus.eqb (status (listener c)) AppStatus.Error)
                && negb (AppStatus.eqb (status (listener c)) AppStatus.Chatting));
        [reflexivity|].
      destruct (handleInitChat_run W (InitChatPayload.files payload)
                  (InitChatPayload.chatDisplayName payload) c)
        as (c1 & t & Hrun & _ & [Hst|(Hst & _)]);
        rewrite Hrun; simpl; intro H; congruence.
    + destruct (negb (AppStatus.eqb (status (listener c)) AppStatus.Initializing)
                && negb (AppStatus.eqb (status (listener c)) AppStatus.Error)
                && negb (AppStatus.eqb (status (listener c)) AppStatus.Chatting));
        reflexivity.
    + destruct (AppStatus.eqb (status (listener c)) AppStatus.Chatting); [|reflexivity].
      intros _. apply Hsend.
    + destruct (handleResetChat_run W (activeRagStoreName (listener c)) c)
        as (c1 & t & Hrun & Hlis & _).
      rewrite Hrun. simpl. intros _. apply Hlis. exact Hl.
    + destruct (JS.truthy type); reflexivity.
  - destruct (AppStatus.eqb (status (live c)) AppStatus.Chatting); [|reflexivity].
    intros _. apply Hsend.
Qed.

(** Without an acknowledgment, the listener of a session in status
    [Initializing] holds no store name. *)
Lemma step_listener_no_store (i : Input) (c : Component) :
  coherent c -> notTryAgain i = true ->
  (status (live c) = AppStatus.Initializing -> activeRagStoreName (listener c) = None) ->
  status (live (fst (step i c))) = AppStatus.Initializing ->
  activeRagStoreName (listener (fst (step i c))) = None.
Proof.
  intros Hc Hi Hinv.
  pose proof (handle_listener_Initializing i c Hc Hi) as Hlis.
  destruct (handle_run i c Hc) as (r0 & c1 & t & Hh & Hcases).
  destruct (step_run i c) as (r & c1' & t' & Hh' & Hstep).
  rewrite Hh in Hh'. inversion Hh'; subst r c1' t'. clear Hh'.
  rewrite Hh in Hlis. simpl in Hlis.
  rewrite Hstep. simpl. intro HI. specialize (Hlis HI).
  destruct Hc as (Hl & _).
  destruct (AppStatus.eqb (status (live c1)) (status (listener c1))) eqn:E.
  - apply AppStatus_eqb_eq in E. rewrite Hlis. apply Hinv.
    rewrite <- Hl, <- Hlis, <- E. exact HI.
  - destruct Hcases as [(Hs & Ha & Hl1)|[HE|[(_ & HN)|[(HC & _)|(Hack & _)]]]].
    + apply AppStatus_eqb_neq in E. exfalso. apply E. rewrite Hlis. congruence.
    + congruence.
    + exact HN.
    + congruence.
    + subst i. discriminate Hi.
Qed.

Lemma run_listener_no_store (inputs : list Input) :
  forall c,
    coherent c -> forallb notTryAgain inputs = true ->
    (status (live c) = AppStatus.Initializing -> activeRagStoreName (listener c) = None) ->
    status (live (fst (run inputs c))) = AppStatus.Initializing ->
    activeRagStoreName (listener (fst (run inputs c))) = None.
Proof.
  induction inputs as [|i rest IH]; intros c Hc Hall Hinv; [exact Hinv|].
  simpl in Hall. apply andb_prop in Hall. destruct Hall as [Hi Hrest].
  simpl.
  pose proof (step_coherent i c Hc) as H1.
  pose proof (step_listener_no_store i c Hc Hi Hinv) as H2.
  destruct (step i c) as [c1 t1]. simpl in H1, H2.
  specialize (IH c1 H1 Hrest H2). destruct (run rest c1) as [c2 t2]. exact IH.
Qed.

(** X10.  In a session in which no error was acknowledged with "Try Again
    / Reset", a [resetChat] received in status [Initializing] (at start-up
    or after a completed reset) calls no service: its one effect is the
    [chatEnded] event for a session without store, and the status stays
    [Initializing]. *)
Theorem resetChat_in_Initializing_calls_no_service (W : World) (inputs : list Input) :
  forallb notTryAgain inputs = true ->
  let c := fst (run inputs mount) in
  status (live c) = AppStatus.Initializing ->
  snd (step (onMessage W (fromHost resetChat)) c)
  = [post (chatEnded "Chat session reset (no active store).")]
  /\ status (live (fst (step (onMessage W (fromHost resetChat)) c)))
     = AppStatus.Initializing
  /\ activeRagStoreName (live (fst (step (onMessage W (fromHost resetChat)) c))) = None.
Proof.
  intros Hall c HI.
  assert (Hheld : activeRagStoreName (listener c) = None).
  { apply run_listener_no_store; try assumption.
    - exact mount_coherent.
    - intros _. reflexivity. }
  unfold step, handle, handleMessage. simpl.
  rewrite Hheld. unfold handleResetChat. simpl JS.truthy_opt. cbv iota.
  js_eval. repeat split.
Qed.

(** ** Initialization: stores, uploads and events *)

(** X11.  An initialization deletes at most one store, and only the store
    it has itself just created; when it succeeds it deletes none.  So an
    [initChat] received while a session is active never deletes the store
    of that session (unless the service hands out the same name again). *)
Theorem initChat_deletes_only_the_store_it_created
    (W : World) (files : list InitChatPayloadFile.t) (dn : option string) (c : Component) :
  let c' := snd (fst (handleInitChat W files dn c)) in
  let t := snd (handleInitChat W files dn c) in
  (deleted t = []
   \/ exists name, createRagStore W (sessionStoreName W) = inr name /\ deleted t = [name])
  /\ (status (live c') = AppStatus.Chatting -> deleted t = [])
  /\ (forall old,
        activeRagStoreName (live c) = Some old ->
        createRagStore W (sessionStoreName W) <> inr old ->
        ~ In old (deleted t)).
Proof.
  intros c' t. subst c' t.
  destruct (handleInitChat_frame W files dn c)
    as (c1 & t & Hrun & _ & _ & _ & _ & Hdel & _).
  destruct (handleInitChat_run W files dn c) as (c1' & t' & Hrun' & _ & Hend).
  rewrite Hrun in Hrun'. inversion Hrun'; subst c1' t'. clear Hrun'.
  rewrite Hrun. simpl.
  split; [exact Hdel|]. split.
  - intro Hst. destruct Hend as [HE|(_ & _ & _ & _ & _ & _ & _ & _ & Hd)];
      [congruence|exact Hd].
  - intros old _ Hne Hin.
    destruct Hdel as [Hd|(name & Hc & Hd)]; rewrite Hd in Hin.
    + destruct Hin.
    + destruct Hin as [<-|[]]. apply Hne. exact Hc.
Qed.

(** X12.  Every [uploadToRagStore] call of an initialization targets the
    store that this initialization created.  The uploads follow the
    payloads: the [k]-th upload carries the file that the resolver returns
    for the [k]-th payload, so there is at most one upload per payload, in
    payload order; and after a success there is exactly one per payload. *)
Theorem uploads_target_the_created_store
    (W : World) (files : list InitChatPayloadFile.t) (dn : option string) (c : Component) :
  let c' := snd (fst (handleInitChat W files dn c)) in
  let t := snd (handleInitChat W files dn c) in
  (forall target, In target (uploadTargets t) ->
     createRagStore W (sessionStoreName W) = inr target)
  /\ length (uploaded t) <= length files
  /\ (forall k file,
        nth_error (uploaded t) k = Some file ->
        exists p, nth_error files k = Some p
                  /\ forall c0, fst (fst (getFileFromPayload W k p c0)) = Normal file)
  /\ (status (live c') = AppStatus.Chatting ->
      length (uploaded t) = length files
      /\ map File.name (uploaded t) = map resolvedName files).
Proof.
  intros c' t. subst c' t.
  destruct (handleInitChat_frame W files dn c)
    as (c1 & t & Hrun & _ & _ & _ & _ & _ & Htg).
  destruct (handleInitChat_run W files dn c) as (c1' & t' & Hrun' & Hup & Hend).
  rewrite Hrun in Hrun'. inversion Hrun'; subst c1' t'. clear Hrun'.
  rewrite Hrun. simpl.
  split; [exact Htg|]. split; [|split].
  - destruct Hup as [Hup|(name & k & rl & cl & tl & Hloop & Hup & _)].
    + rewrite Hup. simpl. lia.
    + destruct (uploadLoop_run W name (length files) files 0 [] k)
        as (rl' & cl' & tl' & Hloop' & _ & _ & _ & _ & Hlen & _).
      rewrite Hloop in Hloop'. inversion Hloop'; subst rl' cl' tl'.
      rewrite Hup. exact Hlen.
  - intros k file Hk.
    destruct Hup as [Hup|(name & k0 & rl & cl & tl & Hloop & Hup & _)].
    + rewrite Hup in Hk. destruct k; discriminate.
    + rewrite Hup in Hk.
      pose proof (uploadLoop_files W name (length files) files 0 [] k0 k file) as Hf.
      rewrite Hloop in Hf. exact (Hf Hk).
  - intro Hst. destruct Hend as [HE|(_ & _ & _ & _ & _ & Hl & Hn & _)];
      [congruence|split; assumption].
Qed.

(** X13.  After an initialization that ended in status [Chatting] the
    session holds what the services returned: the active store name is
    the name returned by [createRagStore], the example questions are those
    returned by [generateExampleQuestions] for that store, the chat
    history is empty and the error is null. *)
Theorem successful_initChat_installs_the_new_session
    (W : World) (files : list InitChatPayloadFile.t) (dn : option string) (c : Component) :
  let c' := snd (fst (handleInitChat W files dn c)) in
  status (live c') = AppStatus.Chatting ->
  exists name questions,
    createRagStore W (sessionStoreName W) = inr name
    /\ generateExampleQuestions W name = inr questions
    /\ activeRagStoreName (live c') = Some name
    /\ exampleQuestions (live c') = questions
    /\ chatHistory (live c') = []
    /\ error (live c') = None.
Proof.
  intro c'. subst c'.
  destruct (handleInitChat_frame W files dn c)
    as (c1 & t & Hrun & _ & _ & _ & HC & _).
  destruct (handleInitChat_run W files dn c) as (c1' & t' & Hrun' & _ & Hend).
  rewrite Hrun in Hrun'. inversion Hrun'; subst c1' t'. clear Hrun'.
  rewrite Hrun. simpl. intro Hst.
  destruct (HC Hst) as (Herr & name & questions & Hc & Hg & Hs & Hq).
  destruct Hend as [HE|(_ & _ & _ & _ & Hhist & _)]; [congruence|].
  exists name, questions. repeat split; assumption.
Qed.

(** X14.  After an initialization that ended in status [Error], the
    message stored for the error screen is the message of the one
    [chatError] event that was posted, and the chat history, the example
    questions and the document name are those from before the command. *)
Theorem failed_initChat_reports_once_and_keeps_the_chat
    (W : World) (files : list InitChatPayloadFile.t) (dn : option string) (c : Component) :
  let c' := snd (fst (handleInitChat W files dn c)) in
  let t := snd (handleInitChat W files dn c) in
  status (live c') = AppStatus.Error ->
  (exists m, error (live c') = Some m /\ posted t = [chatError m])
  /\ chatHistory (live c') = chatHistory (live c)
  /\ exampleQuestions (live c') = exampleQuestions (live c)
  /\ documentName (live c') = documentName (live c).
Proof.
  intros c' t. subst c' t.
  destruct (handleInitChat_frame W files dn c)
    as (c1 & t & Hrun & _ & _ & HE & _).
  rewrite Hrun. simpl. exact HE.
Qed.

(** X15.  Every [initChat] command with a [files] array that a reachable
    session processes is answered by exactly one event, [chatReady] or
    [chatError]; and every [resetChat] command by exactly one event,
    [chatEnded] or [chatError]. *)
Theorem initChat_and_resetChat_post_exactly_one_event
    (W : World) (c : Component) (payload : InitChatPayload.t) :
  reachable c ->
  ((exists documentName,
      posted (snd (step (onMessage W (fromHost (initChat payload))) c))
      = [chatReady documentName])
   \/ (exists m,
         posted (snd (step (onMessage W (fromHost (initChat payload))) c))
         = [chatError m]))
  /\ ((exists m,
         posted (snd (step (onMessage W (fromHost resetChat)) c)) = [chatEnded m])
      \/ (exists m,
            posted (snd (step (onMessage W (fromHost resetChat)) c)) = [chatError m])).
Proof.
  intro Hreach.
  destruct (reachable_coherent c Hreach) as (Hl & HnU & HnW & _).
  split.
  - destruct (handleInitChat_frame W (InitChatPayload.files payload)
                (InitChatPayload.chatDisplayName payload) c)
      as (c1 & t & Hrun & _ & _ & HE & _).
    destruct (handleInitChat_run W (InitChatPayload.files payload)
                (InitChatPayload.chatDisplayName payload) c)
      as (c1' & t' & Hrun' & _ & Hend).
    rewrite Hrun in Hrun'. inversion Hrun'; subst c1' t'. clear Hrun'.
    assert (Hs : snd (step (onMessage W (fromHost (initChat payload))) c) = t).
    { unfold step, handle, handleMessage. simpl. rewrite Hl.
      destruct (status (live c)) eqn:E; try (exfalso; congruence); simpl;
        rewrite Hrun; reflexivity. }
    rewrite Hs.
    destruct Hend as [Hst|(_ & _ & _ & _ & _ & _ & _ & Hp & _)].
    + right. destruct (HE Hst) as ((m & _ & Hp) & _). exists m. exact Hp.
    + left. eexists. exact Hp.
  - destruct (handleResetChat_run W (activeRagStoreName (listener c)) c)
      as (c1 & t & Hrun & _ & Hcases).
    assert (Hs : snd (step (onMessage W (fromHost resetChat)) c) = t).
    { unfold step, handle, handleMessage. simpl. rewrite Hrun. reflexivity. }
    rewrite Hs.
    destruct (JS.truthy_opt (activeRagStoreName (listener c))).
    + destruct (deleteRagStore W (the (activeRagStoreName (listener c)))).
      * right. destruct Hcases as (-> & _). eexists. reflexivity.
      * left. destruct Hcases as (-> & _). eexists. reflexivity.
    + left. destruct Hcases as (-> & _). eexists. reflexivity.
Qed.

(** ** What the user sees after a failed query *)

(** X16.  After a query whose [fileSearch] call was rejected, the widget
    renders the error screen with the text "Failed to get response"
    followed by the error; the chat interface, and with it the apology
    that was appended to the history, is not rendered. *)
Theorem failed_query_renders_the_error_screen
    (W : World) (c : Component) (message s : string) (err : JS.Thrown) :
  reachable c ->
  status (live c) = AppStatus.Chatting ->
  activeRagStoreName (live c) = Some s ->
  JS.truthy s = true ->
  fileSearch W s message = inl err ->
  renderContent (live (fst (step (onMessage W (fromHost (sendMessage message))) c)))
  = ErrorView (Some (errorMessageOf "Failed to get response" (Some err))).
Proof.
  intros Hreach Hst Hstore Htruthy Hfail.
  destruct (reachable_coherent c Hreach) as (Hl & _ & _ & Hchat).
  destruct (Hchat Hst) as [Hheld _].
  rewrite step_live. unfold handle, handleMessage, fromHost.
  cbn [fromParent data negb]. cbv beta zeta.
  rewrite Hl, Hst. cbn [AppStatus.eqb].
  destruct (handleSendMessage_frame W (activeRagStoreName (listener c)) message c)
    as (_ & _ & _ & _ & He).
  destruct (handleSendMessage_run W (activeRagStoreName (listener c)) message c)
    as (c2 & t2 & Hrun & _ & _ & Hcases).
  rewrite Hrun in He |- *. simpl in He |- *.
  rewrite Hheld, Hstore in Hcases, He. simpl in Hcases, He.
  rewrite Htruthy, Hfail in Hcases. rewrite Hfail in He.
  destruct Hcases as (_ & Hs & _).
  destruct He as [[_ He]|[Hs' _]]; [|congruence].
  unfold renderContent. rewrite Hs, He. reflexivity.
Qed.

(** ** Instances of the further properties *)

Lemma dropped_message_witness :
  live (fst (step (onMessage allSucceed
                     {| fromParent := true; data := Some (otherType "ping") |})
               chattingSession))
  = live chattingSession
  /\ posted (snd (step (onMessage allSucceed
                          {| fromParent := true; data := Some (otherType "ping") |})
                    chattingSession)) = []
  /\ filter isServiceCall
       (snd (step (onMessage allSucceed
                     {| fromParent := true; data := Some (otherType "ping") |})
               chattingSession)) = [].
Proof.
  apply (dropped_message_changes_nothing allSucceed chattingSession
           {| fromParent := true; data := Some (otherType "ping") |}).
  right. right. exists "ping". reflexivity.
Defined.

Lemma initChat_while_Uploading_witness :
  live (fst (step (onMessage allSucceed (fromHost (initWith [fileA] None)))
               uploadingComponent))
  = live uploadingComponent
  /\ snd (step (onMessage allSucceed (fromHost (initWith [fileA] None))) uploadingComponent)
     = [console_warn "Ignoring initChat: App is not in an initial or error state."].
Proof.
  apply (initChat_while_Uploading_ignored allSucceed uploadingComponent).
  - reflexivity.
  - reflexivity.
Defined.

(** An initialization that fails on its second payload ends normally; an
    [initChat] message without [files] throws, before and during a chat. *)
Lemma handlers_never_throw_witness :
  fst (fst (handle (onMessage allSucceed (fromHost (initWith [fileA; fileNoSource] None)))
              mount))
  = Normal tt
  /\ handle (onMessage allSucceed (fromHost (initChatNoFiles None))) mount
     = (Throws lengthOfUndefined, mount, [])
  /\ handle (onMessage allSucceed (fromHost (initChatNoFiles (Some "Contracts"))))
       chattingSession
     = (Throws lengthOfUndefined, chattingSession, [])
  /\ handle (onMessage allSucceed (fromHost (initChatNoFiles None))) uploadingComponent
     = (Normal tt, uploadingComponent,
        [console_warn "Ignoring initChat: App is not in an initial or error state."]).
Proof.
  split; [|split; [|split]].
  - apply (proj1 (handlers_never_throw allSucceed
                    (onMessage allSucceed (fromHost (initWith [fileA; fileNoSource] None)))
                    mount)).
    intros W0 event dn H. injection H as _ <-. discriminate.
  - apply (proj1 (proj1 (proj2 (handlers_never_throw allSucceed
                                  (onMessage allSucceed (fromHost (initChatNoFiles None)))
                                  mount))
                    (fromHost (initChatNoFiles None)) None eq_refl eq_refl)).
    left. reflexivity.
  - apply (proj1 (proj1 (proj2 (handlers_never_throw allSucceed
                                  (onMessage allSucceed (fromHost (initChatNoFiles None)))
                                  chattingSession))
                    (fromHost (initChatNoFiles (Some "Contracts"))) (Some "Contracts")
                    eq_refl eq_refl)).
    right. right. vm_compute. reflexivity.
  - apply (proj2 (proj1 (proj2 (handlers_never_throw allSucceed
                                  (onMessage allSucceed (fromHost (initChatNoFiles None)))
                                  uploadingComponent))
                    (fromHost (initChatNoFiles None)) None eq_refl eq_refl)).
    left. reflexivity.
Defined.

Lemma successful_query_witness :
  let c' := fst (step (onMessage allSucceed (fromHost (sendMessage "hi"))) chattingSession) in
  let t := snd (step (onMessage allSucceed (fromHost (sendMessage "hi"))) chattingSession) in
  chatHistory (live c')
  = [userMessageOf "hi";
     {| ChatMessage.role := model; ChatMessage.parts := ["It is."];
        ChatMessage.groundingChunks := Some [] |}]
  /\ status (live c') = AppStatus.Chatting
  /\ activeRagStoreName (live c') = Some "fileSearchStores/demo"
  /\ t = [call_fileSearch "fileSearchStores/demo" "hi"; post (chatResponse "It is." [])].
Proof.
  apply (successful_query_appends_user_and_model_message
           allSucceed chattingSession "hi" "fileSearchStores/demo"
           {| QueryResult.text := "It is."; QueryResult.groundingChunks := [] |}).
  - exists [onMessage allSucceed (fromHost (initWith [fileA] None))].
    unfold chattingSession. reflexivity.
  - vm_compute. reflexivity.
  - vm_compute. reflexivity.
  - reflexivity.
  - reflexivity.
Defined.

Lemma unload_witness :
  deleted (snd (handleUnload deleteFails chattingSession)) = ["fileSearchStores/demo"]
  /\ posted (snd (handleUnload deleteFails chattingSession)) = [].
Proof.
  assert (R : reachable chattingSession).
  { exists [onMessage allSucceed (fromHost (initWith [fileA] None))].
    unfold chattingSession. reflexivity. }
  destruct (unload_deletes_exactly_the_active_store deleteFails chattingSession R)
    as (_ & _ & Hp & Hd).
  split; [|exact Hp].
  rewrite Hd. vm_compute. reflexivity.
Defined.

Lemma early_init_failure_witness :
  snd (handleInitChat initializeFails [fileA] None mount)
  = [call_initialize;
     console_error "Initialization failed." (Some (JS.ErrorObject "API_KEY is not set"));
     post (chatError "Initialization failed.: API_KEY is not set")]
  /\ snd (handleInitChat createFails [fileA] None mount)
     = [call_initialize;
        call_createRagStore "chat-session-1700000000000";
        console_error
          "The API key is invalid or not found. Please ensure a valid API Key is configured."
          (Some (JS.ErrorObject "API key not valid. Please pass a valid API key."));
        post (chatError
                "The API key is invalid or not found. Please ensure a valid API Key is configured.: API key not valid. Please pass a valid API key.")].
Proof.
  split.
  - refine (proj1 (proj1 (early_init_failure_stops_the_initialization
                            initializeFails [fileA] None mount
                            (JS.ErrorObject "API_KEY is not set") _) _)).
    + discriminate.
    + reflexivity.
  - refine (proj1 (proj2 (early_init_failure_stops_the_initialization
                            createFails [fileA] None mount
                            (JS.ErrorObject "API key not valid. Please pass a valid API key.")
                            _) _ _)).
    + discriminate.
    + reflexivity.
    + reflexivity.
Defined.

(** The progress bar without a progress object, with a progress object
    whose total is zero and whose message is empty, and at the first step
    of an initialization. *)
Lemma progress_bar_witness :
  (renderContent (uploadingState None)
   = ProgressBarView 0 1 "Preparing your chat..." None None
   /\ 1 <> 0 /\ "Preparing your chat..." <> EmptyString)
  /\ (renderContent (uploadingState (Some emptyProgress))
      = ProgressBarView 2 1 "Preparing your chat..." None None
      /\ 1 <> 0 /\ "Preparing your chat..." <> EmptyString)
  /\ (renderContent (live uploadingComponent)
      = ProgressBarView 0 3 "Creating document index..." None
          (Some "https://services.google.com/fh/files/misc/applet-upload.png")
      /\ 3 <> 0 /\ "Creating document index..." <> EmptyString).
Proof.
  split; [|split].
  - split; [reflexivity|].
    destruct (progress_bar_total_and_message_never_empty (uploadingState None)
                0 1 "Preparing your chat..." None None eq_refl) as (_ & Ht & Hm & _).
    split; assumption.
  - split; [reflexivity|].
    destruct (progress_bar_total_and_message_never_empty
                (uploadingState (Some emptyProgress))
                2 1 "Preparing your chat..." None None eq_refl) as (_ & Ht & Hm & _).
    split; assumption.
  - split; [reflexivity|].
    destruct (progress_bar_total_and_message_never_empty (live uploadingComponent)
                0 3 "Creating document index..." None
                (Some "https://services.google.com/fh/files/misc/applet-upload.png")
                eq_refl) as (_ & Ht & Hm & _).
    split; assumption.
Defined.

Lemma no_pending_indicator_witness :
  isQueryLoading (live sessionAfterFailedQuery) = false
  /\ uploadProgress (live sessionAfterFailedQuery) = None.
Proof.
  apply (no_pending_indicator_between_inputs sessionAfterFailedQuery).
  exists [onMessage allSucceed (fromHost (initWith [fileA] None));
          onMessage searchFails (fromHost (sendMessage "hi"))].
  unfold sessionAfterFailedQuery. reflexivity.
Defined.


Lemma resetChat_in_Initializing_witness :
  snd (step (onMessage deleteFails (fromHost resetChat)) (fst (run sessionAfterReset mount)))
  = [post (chatEnded "Chat session reset (no active store).")].
Proof.
  apply (resetChat_in_Initializing_calls_no_service deleteFails sessionAfterReset).
  - reflexivity.
  - vm_compute. reflexivity.
Defined.

Lemma initChat_deletes_only_witness :
  ~ In "fileSearchStores/demo"
      (deleted (snd (handleInitChat nextStoreThenFailure [fileA] None chattingSession))).
Proof.
  apply (proj2 (proj2 (initChat_deletes_only_the_store_it_created
                         nextStoreThenFailure [fileA] None chattingSession))).
  - vm_compute. reflexivity.
  - discriminate.
Defined.

(** Two payloads, one fetched and one inline; and a payload without a
    source after a fetched one. *)
Lemma uploads_target_witness :
  (length (uploaded (snd (handleInitChat allSucceed [fileA; fileB] None mount))) = 2
   /\ map File.name (uploaded (snd (handleInitChat allSucceed [fileA; fileB] None mount)))
      = ["A.pdf"; "B.pdf"])
  /\ (exists p, nth_error [fileA; fileB] 1 = Some p
                /\ forall c0,
                     fst (fst (getFileFromPayload allSucceed 1 p c0))
                     = Normal {| File.name := "B.pdf"; File.type := "application/pdf";
                                 File.bytes := ["a"%byte; "b"%byte; "c"%byte] |})
  /\ length (uploaded (snd (handleInitChat allSucceed [fileA; fileNoSource] None mount)))
     <= 2.
Proof.
  split; [|split].
  - apply (proj2 (proj2 (proj2 (uploads_target_the_created_store
                                  allSucceed [fileA; fileB] None mount)))).
    vm_compute. reflexivity.
  - apply (proj1 (proj2 (proj2 (uploads_target_the_created_store
                                  allSucceed [fileA; fileB] None mount))) 1).
    vm_compute. reflexivity.
  - exact (proj1 (proj2 (uploads_target_the_created_store
                           allSucceed [fileA; fileNoSource] None mount))).
Defined.

Lemma successful_initChat_witness :
  exists name questions,
    createRagStore allSucceed (sessionStoreName allSucceed) = inr name
    /\ generateExampleQuestions allSucceed name = inr questions
    /\ activeRagStoreName
         (live (snd (fst (handleInitChat allSucceed [fileA] None mount)))) = Some name
    /\ exampleQuestions
         (live (snd (fst (handleInitChat allSucceed [fileA] None mount)))) = questions
    /\ chatHistory (live (snd (fst (handleInitChat allSucceed [fileA] None mount)))) = []
    /\ error (live (snd (fst (handleInitChat allSucceed [fileA] None mount)))) = None.
Proof.
  apply (successful_initChat_installs_the_new_session allSucceed [fileA] None mount).
  vm_compute. reflexivity.
Defined.

Lemma failed_initChat_witness :
  let c' := snd (fst (handleInitChat nextStoreThenFailure [fileA] None chattingSession)) in
  let t := snd (handleInitChat nextStoreThenFailure [fileA] None chattingSession) in
  (exists m, error (live c') = Some m /\ posted t = [chatError m])
  /\ chatHistory (live c') = chatHistory (live chattingSession)
  /\ exampleQuestions (live c') = exampleQuestions (live chattingSession)
  /\ documentName (live c') = documentName (live chattingSession).
Proof.
  apply (failed_initChat_reports_once_and_keeps_the_chat
           nextStoreThenFailure [fileA] None chattingSession).
  vm_compute. reflexivity.
Defined.

Lemma one_event_witness :
  ((exists documentName,
      posted (snd (step (onMessage allSucceed (fromHost (initWith [fileA] None))) mount))
      = [chatReady documentName])
   \/ (exists m,
         posted (snd (step (onMessage allSucceed (fromHost (initWith [fileA] None))) mount))
         = [chatError m]))
  /\ ((exists m,
         posted (snd (step (onMessage allSucceed (fromHost resetChat)) mount))
         = [chatEnded m])
      \/ (exists m,
            posted (snd (step (onMessage allSucceed (fromHost resetChat)) mount))
            = [chatError m])).
Proof.
  apply (initChat_and_resetChat_post_exactly_one_event allSucceed mount).
  exists []. reflexivity.
Defined.

Lemma failed_query_view_witness :
  renderContent
    (live (fst (step (onMessage searchFails (fromHost (sendMessage "hi"))) chattingSession)))
  = ErrorView (Some "Failed to get response: 503 Service Unavailable").
Proof.
  apply (failed_query_renders_the_error_screen searchFails chattingSession "hi"
           "fileSearchStores/demo" (JS.ErrorObject "503 Service Unavailable")).
  - exists [onMessage allSucceed (fromHost (initWith [fileA] None))].
    unfold chattingSession. reflexivity.
  - vm_compute. reflexivity.
  - vm_compute. reflexivity.
  - reflexivity.
  - reflexivity.
Defined.
